(** * Witside DWH pipeline: the ETL module (dwh_etl_pipeline.py)

    A shallow embedding of [transform_raw_data], [check_and_insert_dimension]
    and [run_etl_pipeline], with the parts of pandas, NumPy and the warehouse
    they rely on, followed by the properties of the ETL specification. *)

From Stdlib Require Import ZArith Lia.
From stdpp Require Import gmap strings list fin_maps sorting.

Local Open Scope string_scope.
Local Open Scope list_scope.
Local Open Scope nat_scope.

(** ** Data model: cells, rows and frames *)

(** A cell of a [pandas.DataFrame].  [NaN] stands for every missing value
    (NaN, None, NaT); [Timestamp] is a datetime64 value in nanoseconds. *)
Inductive Value : Type :=
  | NaN
  | Str (s : string)
  | Int (z : Z)
  | Timestamp (t : Z).

#[global] Instance Value_eq_dec : EqDecision Value.
Proof. solve_decision. Defined.

(** A row maps column names to cells. *)
Abbreviation Row := (gmap string Value).

(** A frame: its column labels and its rows, each with its index label.
    [pd.read_csv] gives the labels 0, 1, 2, ...; masks and sorts keep them. *)
Record DataFrame : Type := mkDataFrame {
  columns : list string;
  rows : list (nat * Row)
}.

Definition cell (r : Row) (c : string) : Value := default NaN (r !! c).

(** [df[c]], the cells of one column in row order. *)
Definition column (c : string) (df : DataFrame) : list Value :=
  (λ ir : nat * Row, cell ir.2 c) <$> rows df.

(** [pd.notna] and [pd.isna]. *)
Definition notna (x : Value) : bool :=
  match x with NaN => false | _ => true end.

Definition isna (x : Value) : bool := negb (notna x).

(** [len(df)] and [df.empty] (an axis of length zero). *)
Definition len (df : DataFrame) : nat := length (rows df).

Definition empty (df : DataFrame) : bool :=
  match rows df, columns df with
  | [], _ | _, [] => true
  | _, _ => false
  end.

(** [df[c] = vals]: the cells are set row by row; a row the series has no
    value for gets NaN, as index alignment does. *)
Fixpoint set_cells (c : string) (rs : list (nat * Row)) (vals : list Value)
  : list (nat * Row) :=
  match rs with
  | [] => []
  | (i, r) :: rs' => (i, <[c := hd NaN vals]> r) :: set_cells c rs' (tl vals)
  end.

Definition assign (c : string) (vals : list Value) (df : DataFrame) : DataFrame :=
  {| columns := if decide (c ∈ columns df) then columns df else columns df ++ [c];
     rows := set_cells c (rows df) vals |}.

(** [df.rename(columns={old: new})]: a label that is no column is ignored;
    otherwise the cells of [old] are now those of [new]. *)
Definition rename_row (old new : string) (r : Row) : Row :=
  <[new := cell r old]> (delete old r).

Definition rename (old new : string) (df : DataFrame) : DataFrame :=
  if decide (old ∈ columns df) then
    {| columns := (λ c, if decide (c = old) then new else c) <$> columns df;
       rows := (λ ir : nat * Row, (ir.1, rename_row old new ir.2)) <$> rows df |}
  else df.

(** [df[mask]] with the mask computed row by row. *)
Definition mask (p : Row → bool) (df : DataFrame) : DataFrame :=
  {| columns := columns df;
     rows := List.filter (λ ir : nat * Row, p ir.2) (rows df) |}.

(** [df[[c1, ..., cn]]] on one row, and on a frame. *)
Definition project_row (cols : list string) (r : Row) : Row :=
  list_to_map ((λ c, (c, cell r c)) <$> cols).

Definition project (cols : list string) (df : DataFrame) : DataFrame :=
  {| columns := cols;
     rows := (λ ir : nat * Row, (ir.1, project_row cols ir.2)) <$> rows df |}.

(** [Series.unique()]: the distinct values in order of first appearance. *)
Fixpoint unique_from (seen : list Value) (l : list Value) : list Value :=
  match l with
  | [] => []
  | x :: l' =>
      if decide (x ∈ seen) then unique_from seen l'
      else x :: unique_from (x :: seen) l'
  end.

Definition unique (l : list Value) : list Value := unique_from [] l.

(** [Series.isin(values)]. *)
Definition isin (values : list Value) (x : Value) : bool :=
  bool_decide (x ∈ values).

(** ** dwh_config.STATUS_MAP *)

Definition STATUS_MAP : gmap string Z :=
  <["START" := 1%Z]> (<["ON" := 2%Z]> (<["STOP" := 3%Z]> ∅)).

(** [Series.map(STATUS_MAP)]: a value that is no key of the dict gives NaN. *)
Definition map_status (x : Value) : Value :=
  match x with
  | Str s => match STATUS_MAP !! s with Some z => Int z | None => NaN end
  | _ => NaN
  end.

(** ** NumPy's default sort kind

    [DataFrame.sort_values] is called without [kind], so the argsort behind
    it is NumPy's 'quicksort' on the datetime64 keys: an introsort over the
    index array.  A span of more than [SMALL_QUICKSORT] + 1 entries, that is
    of seventeen entries or more, is split
    around a median of three; the larger part waits on the stack while the
    smaller is split further; a span taken from the stack after the depth
    budget is used up is heap-sorted; short spans are insertion-sorted.
    A span [pl..pr] of the index array is a list here, and the stack of
    waiting spans is the recursion. *)
Module NumPy.

Definition SMALL_QUICKSORT : nat := 15.

Section Argsort.
(** The keys; the index array holds positions into [v]. *)
Variable v : list Z.

Definition key (i : nat) : Z := nth i v 0%Z.
Definition less (a b : Z) : bool := (a <? b)%Z.
Definition at_ (s : list nat) (k : nat) : nat := nth k s 0.

Definition INTP_SWAP (s : list nat) (i j : nat) : list nat :=
  <[j := at_ s i]> (<[i := at_ s j]> s).

(** Insertion sort of a span: [vi] is moved down from [pj] past every
    entry with a larger key. *)
Fixpoint shift (s : list nat) (vi : nat) (pj : nat) : list nat :=
  match pj with
  | 0 => <[0 := vi]> s
  | S pk =>
      if less (key vi) (key (at_ s pk))
      then shift (<[pj := at_ s pk]> s) vi pk
      else <[pj := vi]> s
  end.

Definition insertion_sort (s : list nat) : list nat :=
  foldl (λ s pi, shift s (at_ s pi) pi) s (seq 1 (length s - 1)).

(** The partition: median of three on [pl], [pm], [pr]; the pivot is
    parked at [pr - 1]; [pi] and [pj] scan towards each other. *)
Definition median3 (s : list nat) (pm pr : nat) : list nat :=
  let s := if less (key (at_ s pm)) (key (at_ s 0)) then INTP_SWAP s pm 0 else s in
  let s := if less (key (at_ s pr)) (key (at_ s pm)) then INTP_SWAP s pr pm else s in
  if less (key (at_ s pm)) (key (at_ s 0)) then INTP_SWAP s pm 0 else s.

(** [do ++pi; while (less(v[*pi], vp))] *)
Fixpoint scan_up (fuel : nat) (s : list nat) (vp : Z) (pi : nat) : nat :=
  match fuel with
  | 0 => S pi
  | S fuel =>
      if less (key (at_ s (S pi))) vp then scan_up fuel s vp (S pi) else S pi
  end.

(** [do --pj; while (less(vp, v[*pj]))] *)
Fixpoint scan_down (s : list nat) (vp : Z) (pj : nat) : nat :=
  match pj with
  | 0 => 0
  | S pk => if less vp (key (at_ s pk)) then scan_down s vp pk else pk
  end.

Fixpoint hoare (fuel : nat) (s : list nat) (vp : Z) (pi pj : nat)
  : list nat * nat :=
  match fuel with
  | 0 => (s, pi)
  | S fuel =>
      let pi := scan_up (length s) s vp pi in
      let pj := scan_down s vp pj in
      if pj <=? pi then (s, pi)
      else hoare fuel (INTP_SWAP s pi pj) vp pi pj
  end.

Definition partition (s : list nat) : list nat * nat :=
  let pr := length s - 1 in
  let pm := pr / 2 in
  let s := median3 s pm pr in
  let vp := key (at_ s pm) in
  let s := INTP_SWAP s pm (pr - 1) in
  let '(s, pi) := hoare (length s) s vp 0 (pr - 1) in
  (INTP_SWAP s pi (pr - 1), pi).

(** Heap sort of a span; [a] is the span indexed from one. *)
Definition a (s : list nat) (k : nat) : nat := at_ s (k - 1).

Fixpoint sift (fuel : nat) (s : list nat) (tmp i j n : nat) : list nat :=
  match fuel with
  | 0 => <[i - 1 := tmp]> s
  | S fuel =>
      if j <=? n then
        let j := if (j <? n) && less (key (a s j)) (key (a s (j + 1)))
                 then j + 1 else j in
        if less (key tmp) (key (a s j))
        then sift fuel (<[i - 1 := a s j]> s) tmp j (j + j) n
        else <[i - 1 := tmp]> s
      else <[i - 1 := tmp]> s
  end.

(** [for (l = n >> 1; l > 0; --l)] *)
Definition heapify (s : list nat) (n : nat) : list nat :=
  foldl (λ s l, sift n s (a s l) l (l + l) n) s (rev (seq 1 (n / 2))).

(** [for (; n > 1;)]: [m] counts the rounds left, [n = m + 1]. *)
Fixpoint sortdown (m : nat) (s : list nat) : list nat :=
  match m with
  | 0 => s
  | S m' =>
      let tmp := a s (S m) in
      let s := <[m := a s 1]> s in
      sortdown m' (sift m s tmp 1 2 m)
  end.

Definition aheapsort (s : list nat) : list nat :=
  sortdown (length s - 1) (heapify s (length s)).

(** The main loop on one span, with the depth budget [cdepth]. *)
Fixpoint qs_loop (fuel : nat) (cdepth : Z) (s : list nat) {struct fuel}
  : list nat :=
  match fuel with
  | 0 => s
  | S fuel =>
      if SMALL_QUICKSORT <? length s - 1 then
        let '(s, pi) := partition s in
        let cdepth := (cdepth - 1)%Z in
        let popped t :=
          if (cdepth <? 0)%Z then aheapsort t else qs_loop fuel cdepth t in
        let lo := take pi s in
        let hi := drop (S pi) s in
        if pi <? (length s - 1) - pi
        then qs_loop fuel cdepth lo ++ at_ s pi :: popped hi
        else popped lo ++ at_ s pi :: qs_loop fuel cdepth hi
      else insertion_sort s
  end.

(** [np.argsort(v, kind='quicksort')]; the budget is twice the position
    of the highest set bit of the length. *)
Definition aquicksort : list nat :=
  let num := length v in
  qs_loop num (2 * Z.of_nat (Nat.log2 num)) (seq 0 num).

End Argsort.
End NumPy.

(** ** pandas' sort on a datetime column *)

Definition as_time (x : Value) : option Z :=
  match x with Timestamp t => Some t | _ => None end.

(** The positions, counted from [k], of the entries that satisfy [p]. *)
Fixpoint positions_from (k : nat) (p : Value → bool) (l : list Value) : list nat :=
  match l with
  | [] => []
  | x :: l' =>
      if p x then k :: positions_from (S k) p l' else positions_from (S k) p l'
  end.

(** [pandas.core.sorting.nargsort], ascending with [na_position='last']:
    the missing keys are set aside, NumPy sorts the others, and the missing
    ones come last.  The column is datetime64, so that a cell is a
    [Timestamp] or NaT. *)
Definition nargsort (items : list Value) : list nat :=
  let non_nans := omap as_time items in
  let non_nan_idx := positions_from 0 (λ x, bool_decide (is_Some (as_time x))) items in
  let nan_idx := positions_from 0 (λ x, bool_decide (as_time x = None)) items in
  ((λ k, nth k non_nan_idx 0) <$> NumPy.aquicksort non_nans) ++ nan_idx.

(** [take]: the rows at the given positions, in that order. *)
Definition take_rows (rs : list (nat * Row)) (indexer : list nat) : list (nat * Row) :=
  omap (λ i, rs !! i) indexer.

(** [df.sort_values(by=c)] with the defaults (ascending, kind 'quicksort',
    missing keys last, index labels kept). *)
Definition sort_values (c : string) (df : DataFrame) : DataFrame :=
  {| columns := columns df;
     rows := take_rows (rows df) (nargsort (column c df)) |}.

(** ** Exceptions, messages and the world the pipeline runs in *)

Inductive Exn : Type :=
  | ValueError (msg : string)
  | TypeError (msg : string)
  | KeyError (key : string)
  | FileNotFoundError (path : string)
  | ProgrammingError (table : string).

(** The two statements the module sends with [pd.read_sql]. *)
Inductive Query : Type :=
  | SelectColumn (column_name table_name : string)
  | SelectMax (column_name table_name : string).

(** What went through the engine: a read, or an append of [nrows] rows. *)
Inductive DbOp : Type :=
  | ReadSql (q : Query)
  | ToSql (name : string) (nrows : nat).

(** The lines the module prints. *)
Inductive Msg : Type :=
  | NoDataToCheck (table_name : string)
  | InsertedEntries (n : nat) (table_name : string)
  | NoNewEntries (table_name : string)
  | RowCounts (raw clean quarantined : nat)
  | StartingExtraction
  | InputFileNotFound (path : string)
  | StartingTransformation
  | QuarantinedRecords (n : nat)
  | StartingLoading
  | WarningMaxEventTime (e : Exn)
  | TableEmptyLoadingAll (table_name : string) (n : nat)
  | LatestEventInDb (latest : Value) (n : nat)
  | LoadedRows (n : nat) (table_name : string)
  | NoNewData (table_name : string)
  | LoadingSkipped.

(** [dwh_config.QUARANTINE_FILE], a path like the paths of the inputs:
    one text names one file. *)
Definition QUARANTINE_FILE : string := "quarantined_events.csv".

(** The outside of a run: the CSV files by path (as [pd.read_csv] reads
    them; the file at [QUARANTINE_FILE] is one of them), what [to_csv]
    last put into the quarantine file (its header and records, or none
    yet), how [pd.read_csv] reads a file that [to_csv] wrote, the tables of
    the warehouse behind the engine, and the two traces. *)
Record World : Type := mkWorld {
  files : gmap string DataFrame;
  quarantine_file : option (list string * list Row);
  reread : list string → list Row → DataFrame;
  tables : gmap string (list Row);
  db_log : list DbOp;
  stdout : list Msg
}.

Inductive Result (A : Type) : Type :=
  | Ok (x : A)
  | Raised (e : Exn).
Arguments Ok {A} x.
Arguments Raised {A} e.

(** State with exceptions: a raise keeps the effects made so far. *)
Definition M (A : Type) : Type := World → Result A * World.

Definition ret {A} (x : A) : M A := λ w, (Ok x, w).

Definition bind {A B} (m : M A) (k : A → M B) : M B :=
  λ w, match m w with
       | (Ok x, w') => k x w'
       | (Raised e, w') => (Raised e, w')
       end.

Definition raise {A} (e : Exn) : M A := λ w, (Raised e, w).

(** [try: m  except Exception as e: handler e] *)
Definition try_except {A} (m : M A) (handler : Exn → M A) : M A :=
  λ w, match m w with
       | (Ok x, w') => (Ok x, w')
       | (Raised e, w') => handler e w'
       end.

Declare Scope etl_scope.
Delimit Scope etl_scope with etl.
Notation "x <- m ;; k" := (bind m (λ x, k))
  (at level 100, m at next level, right associativity) : etl_scope.
Notation "m ;; k" := (bind m (λ _, k))
  (at level 100, right associativity) : etl_scope.

Definition print (m : Msg) : M unit :=
  λ w, (Ok tt, {| files := files w; quarantine_file := quarantine_file w;
                  reread := reread w;
                  tables := tables w; db_log := db_log w;
                  stdout := stdout w ++ [m] |}).

Definition log_db (op : DbOp) (w : World) : World :=
  {| files := files w; quarantine_file := quarantine_file w;
     reread := reread w;
     tables := tables w; db_log := db_log w ++ [op]; stdout := stdout w |}.

(** [SELECT MAX(c)]: the largest timestamp of the column, NULLs ignored;
    NULL when there is none. *)
Definition sql_max (vals : list Value) : Value :=
  foldl (λ acc x,
           match x, acc with
           | Timestamp t, Timestamp m => Timestamp (Z.max m t)
           | Timestamp t, _ => Timestamp t
           | _, _ => acc
           end) NaN vals.

(** [pd.read_sql(query, con=engine)]: the cells of the one result column.
    A table that does not exist makes the statement fail. *)
Definition read_sql (q : Query) : M (list Value) :=
  λ w,
    let w' := log_db (ReadSql q) w in
    match q with
    | SelectColumn c t =>
        match tables w !! t with
        | Some rs => (Ok ((λ r, cell r c) <$> rs), w')
        | None => (Raised (ProgrammingError t), w')
        end
    | SelectMax c t =>
        match tables w !! t with
        | Some rs => (Ok [sql_max ((λ r, cell r c) <$> rs)], w')
        | None => (Raised (ProgrammingError t), w')
        end
    end.

(** [df.to_sql(name, con=engine, if_exists='append', index=False)]: the
    rows are appended; a table that does not exist is created first. *)
Definition to_sql (name : string) (df : DataFrame) : M unit :=
  λ w,
    (Ok tt,
     {| files := files w; quarantine_file := quarantine_file w;
        reread := reread w;
        tables := <[name := default [] (tables w !! name) ++ (snd <$> rows df)]> (tables w);
        db_log := db_log w ++ [ToSql name (len df)];
        stdout := stdout w |}).

(** [df.to_csv(QUARANTINE_FILE, index=False)]: the file at that path is
    rewritten, also when it is a file that was read. *)
Definition to_csv_quarantine (df : DataFrame) : M unit :=
  λ w,
    (Ok tt,
     {| files := <[QUARANTINE_FILE := reread w (columns df) (snd <$> rows df)]> (files w);
        quarantine_file := Some (columns df, snd <$> rows df);
        reread := reread w;
        tables := tables w; db_log := db_log w; stdout := stdout w |}).

(** [pd.read_csv(path)] *)
Definition read_csv (path : string) : M DataFrame :=
  λ w, match files w !! path with
       | Some df => (Ok df, w)
       | None => (Raised (FileNotFoundError path), w)
       end.

(** [df.reset_index(drop=True)] *)
Definition reset_index (df : DataFrame) : DataFrame :=
  {| columns := columns df;
     rows := imap (λ i (ir : nat * Row), (i, ir.2)) (rows df) |}.

(** ** dwh_etl_pipeline.check_and_insert_dimension *)

Local Open Scope etl_scope.

Definition check_and_insert_dimension
    (fact_df : DataFrame) (column_name table_name : string) : M unit :=
  if bool_decide (column_name ∈ columns fact_df) then
    let unique_values := unique (column column_name fact_df) in
    if bool_decide (length unique_values = 0) then
      print (NoDataToCheck table_name)
    else
      let new_dim_df :=
        mkDataFrame [column_name]
          (imap (λ i x, (i, {[column_name := x]})) unique_values) in
      existing_values <- read_sql (SelectColumn column_name table_name);;
      let to_insert_df :=
        reset_index
          (mask (λ r, negb (isin existing_values (cell r column_name))) new_dim_df) in
      if negb (empty to_insert_df) then
        to_sql table_name to_insert_df;;
        print (InsertedEntries (len to_insert_df) table_name)
      else
        print (NoNewEntries table_name)
  else raise (KeyError column_name).

(** ** dwh_etl_pipeline.transform_raw_data and run_etl_pipeline *)

Definition expected_raw_cols : list string :=
  ["production_line_id"; "status"; "timestamp"].

Definition required_cols : list string :=
  ["production_line_id"; "status_id"; "event_time"].

(** [df[required_cols].notna().all(axis=1)], row by row. *)
Definition is_valid (r : Row) : bool :=
  forallb (λ c, notna (cell r c)) required_cols.

(** [df.rename(columns={...})] with the three entries of the source. *)
Definition rename_columns (df : DataFrame) : DataFrame :=
  rename "timestamp" "event_time"
    (rename "status" "status_name"
       (rename "production_line_id" "production_line_id" df)).

Definition datetime_cell (o : option Z) : Value :=
  match o with Some t => Timestamp t | None => NaN end.

Definition TARGET_TABLE : string := "Fact_ProcessEvents".

(** [clean_fact_df['event_time'] > latest_event_time], row by row. *)
Definition later_than (latest : Value) (r : Row) : bool :=
  match cell r "event_time", latest with
  | Timestamp t, Timestamp m => (m <? t)%Z
  | _, _ => false
  end.

Section Pipeline.

(** [pd.to_datetime(column, errors='coerce')]: what the parser makes of a
    whole column, [None] being NaT. *)
Variable to_datetime : list Value → list (option Z).

(** The frame after step 2 (renaming and mapping). *)
Definition transformed (raw_df : DataFrame) : DataFrame :=
  let df := rename_columns raw_df in
  let df := assign "status_id" (map_status <$> column "status_name" df) df in
  assign "event_time" (datetime_cell <$> to_datetime (column "event_time" df)) df.

(** The pair (clean_fact_df, quarantined_df).  The rename leaves a frame
    that already has a column [status_name] or [event_time] with two
    columns of that name, and the next statement on that label fails.
    The line printed before the return is printed by [run_etl_pipeline]
    below. *)
Definition transform_raw_data (raw_df : DataFrame)
  : Exn + (DataFrame * DataFrame) :=
  match List.find (λ col, bool_decide (col ∉ columns raw_df)) expected_raw_cols with
  | Some col => inl (ValueError col)
  | None =>
      if bool_decide ("status_name" ∈ columns raw_df) then
        inl (TypeError "status_name")
      else if bool_decide ("event_time" ∈ columns raw_df) then
        inl (ValueError "event_time")
      else
        let df := transformed raw_df in
        let clean_fact_df := mask is_valid df in
        let quarantined_df := mask (λ r, negb (is_valid r)) df in
        let clean_fact_df := sort_values "event_time" clean_fact_df in
        inr (clean_fact_df, quarantined_df)
  end.

(** Step 4b of [run_etl_pipeline]: the incremental load of the facts. *)
Definition load_fact_process_events (clean_fact_df : DataFrame) : M unit :=
  latest_event_time <-
    try_except
      (max_time_result <- read_sql (SelectMax "event_time" TARGET_TABLE);;
       let x := hd NaN max_time_result in
       ret (if notna x then x else NaN))
      (λ e, print (WarningMaxEventTime e);; ret NaN);;
  data_to_load <-
    (if isna latest_event_time then
       print (TableEmptyLoadingAll TARGET_TABLE (len clean_fact_df));;
       ret clean_fact_df
     else
       let d := mask (later_than latest_event_time) clean_fact_df in
       print (LatestEventInDb latest_event_time (len d));;
       ret d);;
  if negb (empty data_to_load) then
    to_sql TARGET_TABLE (project required_cols data_to_load);;
    print (LoadedRows (len data_to_load) TARGET_TABLE)
  else
    print (NoNewData TARGET_TABLE).

Definition run_etl_pipeline (input_file_path : string) (load_data : bool)
  : M unit :=
  print StartingExtraction;;
  raw_df <-
    try_except (read_csv input_file_path)
      (λ e, match e with
            | FileNotFoundError p => print (InputFileNotFound p);; raise e
            | _ => raise e
            end);;
  print StartingTransformation;;
  match transform_raw_data raw_df with
  | inl e => raise e
  | inr (clean_fact_df, quarantined_df) =>
      print (RowCounts (len raw_df) (len clean_fact_df) (len quarantined_df));;
      (if negb (empty quarantined_df) then
         to_csv_quarantine quarantined_df;;
         print (QuarantinedRecords (len quarantined_df))
       else ret tt);;
      if load_data then
        print StartingLoading;;
        check_and_insert_dimension clean_fact_df
          "production_line_id" "Dim_ProductionLine";;
        load_fact_process_events clean_fact_df
      else
        print LoadingSkipped
  end.

End Pipeline.

(** ** A reference parser for the examples

    The layout of the data set, [YYYY-MM-DD HH:MM:SS] (the separator may be
    [T]), read as nanoseconds since the epoch; any other text is coerced to
    NaT.  [pd.to_datetime] reads more layouts than this one and settles on
    one layout for a whole column; the theorems below hold for every
    parser, and this one only serves the concrete runs, whose texts are all
    of that one layout or no date at all. *)
Module Iso8601.
Import Stdlib.Strings.Ascii Stdlib.Strings.String.

Definition digit (c : ascii) : option Z :=
  let n := nat_of_ascii c in
  if (48 <=? n) && (n <=? 57) then Some (Z.of_nat (n - 48)) else None.

Fixpoint number (acc : Z) (l : list ascii) : option Z :=
  match l with
  | [] => Some acc
  | c :: l' =>
      match digit c with
      | Some d => number (acc * 10 + d)%Z l'
      | None => None
      end
  end.

Definition is_leap (y : Z) : bool :=
  ((y mod 4 =? 0) && negb (y mod 100 =? 0) || (y mod 400 =? 0))%Z.

Definition days_in_month (y m : Z) : Z :=
  if (m =? 2)%Z then (if is_leap y then 29 else 28)%Z
  else if ((m =? 4) || (m =? 6) || (m =? 9) || (m =? 11))%Z then 30%Z
  else 31%Z.

(** Days from 1970-01-01 to the civil date. *)
Definition days_from_civil (y m d : Z) : Z :=
  let y' := (if m <=? 2 then y - 1 else y)%Z in
  let era := (y' / 400)%Z in
  let yoe := (y' - era * 400)%Z in
  let doy := ((153 * (if 2 <? m then m - 3 else m + 9) + 2) / 5 + d - 1)%Z in
  let doe := (yoe * 365 + yoe / 4 - yoe / 100 + doy)%Z in
  (era * 146097 + doe - 719468)%Z.

Definition is_sep (c : ascii) (seps : list ascii) : bool :=
  bool_decide (c ∈ seps).

Definition parse (s : string) : option Z :=
  match list_ascii_of_string s with
  | [y1; y2; y3; y4; s1; m1; m2; s2; d1; d2; s3; h1; h2; s4; n1; n2; s5; c1; c2] =>
      if is_sep s1 ["-"%char] && is_sep s2 ["-"%char]
         && is_sep s3 [" "%char; "T"%char]
         && is_sep s4 [":"%char] && is_sep s5 [":"%char]
      then
        match number 0 [y1; y2; y3; y4], number 0 [m1; m2], number 0 [d1; d2],
              number 0 [h1; h2], number 0 [n1; n2], number 0 [c1; c2] with
        | Some y, Some m, Some d, Some h, Some n, Some c =>
            if ((1 <=? m) && (m <=? 12) && (1 <=? d) && (d <=? days_in_month y m)
                && (h <? 24) && (n <? 60) && (c <? 60))%Z
            then Some ((((days_from_civil y m d * 24 + h) * 60 + n) * 60 + c)
                       * 1000000000)%Z
            else None
        | _, _, _, _, _, _ => None
        end
      else None
  | _ => None
  end.

Definition to_datetime (col : list Value) : list (option Z) :=
  (λ x, match x with
        | Str s => parse s
        | Timestamp t => Some t
        | _ => None
        end) <$> col.
End Iso8601.

(** A CSV file as [pd.read_csv] returns it: the header and the records,
    labelled 0, 1, 2, ... *)
Definition csv_frame (header : list string) (records : list (list Value)) : DataFrame :=
  {| columns := header;
     rows := imap (λ i (cells : list Value), (i, list_to_map (zip header cells))) records |}.

(** A reading back of a written file that keeps the cells as they were
    written; it only serves the concrete runs. *)
Definition plain_reread (header : list string) (records : list Row) : DataFrame :=
  {| columns := header; rows := imap (λ i r, (i, r)) records |}.

(** * Facts about NumPy's argsort *)

Section ArgsortFacts.
Variable v : list Z.

Local Abbreviation key := (NumPy.key v).
Local Abbreviation at_ := NumPy.at_.
Local Abbreviation INTP_SWAP := NumPy.INTP_SWAP.

(** Ascending in the keys. *)
Definition key_le (i j : nat) : Prop := (key i ≤ key j)%Z.
Definition key_ge (i j : nat) : Prop := (key j ≤ key i)%Z.

Lemma at_lookup (s : list nat) (k x : nat) : s !! k = Some x → at_ s k = x.
Proof. apply nth_lookup_Some. Qed.

Lemma lookup_at (s : list nat) (k : nat) : k < length s → s !! k = Some (at_ s k).
Proof.
  intros Hk. destruct (nth_lookup_or_length s k 0) as [H|H]; [exact H | lia].
Qed.

Lemma at_insert (s : list nat) (i k x : nat) :
  i < length s →
  at_ (<[i := x]> s) k = if decide (k = i) then x else at_ s k.
Proof.
  intros Hi. unfold NumPy.at_. rewrite !nth_lookup.
  destruct (decide (k = i)) as [->|Hne].
  - by rewrite list_lookup_insert_eq.
  - by rewrite list_lookup_insert_ne.
Qed.

Lemma at_swap (s : list nat) (i j k : nat) :
  i < length s → j < length s →
  at_ (INTP_SWAP s i j) k =
    if decide (k = j) then at_ s i
    else if decide (k = i) then at_ s j else at_ s k.
Proof.
  intros Hi Hj. unfold NumPy.INTP_SWAP.
  rewrite at_insert by (by rewrite length_insert).
  destruct (decide (k = j)); [done|]. by rewrite at_insert.
Qed.

Lemma length_swap (s : list nat) (i j : nat) : length (INTP_SWAP s i j) = length s.
Proof. unfold NumPy.INTP_SWAP. by rewrite !length_insert. Qed.

Lemma swap_perm (s : list nat) (i j : nat) :
  i < length s → j < length s → INTP_SWAP s i j ≡ₚ s.
Proof.
  intros Hi Hj. apply Permutation_inj. split; [apply length_swap|].
  exists (λ k, if decide (k = j) then i else if decide (k = i) then j else k).
  split.
  - intros a b. repeat case_decide; intros; subst; try done; lia.
  - intros k. unfold NumPy.INTP_SWAP.
    destruct (decide (k = j)) as [->|Hkj].
    + rewrite list_lookup_insert_eq by (by rewrite length_insert).
      by rewrite lookup_at.
    + rewrite list_lookup_insert_ne by done.
      destruct (decide (k = i)) as [->|Hki].
      * rewrite list_lookup_insert_eq by done. by rewrite lookup_at.
      * by rewrite list_lookup_insert_ne.
Qed.

(** ** Insertion sort *)

(** What [shift] does to the part below [pj], read from [pj] downwards. *)
Fixpoint ins_down (vi : nat) (below : list nat) : list nat :=
  match below with
  | [] => [vi]
  | y :: t =>
      if NumPy.less (key vi) (key y) then y :: ins_down vi t else vi :: y :: t
  end.

Lemma shift_spec (pre : list nat) : ∀ (x : nat) (post : list nat) (vi : nat),
  NumPy.shift v (pre ++ x :: post) vi (length pre)
  = rev (ins_down vi (rev pre)) ++ post.
Proof.
  induction pre as [|y pre IH] using rev_ind; intros x post vi.
  - reflexivity.
  - rewrite length_app, Nat.add_1_r. cbn [NumPy.shift].
    assert (Hy : at_ ((pre ++ [y]) ++ x :: post) (length pre) = y).
    { apply at_lookup. rewrite <- app_assoc. by apply list_lookup_middle. }
    rewrite Hy, rev_unit. cbn [ins_down].
    destruct (NumPy.less (key vi) (key y)).
    + replace (<[S (length pre) := y]> ((pre ++ [y]) ++ x :: post))
        with (pre ++ y :: y :: post).
      * rewrite IH. cbn [rev]. by rewrite <- app_assoc.
      * rewrite <- app_assoc. cbn.
        rewrite insert_app_r_alt by lia.
        replace (S (length pre) - length pre) with 1 by lia. reflexivity.
    + rewrite <- app_assoc. cbn.
      rewrite insert_app_r_alt by lia.
      replace (S (length pre) - length pre) with 1 by lia. cbn.
      by rewrite rev_involutive, <- !app_assoc.
Qed.

Lemma ins_down_perm (vi : nat) (l : list nat) : ins_down vi l ≡ₚ vi :: l.
Proof.
  induction l as [|y t IH]; cbn; [done|].
  destruct (NumPy.less _ _); [|done].
  rewrite IH. apply Permutation_swap.
Qed.

Lemma ins_down_sorted (vi : nat) (l : list nat) :
  StronglySorted key_ge l → StronglySorted key_ge (ins_down vi l).
Proof.
  induction 1 as [|y t Hs IH Hy]; cbn.
  - repeat constructor.
  - unfold NumPy.less. destruct (Z.ltb_spec (key vi) (key y)) as [Hlt|Hge].
    + constructor; [done|].
      rewrite ins_down_perm. constructor; [|done]. unfold key_ge. lia.
    + constructor; [by constructor|].
      constructor; [done|].
      eapply Forall_impl; [exact Hy|]. unfold key_ge. intros; cbn in *; lia.
Qed.

Lemma StronglySorted_rev_ge (l : list nat) :
  StronglySorted key_ge l → StronglySorted key_le (rev l).
Proof.
  induction 1 as [|y t Hs IH Hy]; cbn; [constructor|].
  apply StronglySorted_app_2; [|done|repeat constructor].
  intros a b Ha Hb. apply list_elem_of_singleton in Hb as ->.
  rewrite Forall_forall in Hy. apply Hy. by rewrite <- Permutation_rev in Ha.
Qed.

Lemma StronglySorted_rev_le (l : list nat) :
  StronglySorted key_le l → StronglySorted key_ge (rev l).
Proof.
  induction 1 as [|y t Hs IH Hy]; cbn; [constructor|].
  apply StronglySorted_app_2; [|done|repeat constructor].
  intros a b Ha Hb. apply list_elem_of_singleton in Hb as ->.
  rewrite Forall_forall in Hy. apply Hy. by rewrite <- Permutation_rev in Ha.
Qed.

Lemma insertion_sort_prefix (s : list nat) (m : nat) :
  S m ≤ length s →
  ∃ pre,
    foldl (λ s pi, NumPy.shift v s (at_ s pi) pi) s (seq 1 m) = pre ++ drop (S m) s
    ∧ pre ≡ₚ take (S m) s
    ∧ StronglySorted key_le pre.
Proof.
  induction m as [|m IH]; intros Hm.
  - destruct s as [|x s]; [cbn in Hm; lia|].
    exists [x]. cbn. rewrite drop_0. split_and!; [done|by rewrite take_0|repeat constructor].
  - destruct IH as (pre & Heq & Hperm & Hsorted); [lia|].
    rewrite seq_S, foldl_app. cbn [foldl]. rewrite Heq.
    assert (Hlen : length pre = S m).
    { rewrite Hperm, length_take. lia. }
    destruct (lookup_lt_is_Some_2 s (S m)) as [x Hx]; [lia|].
    rewrite (drop_S s x (S m)) by done.
    replace (1 + m) with (length pre) by lia.
    assert (Hat : at_ (pre ++ x :: drop (S (S m)) s) (length pre) = x).
    { apply at_lookup. by apply list_lookup_middle. }
    rewrite Hat, shift_spec.
    eexists. split; [reflexivity|]. split.
    + rewrite <- Permutation_rev, ins_down_perm, <- Permutation_rev, Hperm.
      rewrite (take_S_r s (S m) x) by done. by rewrite Permutation_cons_append.
    + by apply StronglySorted_rev_ge, ins_down_sorted, StronglySorted_rev_le.
Qed.

Lemma insertion_sort_spec (s : list nat) :
  NumPy.insertion_sort v s ≡ₚ s ∧ StronglySorted key_le (NumPy.insertion_sort v s).
Proof.
  unfold NumPy.insertion_sort. destruct s as [|x s]; [split; [done|constructor]|].
  destruct (insertion_sort_prefix (x :: s) (length (x :: s) - 1))
    as (pre & Heq & Hperm & Hsorted); [cbn; lia|].
  rewrite Heq. replace (S (length (x :: s) - 1)) with (length (x :: s)) in * by (cbn; lia).
  rewrite drop_all, app_nil_r. rewrite firstn_all in Hperm. done.
Qed.

(** ** The partition *)

Definition kat (s : list nat) (k : nat) : Z := key (at_ s k).

Ltac swap_simpl :=
  unfold kat in *;
  rewrite ?at_swap by (rewrite ?length_swap; lia);
  repeat case_decide; try lia.

Lemma median3_spec (s : list nat) (pm pr : nat) :
  0 < pm → pm < pr → pr < length s →
  let s' := NumPy.median3 v s pm pr in
  s' ≡ₚ s ∧ length s' = length s
  ∧ (kat s' 0 ≤ kat s' pm)%Z ∧ (kat s' pm ≤ kat s' pr)%Z.
Proof.
  intros H0 Hpm Hpr. unfold NumPy.median3, NumPy.less.
  destruct (Z.ltb_spec (key (at_ s pm)) (key (at_ s 0))) as [H1|H1].
  - set (s1 := INTP_SWAP s pm 0).
    assert (Hl1 : length s1 = length s) by apply length_swap.
    assert (Hp1 : s1 ≡ₚ s) by (apply swap_perm; lia).
    assert (E0 : key (at_ s1 0) = key (at_ s pm)) by (unfold s1; swap_simpl).
    assert (Em : key (at_ s1 pm) = key (at_ s 0)) by (unfold s1; swap_simpl).
    assert (Er : key (at_ s1 pr) = key (at_ s pr)) by (unfold s1; swap_simpl).
    clearbody s1.
    destruct (Z.ltb_spec (key (at_ s1 pr)) (key (at_ s1 pm))) as [H2|H2].
    + set (s2 := INTP_SWAP s1 pr pm).
      assert (Hl2 : length s2 = length s) by (unfold s2; by rewrite length_swap).
      assert (Hp2 : s2 ≡ₚ s) by (rewrite <- Hp1; apply swap_perm; lia).
      assert (F0 : key (at_ s2 0) = key (at_ s1 0)) by (unfold s2; swap_simpl).
      assert (Fm : key (at_ s2 pm) = key (at_ s1 pr)) by (unfold s2; swap_simpl).
      assert (Fr : key (at_ s2 pr) = key (at_ s1 pm)) by (unfold s2; swap_simpl).
      clearbody s2.
      destruct (Z.ltb_spec (key (at_ s2 pm)) (key (at_ s2 0))) as [H3|H3].
      * split_and!; [rewrite <- Hp2; apply swap_perm; lia
                    |by rewrite length_swap| |]; swap_simpl; lia.
      * split_and!; [done|done| |]; unfold kat; lia.
    + destruct (Z.ltb_spec (key (at_ s1 pm)) (key (at_ s1 0))) as [H3|H3].
      * split_and!; [rewrite <- Hp1; apply swap_perm; lia
                    |by rewrite length_swap| |]; swap_simpl; lia.
      * split_and!; [done|done| |]; unfold kat; lia.
  - destruct (Z.ltb_spec (key (at_ s pr)) (key (at_ s pm))) as [H2|H2].
    + set (s2 := INTP_SWAP s pr pm).
      assert (Hl2 : length s2 = length s) by (unfold s2; by rewrite length_swap).
      assert (Hp2 : s2 ≡ₚ s) by (apply swap_perm; lia).
      assert (F0 : key (at_ s2 0) = key (at_ s 0)) by (unfold s2; swap_simpl).
      assert (Fm : key (at_ s2 pm) = key (at_ s pr)) by (unfold s2; swap_simpl).
      assert (Fr : key (at_ s2 pr) = key (at_ s pm)) by (unfold s2; swap_simpl).
      clearbody s2.
      destruct (Z.ltb_spec (key (at_ s2 pm)) (key (at_ s2 0))) as [H3|H3].
      * split_and!; [rewrite <- Hp2; apply swap_perm; lia
                    |by rewrite length_swap| |]; swap_simpl; lia.
      * split_and!; [done|done| |]; unfold kat; lia.
    + destruct (Z.ltb_spec (key (at_ s pm)) (key (at_ s 0))) as [H3|H3]; [lia|].
      split_and!; [done|done| |]; unfold kat; lia.
Qed.

Lemma scan_up_spec (s : list nat) (vp : Z) (pj : nat) :
  ∀ (fuel pi : nat),
    pi < pj → pj - pi ≤ fuel → (vp ≤ kat s pj)%Z →
    let r := NumPy.scan_up v fuel s vp pi in
    pi < r ∧ r ≤ pj ∧ (vp ≤ kat s r)%Z ∧ ∀ k, pi < k → k < r → (kat s k < vp)%Z.
Proof.
  induction fuel as [|fuel IH]; intros pi Hlt Hfuel Hsent; [lia|].
  cbn [NumPy.scan_up]. unfold NumPy.less.
  destruct (Z.ltb_spec (key (at_ s (S pi))) vp) as [Hless|Hge].
  - assert (S pi ≠ pj) by (intros <-; unfold kat in Hsent; lia).
    destruct (IH (S pi)) as (H1 & H2 & H3 & H4); [lia|lia|done|].
    split_and!; [lia|done|done|].
    intros k Hk1 Hk2. destruct (decide (k = S pi)) as [->|]; [done|].
    apply H4; lia.
  - split_and!; [lia|lia|done|]. intros; lia.
Qed.

Lemma scan_down_spec (s : list nat) (vp : Z) (pi : nat) :
  ∀ (pj : nat),
    pi < pj → (kat s pi ≤ vp)%Z →
    let r := NumPy.scan_down v s vp pj in
    pi ≤ r ∧ r < pj ∧ (kat s r ≤ vp)%Z ∧ ∀ k, r < k → k < pj → (vp < kat s k)%Z.
Proof.
  induction pj as [|pk IH]; intros Hlt Hsent; [lia|].
  cbn [NumPy.scan_down]. unfold NumPy.less.
  destruct (Z.ltb_spec vp (key (at_ s pk))) as [Hless|Hge].
  - assert (pi ≠ pk) by (intros ->; unfold kat in Hsent; lia).
    destruct IH as (H1 & H2 & H3 & H4); [lia|done|].
    split_and!; [done|lia|done|].
    intros k Hk1 Hk2. destruct (decide (k = pk)) as [->|]; [done|].
    apply H4; lia.
  - split_and!; [lia|lia|done|]. intros; lia.
Qed.

(** The state of the scan between two exchanges. *)
Definition hoare_inv (pr : nat) (vp : Z) (s : list nat) (pi pj : nat) : Prop :=
  pi < pj ∧ pj ≤ pr - 1 ∧ pr < length s
  ∧ (∀ k, k ≤ pi → (kat s k ≤ vp)%Z)
  ∧ (∀ k, pj ≤ k → k ≤ pr → (vp ≤ kat s k)%Z)
  ∧ kat s (pr - 1) = vp.

Lemma hoare_spec (pr : nat) (vp : Z) :
  ∀ (fuel : nat) (s : list nat) (pi pj : nat),
    hoare_inv pr vp s pi pj → pj - pi ≤ fuel →
    ∃ s' r,
      NumPy.hoare v fuel s vp pi pj = (s', r)
      ∧ s' ≡ₚ s ∧ length s' = length s
      ∧ 0 < r ∧ r ≤ pr - 1
      ∧ (∀ k, k < r → (kat s' k ≤ vp)%Z)
      ∧ (∀ k, r ≤ k → k ≤ pr → (vp ≤ kat s' k)%Z)
      ∧ kat s' (pr - 1) = vp.
Proof.
  induction fuel as [|fuel IH]; intros s pi pj (Hlt & Hpj & Hpr & Hlo & Hhi & Hpiv) Hfuel;
    [lia|].
  cbn [NumPy.hoare].
  destruct (scan_up_spec s vp pj (length s) pi) as (U1 & U2 & U3 & U4);
    [done|lia|apply Hhi; lia|].
  set (pi' := NumPy.scan_up v (length s) s vp pi) in *.
  destruct (scan_down_spec s vp pi pj) as (D1 & D2 & D3 & D4);
    [done|apply Hlo; lia|].
  set (pj' := NumPy.scan_down v s vp pj) in *.
  assert (Hbelow : ∀ k, k < pi' → (kat s k ≤ vp)%Z).
  { intros k Hk. destruct (decide (k ≤ pi)); [by apply Hlo|].
    assert (kat s k < vp)%Z by (apply U4; lia). lia. }
  assert (Habove : ∀ k, pj' < k → k ≤ pr → (vp ≤ kat s k)%Z).
  { intros k Hk1 Hk2. destruct (decide (pj ≤ k)); [by apply Hhi|].
    assert (vp < kat s k)%Z by (apply D4; lia). lia. }
  destruct (Nat.leb_spec pj' pi') as [Hmeet|Hapart].
  - exists s, pi'. split_and!; try done; try lia.
    intros k Hk1 Hk2. destruct (decide (k = pi')) as [->|]; [done|].
    apply Habove; lia.
  - destruct (IH (INTP_SWAP s pi' pj') pi' pj') as (s' & r & Heq & Hperm & Hlen & R);
      [|lia|].
    + unfold hoare_inv. rewrite length_swap. split_and!; try lia.
      * intros k Hk. swap_simpl; subst; try done.
        apply (Hbelow k); lia.
      * intros k Hk1 Hk2. swap_simpl; subst; try done.
        apply (Habove k); lia.
      * swap_simpl.
    + exists s', r. rewrite length_swap in Hlen.
      rewrite swap_perm in Hperm by lia. done.
Qed.

Lemma partition_spec (s : list nat) :
  3 ≤ length s →
  ∃ s' pi,
    NumPy.partition v s = (s', pi)
    ∧ s' ≡ₚ s ∧ 0 < pi ∧ pi < length s - 1
    ∧ (∀ k, k < pi → (kat s' k ≤ kat s' pi)%Z)
    ∧ (∀ k, pi < k → k < length s → (kat s' pi ≤ kat s' k)%Z).
Proof.
  intros Hlen. unfold NumPy.partition.
  set (pr := length s - 1). set (pm := pr / 2).
  assert (Hpm : 0 < pm ∧ pm < pr).
  { unfold pm. pose proof (Nat.div_mod_eq pr 2).
    pose proof (Nat.mod_upper_bound pr 2). lia. }
  destruct (median3_spec s pm pr) as (Hp1 & Hl1 & Hm1 & Hm2); [lia|lia|lia|].
  set (s1 := NumPy.median3 v s pm pr) in *. clearbody s1.
  set (vp := key (at_ s1 pm)).
  set (s2 := INTP_SWAP s1 pm (pr - 1)).
  assert (Hl2 : length s2 = length s) by (unfold s2; by rewrite length_swap).
  assert (Hp2 : s2 ≡ₚ s) by (rewrite <- Hp1; apply swap_perm; lia).
  destruct (hoare_spec pr vp (length s2) s2 0 (pr - 1))
    as (s3 & r & Heq & Hp3 & Hl3 & Hr1 & Hr2 & Hlo & Hhi & Hpiv); [|lia|].
  { unfold hoare_inv. split_and!; try lia.
    - intros k Hk. assert (k = 0) as -> by lia.
      unfold s2, vp. swap_simpl.
    - intros k Hk1 Hk2. assert (k = pr - 1 ∨ k = pr) as [->| ->] by lia; unfold s2, vp; swap_simpl.
    - unfold s2, vp. swap_simpl. }
  rewrite Heq. exists (INTP_SWAP s3 r (pr - 1)), r. clearbody vp.
  split_and!; try done; try lia.
  - rewrite swap_perm by lia. by rewrite Hp3.
  - intros k Hk. specialize (Hlo k Hk).
    destruct (decide (r = pr - 1)) as [->|]; swap_simpl.
  - intros k Hk1 Hk2.
    pose proof (Hhi k). pose proof (Hhi r).
    destruct (decide (r = pr - 1)) as [->|];
      [|destruct (decide (k = pr - 1)) as [->|]]; swap_simpl.
Qed.

(** The same, on the three pieces the main loop goes on with. *)
Lemma partition_split (s : list nat) :
  3 ≤ length s →
  ∃ s' pi,
    NumPy.partition v s = (s', pi)
    ∧ s' ≡ₚ s ∧ 0 < pi ∧ pi < length s - 1
    ∧ s' = take pi s' ++ at_ s' pi :: drop (S pi) s'
    ∧ Forall (λ x, key_le x (at_ s' pi)) (take pi s')
    ∧ Forall (key_le (at_ s' pi)) (drop (S pi) s').
Proof.
  intros Hlen.
  destruct (partition_spec s Hlen) as (s' & pi & Heq & Hperm & H0 & Hpi & Hlo & Hhi).
  exists s', pi. assert (Hl : length s' = length s) by (by rewrite Hperm).
  split_and!; try done.
  - symmetry. apply take_drop_middle, lookup_at. lia.
  - apply Forall_lookup. intros k x Hk.
    apply lookup_take_Some in Hk as [Hk Hlt].
    unfold key_le. rewrite <- (at_lookup _ _ _ Hk). by apply Hlo.
  - apply Forall_lookup. intros k x Hk.
    rewrite lookup_drop in Hk.
    assert (S pi + k < length s') by (by eapply lookup_lt_Some).
    unfold key_le. rewrite <- (at_lookup _ _ _ Hk). apply Hhi; lia.
Qed.

(** ** Heap sort *)

(** The key at position [k] of a span indexed from one. *)
Definition ka (s : list nat) (k : nat) : Z := key (at_ s (k - 1)).

(** Node [k] is not below its children, in the heap of the first [n]. *)
Definition heap_dom (s : list nat) (n k : nat) : Prop :=
  (k + k ≤ n → (ka s (k + k) ≤ ka s k)%Z)
  ∧ (k + k + 1 ≤ n → (ka s (k + k + 1) ≤ ka s k)%Z).

Lemma ka_insert (s : list nat) (i x k : nat) :
  1 ≤ i → i ≤ length s → 1 ≤ k →
  ka (<[i - 1 := x]> s) k = if decide (k = i) then key x else ka s k.
Proof.
  intros Hi Hl Hk. unfold ka. rewrite at_insert by lia.
  destruct (decide (k - 1 = i - 1)), (decide (k = i)); try lia; done.
Qed.

(** Settles the tests on positions that arithmetic decides. *)
Ltac settle :=
  repeat match goal with
    | |- context [decide (?x = ?y)] =>
        first [ rewrite (decide_True (P := x = y)) by lia
              | rewrite (decide_False (P := x = y)) by lia ]
    | H : context [decide (?x = ?y)] |- _ =>
        first [ rewrite (decide_True (P := x = y)) in H by lia
              | rewrite (decide_False (P := x = y)) in H by lia ]
    end.

Lemma sift_spec (n l : nat) :
  ∀ (fuel : nat) (s : list nat) (tmp i : nat),
    1 ≤ l → l ≤ i → i ≤ n → n ≤ length s → n < fuel + i →
    let u := <[i - 1 := tmp]> s in
    (∀ k, l ≤ k → k ≠ i → heap_dom u n k) →
    (∀ p, l ≤ p → i = p + p ∨ i = p + p + 1 →
          (i + i ≤ n → (ka u (i + i) ≤ ka u p)%Z)
          ∧ (i + i + 1 ≤ n → (ka u (i + i + 1) ≤ ka u p)%Z)) →
    let r := NumPy.sift v fuel s tmp i (i + i) n in
    r ≡ₚ u ∧ length r = length s
    ∧ (∀ k, l ≤ k → heap_dom r n k)
    ∧ (∀ k, n < k → at_ r (k - 1) = at_ u (k - 1)).
Proof.
  induction fuel as [|fuel IH]; intros s tmp i Hl Hli Hin Hn Hfuel u HA HB; [lia|].
  cbn [NumPy.sift]. cbv zeta.
  assert (Hdone : (i + i ≤ n → (ka u (i + i) ≤ ka u i)%Z) →
                  (i + i + 1 ≤ n → (ka u (i + i + 1) ≤ ka u i)%Z) →
                  u ≡ₚ u ∧ length u = length s
                  ∧ (∀ k, l ≤ k → heap_dom u n k)
                  ∧ (∀ k, n < k → at_ u (k - 1) = at_ u (k - 1))).
  { intros H1 H2. split_and!; [done|by unfold u; rewrite length_insert| |done].
    intros k Hk. destruct (decide (k = i)) as [->|]; [by split|by apply HA]. }
  destruct (Nat.leb_spec (i + i) n) as [Hj|Hj]; [|apply Hdone; lia].
  (* the larger child *)
  set (j := if (i + i <? n) && NumPy.less (key (NumPy.a s (i + i))) (key (NumPy.a s (i + i + 1)))
            then i + i + 1 else i + i).
  assert (Hjspec : (j = i + i ∨ j = i + i + 1) ∧ j ≤ n
                   ∧ (ka s (i + i) ≤ ka s j)%Z
                   ∧ (i + i + 1 ≤ n → (ka s (i + i + 1) ≤ ka s j)%Z)).
  { unfold j, NumPy.less, ka, NumPy.a.
    destruct (Nat.ltb_spec (i + i) n); cbn [andb];
      [destruct (Z.ltb_spec (key (at_ s (i + i - 1))) (key (at_ s (i + i + 1 - 1))))|];
      split_and!; try lia; auto. }
  clearbody j. destruct Hjspec as (Hjcase & Hjn & Hj1 & Hj2).
  (* the keys of [u] in terms of [s] *)
  assert (Hu : ∀ k, 1 ≤ k → ka u k = if decide (k = i) then key tmp else ka s k).
  { intros k Hk. unfold u. apply ka_insert; lia. }
  change (key (NumPy.a s j)) with (ka s j).
  destruct (NumPy.less (key tmp) (ka s j)) eqn:Eless.
  - (* the child moves up and the hole moves down *)
    assert (Hless : (key tmp < ka s j)%Z) by (by apply Z.ltb_lt).
    set (s' := <[i - 1 := NumPy.a s j]> s).
    assert (Hls' : length s' = length s) by (unfold s'; by rewrite length_insert).
    set (u' := <[j - 1 := tmp]> s').
    assert (Hu' : ∀ k, 1 ≤ k →
              ka u' k = if decide (k = j) then key tmp
                        else if decide (k = i) then ka s j else ka s k).
    { intros k Hk. unfold u'. rewrite ka_insert by lia.
      destruct (decide (k = j)); [done|]. unfold s'. rewrite ka_insert by lia.
      done. }
    assert (Hswap : u' = INTP_SWAP u (i - 1) (j - 1)).
    { unfold u', NumPy.INTP_SWAP, u, s', NumPy.a.
      rewrite !at_insert by (rewrite ?length_insert; lia).
      rewrite (decide_False (P := j - 1 = i - 1)) by lia.
      rewrite (decide_True (P := i - 1 = i - 1)) by lia.
      by rewrite list_insert_insert_eq. }
    assert (Hperm' : u' ≡ₚ u).
    { rewrite Hswap. apply swap_perm; unfold u; rewrite length_insert; lia. }
    destruct (IH s' tmp j) as (R1 & R2 & R3 & R4);
      [done|lia|done|lia|lia| | |].
    + (* every other node is in order *)
      intros k Hk Hkj. fold u'. unfold heap_dom.
      rewrite !Hu' by lia.
      destruct (decide (k = i)) as [->|Hki].
      * settle. destruct Hjcase as [-> | ->]; settle; split; intros; lia.
      * pose proof (HA k Hk Hki) as [A1 A2]. rewrite !Hu in A1, A2 by lia.
        pose proof (HB k Hk) as B. rewrite !Hu in B by lia.
        rewrite (decide_False (P := k = j)) by lia.
        rewrite (decide_False (P := k + k = j)) by lia.
        rewrite (decide_False (P := k + k + 1 = j)) by lia.
        settle.
        destruct (decide (k + k = i)) as [E1|E1];
          destruct (decide (k + k + 1 = i)) as [E2|E2]; try lia;
          (destruct B as [B1 B2]; [lia|]);
          destruct Hjcase as [-> | ->]; split; intros; lia.
    + (* the parent of the hole is above the children of the hole *)
      intros p Hp Hpj. fold u'.
      assert (p = i) as -> by lia.
      pose proof (HA j ltac:(lia) ltac:(lia)) as [A1 A2].
      rewrite !Hu in A1, A2 by lia. rewrite !Hu' by lia. settle.
      by split.
    + fold u' in R1, R3, R4. split_and!.
      * by rewrite R1.
      * by rewrite R2.
      * done.
      * intros k Hk. rewrite R4 by done. unfold u', s', u.
        rewrite !at_insert by (rewrite ?length_insert; lia).
        settle. done.
  - assert (Hge : (ka s j ≤ key tmp)%Z) by (by apply Z.ltb_ge).
    apply Hdone; intros; rewrite !Hu by lia; settle;
      destruct Hjcase as [-> | ->]; lia.
Qed.

Lemma heapify_aux (n : nat) :
  ∀ (c : nat) (s : list nat),
    c ≤ n / 2 → n ≤ length s →
    (∀ k, c + 1 ≤ k → heap_dom s n k) →
    let r := foldl (λ s l, NumPy.sift v n s (NumPy.a s l) l (l + l) n) s (rev (seq 1 c)) in
    r ≡ₚ s ∧ length r = length s
    ∧ (∀ k, 1 ≤ k → heap_dom r n k)
    ∧ (∀ k, n < k → at_ r (k - 1) = at_ s (k - 1)).
Proof.
  induction c as [|c IH]; intros s Hc Hn Hdom; cbv zeta.
  - cbn. split_and!; done.
  - rewrite seq_S, rev_unit. change (1 + c) with (S c). cbn [foldl].
    assert (Hcn : S c ≤ n).
    { pose proof (Nat.div_mod_eq n 2). pose proof (Nat.mod_upper_bound n 2). lia. }
    assert (Hid : <[S c - 1 := NumPy.a s (S c)]> s = s).
    { apply list_insert_id. unfold NumPy.a. apply lookup_at. lia. }
    destruct (sift_spec n (S c) n s (NumPy.a s (S c)) (S c))
      as (R1 & R2 & R3 & R4); [lia|lia|lia|lia|lia| | |].
    + rewrite Hid. intros k Hk1 Hk2. apply Hdom. lia.
    + intros p Hp1 Hp2. lia.
    + rewrite Hid in R1, R4.
      set (r1 := NumPy.sift v n s (NumPy.a s (S c)) (S c) (S c + S c) n) in *.
      destruct (IH r1) as (Q1 & Q2 & Q3 & Q4); [lia|lia| |].
      * intros k Hk. apply R3. lia.
      * split_and!.
        -- by rewrite Q1.
        -- by rewrite Q2.
        -- done.
        -- intros k Hk. rewrite Q4 by done. by apply R4.
Qed.

Lemma heapify_spec (s : list nat) :
  let r := NumPy.heapify v s (length s) in
  r ≡ₚ s ∧ length r = length s ∧ (∀ k, 1 ≤ k → heap_dom r (length s) k).
Proof.
  destruct (heapify_aux (length s) (length s / 2) s) as (R1 & R2 & R3 & _);
    [lia|lia| |by split_and!].
  intros k Hk. pose proof (Nat.div_mod_eq (length s) 2).
  pose proof (Nat.mod_upper_bound (length s) 2). split; intros; lia.
Qed.

(** The root of a heap carries a largest key. *)
Lemma root_max (s : list nat) (n : nat) :
  (∀ k, 1 ≤ k → heap_dom s n k) →
  ∀ k, 1 ≤ k → k ≤ n → (ka s k ≤ ka s 1)%Z.
Proof.
  intros Hdom k. induction k as [k IH] using lt_wf_ind. intros H1 Hn.
  destruct (decide (k = 1)) as [->|Hne]; [lia|].
  set (p := k / 2).
  assert (Hp : k = p + p ∨ k = p + p + 1).
  { unfold p. pose proof (Nat.div_mod_eq k 2).
    pose proof (Nat.mod_upper_bound k 2). lia. }
  assert (Hp1 : 1 ≤ p) by lia.
  destruct (Hdom p Hp1) as [D1 D2].
  assert (ka s p ≤ ka s 1)%Z by (apply IH; lia).
  destruct Hp as [E|E]; rewrite E in *; [specialize (D1 Hn)|specialize (D2 Hn)]; lia.
Qed.

Lemma at_elem_of (s : list nat) (k : nat) : k < length s → at_ s k ∈ s.
Proof. intros Hk. apply list_elem_of_lookup. exists k. by apply lookup_at. Qed.

Lemma sortdown_spec :
  ∀ (m : nat) (s : list nat),
    S m ≤ length s →
    (∀ k, 1 ≤ k → heap_dom s (S m) k) →
    StronglySorted key_le (drop (S m) s) →
    (∀ x y, x ∈ take (S m) s → y ∈ drop (S m) s → key_le x y) →
    NumPy.sortdown v m s ≡ₚ s ∧ StronglySorted key_le (NumPy.sortdown v m s).
Proof.
  induction m as [|m IH]; intros s Hlen Hdom Hsorted Hbound.
  - cbn [NumPy.sortdown]. split; [done|].
    rewrite <- (take_drop 1 s). apply StronglySorted_app_2; [done| |done].
    destruct s as [|x s]; [cbn in Hlen; lia|]. cbn. repeat constructor.
  - cbn [NumPy.sortdown]. change 2 with (1 + 1).
    set (tmp := NumPy.a s (S (S m))).
    set (s1 := <[S m := NumPy.a s 1]> s).
    assert (Hl1 : length s1 = length s) by (unfold s1; by rewrite length_insert).
    set (u := <[1 - 1 := tmp]> s1).
    assert (Hlu : length u = length s) by (unfold u; by rewrite length_insert).
    assert (Hswap : u = INTP_SWAP s (S m) 0) by reflexivity.
    assert (Hpu : u ≡ₚ s) by (rewrite Hswap; apply swap_perm; lia).
    assert (Hu : ∀ k, 1 ≤ k → k ≤ length s →
              ka u k = if decide (k = 1) then ka s (S (S m))
                       else if decide (k = S (S m)) then ka s 1 else ka s k).
    { intros k Hk1 Hk2. unfold u. rewrite ka_insert by lia.
      destruct (decide (k = 1)); [done|]. unfold s1.
      replace (S m) with (S (S m) - 1) by lia. rewrite ka_insert by lia. done. }
    destruct (sift_spec (S m) 1 (S m) s1 tmp 1) as (R1 & R2 & R3 & R4);
      [lia|lia|lia|lia|lia| | |].
    { fold u. intros k Hk1 Hk2. destruct (Hdom k Hk1) as [D1 D2].
      unfold heap_dom. split; intros Hc; rewrite !Hu by lia; settle;
        [apply D1|apply D2]; lia. }
    { intros p Hp1 Hp2. lia. }
    fold u in R1, R4.
    set (r := NumPy.sift v (S m) s1 tmp 1 (1 + 1) (S m)) in *.
    assert (Hlr : length r = length s) by lia.
    assert (Hdu : drop (S m) u = at_ s 0 :: drop (S (S m)) s).
    { unfold u, s1. rewrite drop_insert_lt by lia.
      rewrite drop_insert_ge by lia. rewrite Nat.sub_diag.
      rewrite (drop_S s (at_ s (S m)) (S m)) by (apply lookup_at; lia). done. }
    assert (Hdr : drop (S m) r = drop (S m) u).
    { apply list_eq. intros k. rewrite !lookup_drop.
      destruct (decide (S m + k < length s)) as [Hk|Hk].
      - rewrite !lookup_at by lia.
        specialize (R4 (S (S m + k)) ltac:(lia)).
        replace (S (S m + k) - 1) with (S m + k) in R4 by lia. by rewrite R4.
      - rewrite !lookup_ge_None_2 by lia. done. }
    assert (Htr : take (S m) r ≡ₚ take (S m) u).
    { apply (Permutation_app_inv_r (drop (S m) u)).
      rewrite <- Hdr at 1. by rewrite !take_drop. }
    assert (Htu : ∀ x, x ∈ take (S m) u → x ∈ take (S (S m)) s).
    { intros x Hx. apply list_elem_of_lookup in Hx as [k Hk].
      apply lookup_take_Some in Hk as [Hk Hlt].
      apply list_elem_of_lookup.
      unfold u, s1 in Hk. destruct (decide (k = 0)) as [->|Hk0].
      - rewrite list_lookup_insert_eq in Hk by (rewrite length_insert; lia).
        exists (S m). rewrite lookup_take_lt by lia. injection Hk as <-.
        apply lookup_at. lia.
      - rewrite list_lookup_insert_ne in Hk by lia.
        rewrite list_lookup_insert_ne in Hk by lia.
        exists k. by rewrite lookup_take_lt by lia. }
    assert (Hroot : ∀ x, x ∈ take (S (S m)) s → key_le x (at_ s 0)).
    { intros x Hx. apply list_elem_of_lookup in Hx as [k Hk].
      apply lookup_take_Some in Hk as [Hk Hlt].
      pose proof (root_max s (S (S m)) Hdom (S k) ltac:(lia) ltac:(lia)) as Hr.
      unfold ka in Hr. cbn in Hr. rewrite Nat.sub_0_r in Hr.
      rewrite (at_lookup _ _ _ Hk) in Hr. exact Hr. }
    destruct (IH r) as [Q1 Q2]; [lia|done| | |].
    + rewrite Hdr, Hdu. constructor; [done|].
      apply Forall_forall. intros y Hy. apply Hbound; [|done].
      rewrite <- (take_drop 1). apply elem_of_app. left.
      destruct s as [|x0 s0]; [cbn in Hlen; lia|]. cbn. left.
    + intros x y Hx Hy. rewrite Htr in Hx. apply Htu in Hx.
      rewrite Hdr, Hdu in Hy. apply elem_of_cons in Hy as [->|Hy].
      * by apply Hroot.
      * by apply Hbound.
    + split; [|done]. by rewrite Q1, R1.
Qed.

Lemma aheapsort_spec (s : list nat) :
  NumPy.aheapsort v s ≡ₚ s ∧ StronglySorted key_le (NumPy.aheapsort v s).
Proof.
  unfold NumPy.aheapsort.
  destruct (heapify_spec s) as (H1 & H2 & H3).
  set (h := NumPy.heapify v s (length s)) in *.
  destruct s as [|x s]; [split; [done|constructor]|].
  destruct (sortdown_spec (length (x :: s) - 1) h) as [Q1 Q2].
  - rewrite H2. cbn. lia.
  - replace (S (length (x :: s) - 1)) with (length (x :: s)) by (cbn; lia). done.
  - rewrite drop_ge by (rewrite H2; cbn; lia). constructor.
  - intros a b _ Hb. rewrite drop_ge in Hb by (rewrite H2; cbn; lia).
    by apply elem_of_nil in Hb.
  - split; [by rewrite Q1|done].
Qed.

(** ** The main loop *)

Lemma sorted_glue (lo hi lo' hi' : list nat) (p : nat) :
  lo' ≡ₚ lo → hi' ≡ₚ hi →
  StronglySorted key_le lo' → StronglySorted key_le hi' →
  Forall (λ x, key_le x p) lo → Forall (key_le p) hi →
  lo' ++ p :: hi' ≡ₚ lo ++ p :: hi ∧ StronglySorted key_le (lo' ++ p :: hi').
Proof.
  intros Hlo Hhi Slo Shi Flo Fhi. split; [by rewrite Hlo, Hhi|].
  rewrite <- Hlo in Flo. rewrite <- Hhi in Fhi.
  apply StronglySorted_app_2; [|done|by constructor].
  intros x y Hx Hy. rewrite Forall_forall in Flo, Fhi.
  apply elem_of_cons in Hy as [->|Hy]; [by apply Flo|].
  specialize (Flo x Hx). specialize (Fhi y Hy). unfold key_le in *. lia.
Qed.

Lemma qs_loop_spec :
  ∀ (fuel : nat) (cdepth : Z) (s : list nat),
    length s ≤ fuel →
    NumPy.qs_loop v fuel cdepth s ≡ₚ s
    ∧ StronglySorted key_le (NumPy.qs_loop v fuel cdepth s).
Proof.
  induction fuel as [|fuel IH]; intros cdepth s Hlen.
  - destruct s; [|cbn in Hlen; lia]. split; [done|constructor].
  - cbn [NumPy.qs_loop].
    destruct (Nat.ltb_spec NumPy.SMALL_QUICKSORT (length s - 1)) as [Hbig|Hsmall];
      [|apply insertion_sort_spec].
    unfold NumPy.SMALL_QUICKSORT in Hbig.
    destruct (partition_split s) as (s' & pi & Heq & Hperm & H0 & Hpi & Hsplit & Flo & Fhi);
      [lia|].
    rewrite Heq. cbv zeta.
    assert (Hl' : length s' = length s) by (by rewrite Hperm).
    assert (Hllo : length (take pi s') ≤ fuel) by (rewrite length_take; lia).
    assert (Hlhi : length (drop (S pi) s') ≤ fuel) by (rewrite length_drop; lia).
    assert (Hpop : ∀ t, length t ≤ fuel →
              (if (cdepth - 1 <? 0)%Z then NumPy.aheapsort v t
               else NumPy.qs_loop v fuel (cdepth - 1) t) ≡ₚ t
              ∧ StronglySorted key_le
                  (if (cdepth - 1 <? 0)%Z then NumPy.aheapsort v t
                   else NumPy.qs_loop v fuel (cdepth - 1) t)).
    { intros t Ht. destruct (cdepth - 1 <? 0)%Z; [apply aheapsort_spec|by apply IH]. }
    set (lo := take pi s') in *. set (hi := drop (S pi) s') in *.
    set (p := at_ s' pi) in *.
    destruct (pi <? length s' - 1 - pi).
    + destruct (IH (cdepth - 1)%Z _ Hllo) as [A1 A2].
      destruct (Hpop _ Hlhi) as [B1 B2].
      destruct (sorted_glue lo hi _ _ p A1 B1 A2 B2 Flo Fhi) as [G1 G2].
      split; [|exact G2]. by rewrite G1, <- Hsplit.
    + destruct (Hpop _ Hllo) as [A1 A2].
      destruct (IH (cdepth - 1)%Z _ Hlhi) as [B1 B2].
      destruct (sorted_glue lo hi _ _ p A1 B1 A2 B2 Flo Fhi) as [G1 G2].
      split; [|exact G2]. by rewrite G1, <- Hsplit.
Qed.

Theorem aquicksort_spec :
  NumPy.aquicksort v ≡ₚ seq 0 (length v)
  ∧ StronglySorted Z.le ((λ i, nth i v 0%Z) <$> NumPy.aquicksort v).
Proof.
  destruct (qs_loop_spec (length v) (2 * Z.of_nat (Nat.log2 (length v)))
              (seq 0 (length v))) as [H1 H2]; [by rewrite length_seq|].
  split; [exact H1|].
  eapply StronglySorted_fmap; [|exact H2]. intros x y Hxy. exact Hxy.
Qed.
End ArgsortFacts.

(** * Facts about the frame operations *)

Lemma set_cells_lookup (c : string) (rs : list (nat * Row)) :
  ∀ (vals : list Value) (k : nat),
    set_cells c rs vals !! k
    = (λ ir : nat * Row, (ir.1, <[c := nth k vals NaN]> ir.2)) <$> rs !! k.
Proof.
  induction rs as [|[i r] rs IH]; intros vals k; [done|].
  destruct k as [|k]; cbn.
  - by destruct vals.
  - rewrite IH. by destruct vals; [destruct k|].
Qed.

Lemma set_cells_length (c : string) (rs : list (nat * Row)) (vals : list Value) :
  length (set_cells c rs vals) = length rs.
Proof. revert vals. induction rs as [|[i r] rs IH]; intros vals; cbn; [done|by rewrite IH]. Qed.

Lemma cell_insert (r : Row) (c c' : string) (x : Value) :
  cell (<[c := x]> r) c' = if decide (c' = c) then x else cell r c'.
Proof.
  unfold cell. destruct (decide (c' = c)) as [->|Hne].
  - by rewrite lookup_insert_eq.
  - by rewrite lookup_insert_ne.
Qed.

Lemma cell_rename_row (old new : string) (r : Row) (c : string) :
  cell (rename_row old new r) c
  = if decide (c = new) then cell r old
    else if decide (c = old) then NaN else cell r c.
Proof.
  unfold rename_row. rewrite cell_insert.
  destruct (decide (c = new)); [done|].
  unfold cell. destruct (decide (c = old)) as [->|Hne].
  - by rewrite lookup_delete_eq.
  - by rewrite lookup_delete_ne.
Qed.

(** The three renames of the source, on one row. *)
Definition renamed_row (r : Row) : Row :=
  rename_row "timestamp" "event_time"
    (rename_row "status" "status_name"
       (rename_row "production_line_id" "production_line_id" r)).

(** A row of the frame after step 2, given the parsed timestamp cell. *)
Definition transformed_row (r : Row) (t : Value) : Row :=
  <["event_time" := t]>
    (<["status_id" := map_status (cell r "status")]> (renamed_row r)).

Lemma renamed_row_cells (r : Row) :
  cell (renamed_row r) "production_line_id" = cell r "production_line_id"
  ∧ cell (renamed_row r) "status_name" = cell r "status"
  ∧ cell (renamed_row r) "event_time" = cell r "timestamp".
Proof. unfold renamed_row. rewrite !cell_rename_row. by repeat case_decide. Qed.

Lemma transformed_row_cells (r : Row) (t : Value) :
  cell (transformed_row r t) "production_line_id" = cell r "production_line_id"
  ∧ cell (transformed_row r t) "status_name" = cell r "status"
  ∧ cell (transformed_row r t) "status_id" = map_status (cell r "status")
  ∧ cell (transformed_row r t) "event_time" = t.
Proof.
  unfold transformed_row. rewrite !cell_insert.
  destruct (renamed_row_cells r) as (H1 & H2 & H3).
  by repeat case_decide.
Qed.

Lemma required_columns_present (raw_df : DataFrame) :
  List.find (λ col, bool_decide (col ∉ columns raw_df)) expected_raw_cols = None ↔
  "production_line_id" ∈ columns raw_df ∧ "status" ∈ columns raw_df
  ∧ "timestamp" ∈ columns raw_df.
Proof.
  unfold expected_raw_cols. cbn.
  repeat case_bool_decide; split; try done; intros (?&?&?); done.
Qed.

Lemma rows_rename (old new : string) (df : DataFrame) :
  old ∈ columns df →
  rows (rename old new df)
  = (λ ir : nat * Row, (ir.1, rename_row old new ir.2)) <$> rows df.
Proof. intros H. unfold rename. by rewrite decide_True. Qed.

Lemma columns_rename_other (old new c : string) (df : DataFrame) :
  c ∈ columns df → c ≠ old → c ∈ columns (rename old new df).
Proof.
  intros Hc Hne. unfold rename. case_decide; [|done]. cbn.
  apply list_elem_of_fmap. exists c. by rewrite decide_False.
Qed.

Lemma rows_rename_columns (raw_df : DataFrame) :
  "production_line_id" ∈ columns raw_df → "status" ∈ columns raw_df →
  "timestamp" ∈ columns raw_df →
  rows (rename_columns raw_df)
  = (λ ir : nat * Row, (ir.1, renamed_row ir.2)) <$> rows raw_df.
Proof.
  intros H1 H2 H3. unfold rename_columns.
  rewrite rows_rename by (by repeat apply columns_rename_other).
  rewrite rows_rename by (by repeat apply columns_rename_other).
  rewrite rows_rename by done.
  rewrite <- !list_fmap_compose. done.
Qed.

(** The cell [pd.to_datetime] leaves in row [k]. *)
Definition parsed_cell (to_datetime : list Value → list (option Z))
    (raw_df : DataFrame) (k : nat) : Value :=
  nth k (datetime_cell <$> to_datetime (column "timestamp" raw_df)) NaN.

Lemma column_status_name (raw_df : DataFrame) :
  "production_line_id" ∈ columns raw_df → "status" ∈ columns raw_df →
  "timestamp" ∈ columns raw_df →
  column "status_name" (rename_columns raw_df) = column "status" raw_df.
Proof.
  intros H1 H2 H3. unfold column. rewrite rows_rename_columns by done.
  rewrite <- list_fmap_compose. apply list_fmap_ext. intros k [i r] _. cbn.
  apply renamed_row_cells.
Qed.

Lemma column_event_time (raw_df : DataFrame) (vals : list Value) :
  "production_line_id" ∈ columns raw_df → "status" ∈ columns raw_df →
  "timestamp" ∈ columns raw_df →
  column "event_time" (assign "status_id" vals (rename_columns raw_df))
  = column "timestamp" raw_df.
Proof.
  intros H1 H2 H3. unfold column, assign. cbn [rows].
  apply list_eq. intros k. rewrite !list_lookup_fmap, set_cells_lookup.
  rewrite rows_rename_columns by done. rewrite list_lookup_fmap.
  destruct (rows raw_df !! k) as [[i r]|]; [|done]. cbn.
  rewrite cell_insert. rewrite decide_False by done.
  f_equal. apply renamed_row_cells.
Qed.

Lemma transformed_lookup (to_datetime : list Value → list (option Z))
    (raw_df : DataFrame) (k : nat) :
  "production_line_id" ∈ columns raw_df → "status" ∈ columns raw_df →
  "timestamp" ∈ columns raw_df →
  rows (transformed to_datetime raw_df) !! k
  = (λ ir : nat * Row, (ir.1, transformed_row ir.2 (parsed_cell to_datetime raw_df k)))
      <$> rows raw_df !! k.
Proof.
  intros H1 H2 H3. unfold transformed.
  rewrite column_event_time, column_status_name by done.
  unfold assign. cbn [rows]. rewrite !set_cells_lookup.
  rewrite rows_rename_columns by done. rewrite list_lookup_fmap.
  destruct (rows raw_df !! k) as [[i r]|] eqn:Hk; [|done]. cbn.
  unfold transformed_row, parsed_cell.
  replace (nth k (map_status <$> column "status" raw_df) NaN)
    with (map_status (cell r "status")); [done|].
  unfold column. by rewrite nth_lookup, !list_lookup_fmap, Hk.
Qed.

Lemma transformed_length (to_datetime : list Value → list (option Z))
    (raw_df : DataFrame) :
  length (rows (transformed to_datetime raw_df)) = length (rows (rename_columns raw_df)).
Proof. unfold transformed, assign. cbn [rows]. by rewrite !set_cells_length. Qed.

(** ** Boolean masks *)

Lemma List_filter_stdpp {A} (f : A → bool) (l : list A) :
  List.filter f l = filter (λ x, f x = true) l.
Proof.
  induction l as [|x l IH]; [done|]. cbn [List.filter].
  destruct (f x) eqn:Hx.
  - by rewrite filter_cons_True, IH.
  - by rewrite filter_cons_False, IH by congruence.
Qed.

Lemma mask_elem_of (p : Row → bool) (df : DataFrame) (ir : nat * Row) :
  ir ∈ rows (mask p df) ↔ p ir.2 = true ∧ ir ∈ rows df.
Proof. unfold mask. cbn. by rewrite List_filter_stdpp, list_elem_of_filter. Qed.

Lemma mask_sublist (p : Row → bool) (df : DataFrame) :
  rows (mask p df) `sublist_of` rows df.
Proof. unfold mask. cbn. rewrite List_filter_stdpp. apply sublist_filter. Qed.

Lemma mask_partition (p : Row → bool) (df : DataFrame) :
  rows (mask p df) ++ rows (mask (λ r, negb (p r)) df) ≡ₚ rows df.
Proof.
  unfold mask. cbn. induction (rows df) as [|[i r] l IH]; [done|]. cbn.
  destruct (p r); cbn.
  - by rewrite IH.
  - by rewrite <- Permutation_middle, IH.
Qed.

(** ** Sorting a frame on a datetime column *)

Lemma positions_from_all (p : Value → bool) (l : list Value) :
  ∀ k, Forall (λ x, p x = true) l → positions_from k p l = seq k (length l).
Proof.
  induction l as [|x l IH]; intros k Hall; [done|].
  apply Forall_cons in Hall as [Hx Hl]. cbn. rewrite Hx. f_equal. by apply IH.
Qed.

Lemma positions_from_none (p : Value → bool) (l : list Value) :
  ∀ k, Forall (λ x, p x = false) l → positions_from k p l = [].
Proof.
  induction l as [|x l IH]; intros k Hall; [done|].
  apply Forall_cons in Hall as [Hx Hl]. cbn. rewrite Hx. by apply IH.
Qed.

Lemma nargsort_timestamps (keys : list Z) :
  nargsort (Timestamp <$> keys) = NumPy.aquicksort keys.
Proof.
  unfold nargsort.
  assert (Hkeys : omap as_time (Timestamp <$> keys) = keys).
  { induction keys as [|t keys IH]; cbn; [done|by rewrite IH]. }
  rewrite Hkeys.
  rewrite positions_from_all by (apply Forall_fmap, Forall_true; intros; done).
  rewrite positions_from_none by (apply Forall_fmap, Forall_true; intros; done).
  rewrite app_nil_r, length_fmap.
  destruct (aquicksort_spec keys) as [Hperm _].
  assert (Hin : Forall (λ i, i < length keys) (NumPy.aquicksort keys)).
  { rewrite Hperm. apply Forall_forall. intros i Hi.
    apply elem_of_seq in Hi. lia. }
  clear Hperm. induction Hin as [|i l Hi Hl IH]; cbn; [done|].
  rewrite IH. f_equal. by rewrite seq_nth.
Qed.

Lemma take_rows_seq_from (pre rs : list (nat * Row)) :
  take_rows (pre ++ rs) (seq (length pre) (length rs)) = rs.
Proof.
  unfold take_rows. revert pre. induction rs as [|r rs IH]; intros pre; [done|].
  cbn. rewrite list_lookup_middle by done. cbn. f_equal.
  specialize (IH (pre ++ [r])). rewrite <- app_assoc in IH. cbn in IH.
  rewrite length_app, Nat.add_1_r in IH. exact IH.
Qed.

Lemma take_rows_seq (rs : list (nat * Row)) :
  take_rows rs (seq 0 (length rs)) = rs.
Proof. exact (take_rows_seq_from [] rs). Qed.

Lemma take_rows_perm (rs : list (nat * Row)) (idx : list nat) :
  idx ≡ₚ seq 0 (length rs) → take_rows rs idx ≡ₚ rs.
Proof.
  intros Hperm. rewrite <- (take_rows_seq rs) at 2.
  unfold take_rows. by rewrite Hperm.
Qed.

Lemma take_rows_fmap {A} (f : nat * Row → A) (d : A) (rs : list (nat * Row)) (idx : list nat) :
  Forall (λ i, i < length rs) idx →
  f <$> take_rows rs idx = (λ i, nth i (f <$> rs) d) <$> idx.
Proof.
  unfold take_rows. induction 1 as [|i idx Hi Hidx IH]; [done|]. cbn.
  destruct (lookup_lt_is_Some_2 rs i Hi) as [r Hr]. rewrite Hr. cbn.
  rewrite IH. f_equal. by rewrite nth_lookup, list_lookup_fmap, Hr.
Qed.

(** The timestamps of a column, the missing ones left out. *)
Definition times (c : string) (df : DataFrame) : list Z :=
  omap as_time (column c df).

Lemma sort_values_spec (c : string) (df : DataFrame) :
  Forall (λ x, is_Some (as_time x)) (column c df) →
  rows (sort_values c df) ≡ₚ rows df
  ∧ column c (sort_values c df) = Timestamp <$> times c (sort_values c df)
  ∧ StronglySorted Z.le (times c (sort_values c df)).
Proof.
  intros Hall.
  assert (Hcol : column c df = Timestamp <$> times c df).
  { unfold times. induction Hall as [|x l [t Hx] Hl IH]; [done|].
    cbn. destruct x; try done. cbn. by rewrite <- IH. }
  set (keys := times c df) in *.
  assert (Hlen : length keys = length (rows df)).
  { apply (f_equal length) in Hcol. unfold column in Hcol.
    by rewrite !length_fmap in Hcol. }
  destruct (aquicksort_spec keys) as [Hperm Hsorted].
  assert (Hin : Forall (λ i, i < length (rows df)) (NumPy.aquicksort keys)).
  { rewrite Hperm. apply Forall_forall. intros i Hi.
    apply elem_of_seq in Hi. lia. }
  assert (Hcol' : column c (sort_values c df)
                  = Timestamp <$> ((λ i, nth i keys 0%Z) <$> NumPy.aquicksort keys)).
  { unfold sort_values, column at 1. cbn [rows].
    fold (column c df). rewrite Hcol, nargsort_timestamps.
    rewrite (take_rows_fmap _ NaN) by done.
    fold (column c df). rewrite Hcol, <- list_fmap_compose.
    apply Forall_fmap_ext_1. eapply Forall_impl; [exact Hin|].
    intros i Hi. cbn. rewrite !nth_lookup, list_lookup_fmap.
    assert (Hik : i < length keys) by (cbn beta in Hi; lia).
    destruct (lookup_lt_is_Some_2 keys i Hik) as [t Ht]. by rewrite Ht. }
  assert (Htimes : times c (sort_values c df) = (λ i, nth i keys 0%Z) <$> NumPy.aquicksort keys).
  { unfold times. rewrite Hcol'.
    generalize ((λ i, nth i keys 0%Z) <$> NumPy.aquicksort keys).
    intros l. induction l as [|t l IH]; cbn; [done|by rewrite IH]. }
  split_and!.
  - unfold sort_values. cbn [rows]. apply take_rows_perm.
    rewrite Hcol, nargsort_timestamps. by rewrite Hperm, Hlen.
  - by rewrite Htimes.
  - by rewrite Htimes.
Qed.

(** * Facts about [transform_raw_data] *)

Section TransformFacts.

Variable to_datetime : list Value → list (option Z).

Lemma transformed_rows (raw_df : DataFrame) :
  "production_line_id" ∈ columns raw_df → "status" ∈ columns raw_df →
  "timestamp" ∈ columns raw_df →
  rows (transformed to_datetime raw_df)
  = imap (λ k (ir : nat * Row),
            (ir.1, transformed_row ir.2 (parsed_cell to_datetime raw_df k)))
      (rows raw_df).
Proof.
  intros H1 H2 H3. apply list_eq. intros k.
  rewrite transformed_lookup, list_lookup_imap by done.
  by destruct (rows raw_df !! k).
Qed.

Lemma parsed_cell_cases (raw_df : DataFrame) (k : nat) :
  parsed_cell to_datetime raw_df k = NaN
  ∨ ∃ t, parsed_cell to_datetime raw_df k = Timestamp t.
Proof.
  unfold parsed_cell. rewrite nth_lookup, list_lookup_fmap.
  destruct (to_datetime (column "timestamp" raw_df) !! k) as [[t|]|]; cbn; eauto.
Qed.

Lemma is_valid_cells (r : Row) :
  is_valid r = true ↔
  notna (cell r "production_line_id") = true
  ∧ notna (cell r "status_id") = true
  ∧ notna (cell r "event_time") = true.
Proof.
  unfold is_valid, required_cols. cbn. rewrite !andb_true_iff. tauto.
Qed.

(** What [transform_raw_data] returns, and when. *)
Lemma transform_raw_data_inr (raw_df clean_fact_df quarantined_df : DataFrame) :
  transform_raw_data to_datetime raw_df = inr (clean_fact_df, quarantined_df) ↔
  ("production_line_id" ∈ columns raw_df ∧ "status" ∈ columns raw_df
   ∧ "timestamp" ∈ columns raw_df)
  ∧ ("status_name" ∉ columns raw_df) ∧ ("event_time" ∉ columns raw_df)
  ∧ clean_fact_df
    = sort_values "event_time" (mask is_valid (transformed to_datetime raw_df))
  ∧ quarantined_df
    = mask (λ r, negb (is_valid r)) (transformed to_datetime raw_df).
Proof.
  unfold transform_raw_data.
  destruct (List.find _ expected_raw_cols) as [col|] eqn:Hfind.
  - split; [done|]. intros [Hcols _].
    apply required_columns_present in Hcols. congruence.
  - apply required_columns_present in Hfind.
    destruct (bool_decide ("status_name" ∈ columns raw_df)) eqn:Hsn.
    { apply bool_decide_eq_true in Hsn. split; [done|]. tauto. }
    apply bool_decide_eq_false in Hsn.
    destruct (bool_decide ("event_time" ∈ columns raw_df)) eqn:Het.
    { apply bool_decide_eq_true in Het. split; [done|]. tauto. }
    apply bool_decide_eq_false in Het.
    split.
    + intros [= <- <-]. done.
    + intros (_ & _ & _ & -> & ->). done.
Qed.

(** Every row that passes the validation has a parsed timestamp. *)
Lemma valid_rows_timestamps (raw_df : DataFrame) :
  "production_line_id" ∈ columns raw_df → "status" ∈ columns raw_df →
  "timestamp" ∈ columns raw_df →
  Forall (λ x, is_Some (as_time x))
    (column "event_time" (mask is_valid (transformed to_datetime raw_df))).
Proof.
  intros H1 H2 H3. unfold column, mask. cbn [rows].
  apply Forall_fmap, Forall_forall. intros [i r] Hin. cbn.
  apply mask_elem_of in Hin as [Hvalid Hin]. cbn in Hvalid.
  apply is_valid_cells in Hvalid as (_ & _ & Hnotna).
  rewrite transformed_rows in Hin by done.
  apply list_elem_of_lookup in Hin as [k Hk].
  rewrite list_lookup_imap in Hk.
  destruct (rows raw_df !! k) as [[j r0]|]; [|done]. cbn in Hk.
  injection Hk as <- <-.
  destruct (transformed_row_cells r0 (parsed_cell to_datetime raw_df k))
    as (_ & _ & _ & Het).
  rewrite Het in *.
  destruct (parsed_cell_cases raw_df k) as [Hp|[t Hp]]; rewrite Hp in *; [done|].
  by eexists.
Qed.

End TransformFacts.

(** * Facts about the loader *)

(** The high-water mark the loader works with: the largest [event_time] of
    the fact table, or NaT when there is none or the table is missing. *)
Definition high_water_mark (w : World) : Value :=
  match tables w !! TARGET_TABLE with
  | Some rs => sql_max ((λ r, cell r "event_time") <$> rs)
  | None => NaN
  end.

(** The rows of the batch the loader takes for a given mark. *)
Definition eligible (latest : Value) (clean_fact_df : DataFrame) : list (nat * Row) :=
  if isna latest then rows clean_fact_df
  else List.filter (λ ir : nat * Row, later_than latest ir.2) (rows clean_fact_df).

(** What the loader prints for that mark. *)
Definition load_messages (w : World) (clean_fact_df : DataFrame) : list Msg :=
  let latest := high_water_mark w in
  let n := length (eligible latest clean_fact_df) in
  match tables w !! TARGET_TABLE with
  | Some _ => []
  | None => [WarningMaxEventTime (ProgrammingError TARGET_TABLE)]
  end
  ++ [if isna latest then TableEmptyLoadingAll TARGET_TABLE n
      else LatestEventInDb latest n]
  ++ [match eligible latest clean_fact_df with
      | [] => NoNewData TARGET_TABLE
      | _ :: _ => LoadedRows n TARGET_TABLE
      end].

Lemma notna_or_NaN (x : Value) : (if notna x then x else NaN) = x.
Proof. by destruct x. Qed.

Lemma empty_rows (df : DataFrame) :
  columns df ≠ [] → empty df = bool_decide (rows df = []).
Proof. unfold empty. by destruct (rows df), (columns df). Qed.

Lemma rows_project (cols : list string) (df : DataFrame) :
  (rows (project cols df)).*2 = project_row cols <$> (rows df).*2.
Proof. unfold project. cbn. by rewrite <- !list_fmap_compose. Qed.

Lemma length_rows_project (cols : list string) (df : DataFrame) :
  length (rows (project cols df)) = length (rows df).
Proof. unfold project. cbn. by rewrite length_fmap. Qed.

Local Ltac load_done Htable Hrows :=
  cbn -[sql_max TARGET_TABLE project mask later_than required_cols];
  unfold len;
  rewrite ?length_rows_project, ?rows_project, ?Htable; cbn [mask rows];
  rewrite ?Hrows, <- ?app_assoc; done.

Lemma load_fact_process_events_spec (clean_fact_df : DataFrame) (w : World) :
  columns clean_fact_df ≠ [] →
  let new := eligible (high_water_mark w) clean_fact_df in
  load_fact_process_events clean_fact_df w
  = (Ok tt,
     {| files := files w;
        quarantine_file := quarantine_file w;
        reread := reread w;
        tables :=
          match new with
          | [] => tables w
          | _ :: _ =>
              <[TARGET_TABLE := default [] (tables w !! TARGET_TABLE)
                                ++ (project_row required_cols <$> new.*2)]> (tables w)
          end;
        db_log :=
          db_log w ++ ReadSql (SelectMax "event_time" TARGET_TABLE)
            :: match new with
               | [] => []
               | _ :: _ => [ToSql TARGET_TABLE (length new)]
               end;
        stdout := stdout w ++ load_messages w clean_fact_df |}).
Proof.
  intros Hcols new. subst new.
  unfold load_fact_process_events, load_messages, high_water_mark, eligible,
    bind, try_except, read_sql, ret, print, to_sql, log_db.
  destruct (tables w !! TARGET_TABLE) as [rs|] eqn:Htable;
    cbn -[sql_max TARGET_TABLE project mask later_than required_cols empty];
    rewrite ?notna_or_NaN.
  - destruct (isna (sql_max _)) eqn:Hna;
      cbn -[sql_max TARGET_TABLE project mask later_than required_cols empty].
    + rewrite empty_rows by done.
      destruct (rows clean_fact_df) as [|ir l] eqn:Hrows; load_done Htable Hrows.
    + set (d := mask _ clean_fact_df).
      change (List.filter _ (rows clean_fact_df)) with (rows d).
      assert (Hd : columns d ≠ []) by done. clearbody d.
      rewrite empty_rows by done.
      destruct (rows d) as [|ir l] eqn:Hrows; load_done Htable Hrows.
  - rewrite empty_rows by done.
    destruct (rows clean_fact_df) as [|ir l] eqn:Hrows; load_done Htable Hrows.
Qed.

(** ** The mark after a load *)

(** [latest] is a timestamp that is no earlier than [t]. *)
Definition covers (latest : Value) (t : Z) : Prop :=
  ∃ m, latest = Timestamp m ∧ (t ≤ m)%Z.

Lemma sql_max_app (l1 l2 : list Value) :
  sql_max (l1 ++ l2)
  = foldl (λ acc x,
             match x, acc with
             | Timestamp t, Timestamp m => Timestamp (Z.max m t)
             | Timestamp t, _ => Timestamp t
             | _, _ => acc
             end) (sql_max l1) l2.
Proof. unfold sql_max. by rewrite foldl_app. Qed.

Lemma sql_fold_covers (l : list Value) :
  ∀ acc,
    let r := foldl (λ acc x,
                      match x, acc with
                      | Timestamp t, Timestamp m => Timestamp (Z.max m t)
                      | Timestamp t, _ => Timestamp t
                      | _, _ => acc
                      end) acc l in
    (∀ t, covers acc t → covers r t) ∧ (∀ t, Timestamp t ∈ l → covers r t).
Proof.
  induction l as [|x l IH]; intros acc; cbn zeta; cbn [foldl].
  - split; [done|]. intros t Ht. by apply elem_of_nil in Ht.
  - match goal with |- context [foldl _ ?a l] => destruct (IH a) as [IH1 IH2] end.
    split.
    + intros t (m & -> & Hle). apply IH1.
      destruct x; try (by exists m). eexists. split; [done|lia].
    + intros t Ht. apply elem_of_cons in Ht as [<-|Ht]; [|by apply IH2].
      apply IH1. destruct acc; eexists; split; try done; lia.
Qed.

Lemma sql_max_covers (l : list Value) (t : Z) :
  Timestamp t ∈ l → covers (sql_max l) t.
Proof. apply (sql_fold_covers l NaN). Qed.

Lemma sql_max_cases (l : list Value) :
  sql_max l = NaN ∨ ∃ m, sql_max l = Timestamp m ∧ Timestamp m ∈ l.
Proof.
  induction l as [|x l IH] using rev_ind; [by left|].
  rewrite sql_max_app. cbn.
  destruct x as [|s|z|t].
  - destruct IH as [->|(m & -> & Hm)]; [by left|right]. exists m.
    split; [done|]. apply elem_of_app. by left.
  - destruct IH as [->|(m & -> & Hm)]; [by left|right]. exists m.
    split; [done|]. apply elem_of_app. by left.
  - destruct IH as [->|(m & -> & Hm)]; [by left|right]. exists m.
    split; [done|]. apply elem_of_app. by left.
  - right. destruct IH as [->|(m & -> & Hm)].
    + exists t. split; [done|]. apply elem_of_app. right. by apply list_elem_of_singleton.
    + exists (Z.max m t). split; [done|]. apply elem_of_app.
      destruct (Z.max_spec m t) as [[_ ->]|[_ ->]]; [right|by left].
      by apply list_elem_of_singleton.
Qed.

Lemma later_than_covered (latest : Value) (r : Row) (t : Z) :
  cell r "event_time" = Timestamp t → covers latest t → later_than latest r = false.
Proof.
  intros Hr (m & -> & Hle). unfold later_than. rewrite Hr. by apply Z.ltb_ge.
Qed.

Lemma later_than_spec (latest : Value) (r : Row) :
  later_than latest r = true ↔
  ∃ t m, cell r "event_time" = Timestamp t ∧ latest = Timestamp m ∧ (m < t)%Z.
Proof.
  unfold later_than. split.
  - destruct (cell r "event_time") as [| | |t]; try done.
    destruct latest as [| | |m]; try done.
    intros H%Z.ltb_lt. by exists t, m.
  - intros (t & m & -> & -> & H). by apply Z.ltb_lt.
Qed.

Lemma eligible_covered (latest : Value) (clean_fact_df : DataFrame) :
  (∀ ir, ir ∈ rows clean_fact_df →
     ∃ t, cell ir.2 "event_time" = Timestamp t ∧ covers latest t) →
  eligible latest clean_fact_df = [].
Proof.
  intros Hall. unfold eligible.
  destruct (rows clean_fact_df) as [|ir l] eqn:Hrows; [by destruct (isna latest)|].
  destruct (Hall ir) as (t & _ & m & -> & _); [left|]. cbn [isna notna negb].
  rewrite <- Hrows in *. clear Hrows.
  induction (rows clean_fact_df) as [|ir' l' IH]; [done|]. cbn.
  destruct (Hall ir') as (t' & Hir' & Hc); [left|].
  rewrite (later_than_covered _ _ _ Hir' Hc).
  apply IH. intros ir0 Hin. apply Hall. by right.
Qed.

Lemma cell_project_row (cols : list string) (r : Row) (c : string) :
  cell (project_row cols r) c = if decide (c ∈ cols) then cell r c else NaN.
Proof.
  unfold project_row, cell at 1.
  induction cols as [|c' cols IH]; [done|]. cbn.
  destruct (decide (c = c')) as [->|Hne].
  - rewrite lookup_insert_eq. cbn. rewrite decide_True; [done|left].
  - rewrite lookup_insert_ne by done. rewrite IH.
    destruct (decide (c ∈ cols)) as [Hin|Hnin].
    + rewrite decide_True; [done|by right].
    + rewrite decide_False; [done|]. intros [?|?]%elem_of_cons; done.
Qed.

Lemma dom_project_row (cols : list string) (r : Row) :
  dom (project_row cols r) = list_to_set cols.
Proof.
  unfold project_row. induction cols as [|c cols IH]; cbn.
  - apply dom_empty_L.
  - by rewrite dom_insert_L, IH.
Qed.

(** The mark of the world a load leaves covers every timestamp of the
    batch that was loaded. *)
Lemma load_twice_nothing (clean_fact_df : DataFrame) (w : World) :
  columns clean_fact_df ≠ [] →
  Forall (λ ir : nat * Row, is_Some (as_time (cell ir.2 "event_time")))
    (rows clean_fact_df) →
  eligible (high_water_mark (load_fact_process_events clean_fact_df w).2)
    clean_fact_df = [].
Proof.
  intros Hcols Hall.
  rewrite load_fact_process_events_spec by done. cbn [snd].
  assert (Hold : sql_max ((λ r, cell r "event_time")
                          <$> default [] (tables w !! TARGET_TABLE))
                 = high_water_mark w).
  { unfold high_water_mark. by destruct (tables w !! TARGET_TABLE). }
  assert (Hcases : high_water_mark w = NaN ∨ ∃ m, high_water_mark w = Timestamp m).
  { rewrite <- Hold. destruct (sql_max_cases ((λ r, cell r "event_time")
                          <$> default [] (tables w !! TARGET_TABLE)))
      as [->|(m & -> & _)]; eauto. }
  revert Hold Hcases. generalize (high_water_mark w). intros latest Hold Hcases.
  destruct (eligible latest clean_fact_df) as [|ir0 new0] eqn:Hnew.
  { unfold high_water_mark. cbn [tables]. fold (high_water_mark w).
    unfold high_water_mark. rewrite <- Hold in Hnew.
    by destruct (tables w !! TARGET_TABLE). }
  rewrite <- Hnew. clear ir0 new0 Hnew.
  apply eligible_covered. intros [i r] Hin.
  rewrite Forall_forall in Hall.
  destruct (Hall _ Hin) as [t Ht]. cbn in Ht.
  destruct (cell r "event_time") as [| | |t'] eqn:Hcell; try done.
  injection Ht as ->. exists t. split; [done|].
  unfold high_water_mark. cbn [tables]. rewrite lookup_insert_eq.
  rewrite fmap_app, sql_max_app, Hold.
  match goal with
  | |- covers (foldl _ ?acc ?l) _ => destruct (sql_fold_covers l acc) as [Hacc Hl]
  end.
  assert (Hproj : ∀ ir, ir ∈ eligible latest clean_fact_df →
            cell ir.2 "event_time"
            ∈ (λ r, cell r "event_time")
              <$> (project_row required_cols <$> (eligible latest clean_fact_df).*2)).
  { intros ir Hir. apply list_elem_of_fmap.
    exists (project_row required_cols ir.2). split.
    - rewrite cell_project_row. by rewrite decide_True by (unfold required_cols; do 2 right; left).
    - apply list_elem_of_fmap_2, list_elem_of_fmap_2, Hir. }
  destruct (later_than latest r) eqn:Hlater.
  - apply Hl. rewrite <- Hcell. apply (Hproj (i, r)). unfold eligible.
    destruct (isna latest); [done|].
    rewrite List_filter_stdpp. apply list_elem_of_filter. by split.
  - destruct Hcases as [->|[m ->]].
    + apply Hl. rewrite <- Hcell. by apply (Hproj (i, r)).
    + apply Hacc. unfold later_than in Hlater. rewrite Hcell in Hlater.
      exists m. split; [done|]. by apply Z.ltb_ge.
Qed.

(** * Facts about [check_and_insert_dimension] *)

Lemma unique_from_spec (l : list Value) :
  ∀ seen,
    NoDup (unique_from seen l)
    ∧ ∀ x, x ∈ unique_from seen l ↔ x ∈ l ∧ x ∉ seen.
Proof.
  induction l as [|y l IH]; intros seen; cbn.
  - split; [constructor|]. intros x. rewrite !elem_of_nil. tauto.
  - destruct (decide (y ∈ seen)) as [Hy|Hy].
    + destruct (IH seen) as [Hnd Hin]. split; [done|].
      intros x. rewrite Hin, elem_of_cons. naive_solver.
    + destruct (IH (y :: seen)) as [Hnd Hin]. split.
      * constructor; [|done]. rewrite Hin, elem_of_cons. tauto.
      * intros x. rewrite !elem_of_cons, Hin, elem_of_cons.
        destruct (decide (x = y)); naive_solver.
Qed.

Lemma unique_NoDup (l : list Value) : NoDup (unique l).
Proof. apply unique_from_spec. Qed.

Lemma elem_of_unique (l : list Value) (x : Value) : x ∈ unique l ↔ x ∈ l.
Proof.
  unfold unique. destruct (unique_from_spec l []) as [_ ->].
  rewrite elem_of_nil. tauto.
Qed.

Lemma unique_nil (l : list Value) : unique l = [] ↔ l = [].
Proof.
  split; [|by intros ->]. destruct l as [|x l]; [done|]. intros H.
  assert (Hx : x ∈ unique (x :: l)) by (apply elem_of_unique; left).
  rewrite H in Hx. by apply elem_of_nil in Hx.
Qed.

(** The key column of a dimension table. *)
Definition dimension_keys (column_name : string) (rs : list Row) : list Value :=
  (λ r, cell r column_name) <$> rs.

(** The keys of the batch that the table does not hold yet. *)
Definition new_keys (column_name : string) (fact_df : DataFrame)
    (existing_values : list Value) : list Value :=
  filter (λ x, x ∉ existing_values) (unique (column column_name fact_df)).

(** The row [to_sql] writes for a key. *)
Definition key_row (column_name : string) (x : Value) : Row := {[column_name := x]}.

Lemma snd_imap {A B} (g : nat → A → nat) (f : A → B) (l : list A) :
  (imap (λ i x, (g i x, f x)) l).*2 = f <$> l.
Proof.
  apply list_eq. intros k. rewrite !list_lookup_fmap, list_lookup_imap.
  by destruct (l !! k).
Qed.

Lemma filter_imap_snd {A B} (p : B → bool) (f : A → B) (l : list A) :
  ∀ g : nat → nat,
    (List.filter (λ ir : nat * B, p ir.2) (imap (λ i x, (g i, f x)) l)).*2
    = f <$> List.filter (λ x, p (f x)) l.
Proof.
  induction l as [|x l IH]; intros g; [done|]. cbn.
  destruct (p (f x)); cbn; [f_equal|]; apply (IH (g ∘ S)).
Qed.

Lemma to_insert_rows (column_name : string) (unique_values existing_values : list Value) :
  (rows (reset_index
           (mask (λ r, negb (isin existing_values (cell r column_name)))
              (mkDataFrame [column_name]
                 (imap (λ i x, (i, {[column_name := x]})) unique_values))))).*2
  = key_row column_name <$> filter (λ x, x ∉ existing_values) unique_values.
Proof.
  unfold reset_index, mask. cbn [rows columns].
  rewrite (snd_imap (λ i _, i) snd).
  rewrite (filter_imap_snd (λ r, negb (isin existing_values (cell r column_name)))
             (λ x, {[column_name := x]}) unique_values id).
  f_equal. rewrite List_filter_stdpp. apply list_filter_iff. intros x.
  unfold cell, isin. rewrite lookup_singleton_eq. cbn.
  rewrite negb_true_iff, bool_decide_eq_false. done.
Qed.

Lemma check_and_insert_dimension_spec
    (fact_df : DataFrame) (column_name table_name : string) (w : World)
    (rs : list Row) :
  column_name ∈ columns fact_df →
  tables w !! table_name = Some rs →
  let new := new_keys column_name fact_df (dimension_keys column_name rs) in
  check_and_insert_dimension fact_df column_name table_name w
  = (Ok tt,
     {| files := files w;
        quarantine_file := quarantine_file w;
        reread := reread w;
        tables :=
          match new with
          | [] => tables w
          | _ :: _ => <[table_name := rs ++ (key_row column_name <$> new)]> (tables w)
          end;
        db_log :=
          db_log w ++
          match column column_name fact_df with
          | [] => []
          | _ :: _ =>
              ReadSql (SelectColumn column_name table_name)
                :: match new with
                   | [] => []
                   | _ :: _ => [ToSql table_name (length new)]
                   end
          end;
        stdout :=
          stdout w ++
          [match column column_name fact_df with
           | [] => NoDataToCheck table_name
           | _ :: _ =>
               match new with
               | [] => NoNewEntries table_name
               | _ :: _ => InsertedEntries (length new) table_name
               end
           end] |}).
Proof.
  intros Hcol Htable new. subst new.
  unfold check_and_insert_dimension. rewrite bool_decide_eq_true_2 by done.
  destruct (column column_name fact_df) as [|x0 l0] eqn:Hcolumn.
  { unfold new_keys. rewrite Hcolumn. cbn. unfold print. by rewrite app_nil_r. }
  rewrite bool_decide_eq_false_2.
  2:{ intros Hlen. apply nil_length_inv, unique_nil in Hlen. done. }
  unfold bind, read_sql. rewrite Htable.
  fold (dimension_keys column_name rs).
  set (to_insert_df := reset_index _).
  assert (Hrows : (rows to_insert_df).*2
                  = key_row column_name
                    <$> new_keys column_name fact_df (dimension_keys column_name rs)).
  { unfold to_insert_df, new_keys. rewrite Hcolumn. apply to_insert_rows. }
  assert (Hcols : columns to_insert_df ≠ []) by done.
  assert (Hlen : len to_insert_df
                 = length (new_keys column_name fact_df (dimension_keys column_name rs))).
  { unfold len. apply (f_equal length) in Hrows. by rewrite !length_fmap in Hrows. }
  rewrite empty_rows by done. clearbody to_insert_df.
  destruct (new_keys column_name fact_df (dimension_keys column_name rs))
    as [|k ks] eqn:Hnew.
  - assert (rows to_insert_df = []) as ->.
    { apply fmap_nil_inv in Hrows. done. }
    cbn. unfold print, log_db. cbn. by rewrite <- ?app_assoc.
  - rewrite bool_decide_eq_false_2.
    2:{ intros Hnil. by rewrite Hnil in Hrows. }
    cbn [negb]. unfold to_sql, print, log_db. cbn -[key_row].
    rewrite ?Htable, ?Hrows, ?Hlen. cbn -[key_row]. by rewrite <- ?app_assoc.
Qed.

(** * What a step leaves alone *)

(** [m] never changes the part [proj] of the world, whatever it returns. *)
Definition unchanged {A B} (proj : World → B) (m : M A) : Prop :=
  ∀ w, proj (m w).2 = proj w.

Create HintDb frame.

Lemma unchanged_ret {A B} (proj : World → B) (x : A) : unchanged proj (ret x).
Proof. done. Qed.

Lemma unchanged_raise {A B} (proj : World → B) (e : Exn) :
  unchanged proj (raise (A:=A) e).
Proof. done. Qed.

Lemma unchanged_bind {A A' B} (proj : World → B) (m : M A) (k : A → M A') :
  unchanged proj m → (∀ x, unchanged proj (k x)) → unchanged proj (bind m k).
Proof.
  intros Hm Hk w. unfold bind. specialize (Hm w).
  destruct (m w) as [[x|e] w']; cbn in *; [|done].
  by rewrite Hk.
Qed.

Lemma unchanged_try_except {A B} (proj : World → B) (m : M A) (handler : Exn → M A) :
  unchanged proj m → (∀ e, unchanged proj (handler e)) →
  unchanged proj (try_except m handler).
Proof.
  intros Hm Hh w. unfold try_except. specialize (Hm w).
  destruct (m w) as [[x|e] w']; cbn in *; [done|].
  by rewrite Hh.
Qed.

Lemma print_quarantine_file (m : Msg) : unchanged quarantine_file (print m).
Proof. done. Qed.

Lemma print_tables (m : Msg) : unchanged tables (print m).
Proof. done. Qed.

Lemma print_db_log (m : Msg) : unchanged db_log (print m).
Proof. done. Qed.

Lemma print_files (m : Msg) : unchanged files (print m).
Proof. done. Qed.

Lemma read_sql_quarantine_file (q : Query) : unchanged quarantine_file (read_sql q).
Proof. intros w. unfold read_sql. by destruct q, (tables w !! _). Qed.

Lemma read_sql_tables (q : Query) : unchanged tables (read_sql q).
Proof. intros w. unfold read_sql. by destruct q, (tables w !! _). Qed.

Lemma read_sql_files (q : Query) : unchanged files (read_sql q).
Proof. intros w. unfold read_sql. by destruct q, (tables w !! _). Qed.

Lemma to_sql_quarantine_file (name : string) (df : DataFrame) :
  unchanged quarantine_file (to_sql name df).
Proof. done. Qed.

Lemma to_sql_files (name : string) (df : DataFrame) : unchanged files (to_sql name df).
Proof. done. Qed.

Lemma to_csv_quarantine_other_files (df : DataFrame) (path : string) :
  path ≠ QUARANTINE_FILE →
  unchanged (λ w, files w !! path) (to_csv_quarantine df).
Proof. intros Hpath w. cbn. by rewrite lookup_insert_ne. Qed.

Lemma unchanged_files_lookup {A} (m : M A) (path : string) :
  unchanged files m → unchanged (λ w, files w !! path) m.
Proof. intros Hm w. cbn. by rewrite Hm. Qed.

#[local] Hint Resolve to_csv_quarantine_other_files unchanged_files_lookup : frame.

Lemma to_csv_quarantine_tables (df : DataFrame) : unchanged tables (to_csv_quarantine df).
Proof. done. Qed.

Lemma to_csv_quarantine_db_log (df : DataFrame) : unchanged db_log (to_csv_quarantine df).
Proof. done. Qed.

Lemma read_csv_unchanged {B} (proj : World → B) (path : string) :
  unchanged proj (read_csv path).
Proof. intros w. unfold read_csv. by destruct (files w !! path). Qed.

#[local] Hint Resolve unchanged_ret unchanged_raise print_quarantine_file print_tables
  print_db_log print_files read_sql_quarantine_file read_sql_tables read_sql_files
  to_sql_quarantine_file to_sql_files
  to_csv_quarantine_tables to_csv_quarantine_db_log read_csv_unchanged : frame.

(** Goes through the binds, handlers and branches of a step. *)
Local Ltac frame_steps :=
  repeat first
    [ solve [auto with frame]
    | apply unchanged_bind; [|intros]
    | apply unchanged_try_except; [|intros]
    | match goal with
      | |- unchanged _ (if ?b then _ else _) => destruct b
      | |- unchanged _ (match ?x with _ => _ end) => destruct x
      | |- unchanged _ (let _ := _ in _) => cbv zeta
      end ].

Lemma check_and_insert_dimension_quarantine_file
    (fact_df : DataFrame) (column_name table_name : string) :
  unchanged quarantine_file (check_and_insert_dimension fact_df column_name table_name).
Proof. unfold check_and_insert_dimension. frame_steps. Qed.

Lemma check_and_insert_dimension_files
    (fact_df : DataFrame) (column_name table_name : string) :
  unchanged files (check_and_insert_dimension fact_df column_name table_name).
Proof. unfold check_and_insert_dimension. frame_steps. Qed.

Lemma load_fact_process_events_quarantine_file (clean_fact_df : DataFrame) :
  unchanged quarantine_file (load_fact_process_events clean_fact_df).
Proof. unfold load_fact_process_events. frame_steps. Qed.

Lemma load_fact_process_events_files (clean_fact_df : DataFrame) :
  unchanged files (load_fact_process_events clean_fact_df).
Proof. unfold load_fact_process_events. frame_steps. Qed.

#[local] Hint Resolve check_and_insert_dimension_quarantine_file
  check_and_insert_dimension_files load_fact_process_events_quarantine_file
  load_fact_process_events_files : frame.

(** Step 4 of [run_etl_pipeline], the steps after the quarantine. *)
Definition loading (clean_fact_df : DataFrame) (load_data : bool) : M unit :=
  if load_data then
    (print StartingLoading;;
     check_and_insert_dimension clean_fact_df
       "production_line_id" "Dim_ProductionLine";;
     load_fact_process_events clean_fact_df)%etl
  else
    print LoadingSkipped.

Lemma loading_quarantine_file (clean_fact_df : DataFrame) (load_data : bool) :
  unchanged quarantine_file (loading clean_fact_df load_data).
Proof. unfold loading. frame_steps. Qed.

Lemma loading_files (clean_fact_df : DataFrame) (load_data : bool) :
  unchanged files (loading clean_fact_df load_data).
Proof. unfold loading. frame_steps. Qed.

Lemma loading_skipped (clean_fact_df : DataFrame) (w : World) :
  loading clean_fact_df false w = print LoadingSkipped w.
Proof. done. Qed.

(** A run, step by step, on a file that is there and transforms. *)
Lemma run_etl_pipeline_steps (to_datetime : list Value → list (option Z))
    (input_file_path : string) (load_data : bool) (w : World)
    (raw_df clean_fact_df quarantined_df : DataFrame) :
  files w !! input_file_path = Some raw_df →
  transform_raw_data to_datetime raw_df = inr (clean_fact_df, quarantined_df) →
  run_etl_pipeline to_datetime input_file_path load_data w
  = loading clean_fact_df load_data
      {| files :=
           if empty quarantined_df then files w
           else <[QUARANTINE_FILE :=
                    reread w (columns quarantined_df) (rows quarantined_df).*2]>
                  (files w);
         quarantine_file :=
           if empty quarantined_df then quarantine_file w
           else Some (columns quarantined_df, (rows quarantined_df).*2);
         reread := reread w;
         tables := tables w;
         db_log := db_log w;
         stdout :=
           stdout w
           ++ [StartingExtraction; StartingTransformation;
               RowCounts (len raw_df) (len clean_fact_df) (len quarantined_df)]
           ++ (if empty quarantined_df then []
               else [QuarantinedRecords (len quarantined_df)]) |}.
Proof.
  intros Hfile Htransform.
  unfold run_etl_pipeline, bind, try_except, read_csv, print. cbn [files].
  rewrite Hfile, Htransform. fold (loading clean_fact_df load_data).
  destruct (empty quarantined_df); cbn; rewrite <- ?app_assoc; done.
Qed.


(** * Example batches *)

Definition raw_header : list string := ["production_line_id"; "status"; "timestamp"].

(** Two events that are fine and one with a status that is no key of the map. *)
Definition scenario_batch : DataFrame :=
  csv_frame raw_header
    [ [Int 1; Str "START"; Str "2024-01-01 00:15:00"];
      [Int 1; Str "STOP"; Str "2024-01-01 00:05:00"];
      [Int 2; Str "BOGUS"; Str "2024-01-01 00:10:00"] ].

(** Eighteen events of one line at the same second. *)
Definition tie_batch : DataFrame :=
  csv_frame raw_header (replicate 18 [Int 1; Str "ON"; Str "2024-01-01 00:00:00"]).

(** One event that is fine, in a file that has a column [status_name]
    beside the three, and one in a file that has a column [event_time]. *)
Definition status_name_batch : DataFrame :=
  csv_frame ["production_line_id"; "status"; "timestamp"; "status_name"]
    [ [Int 1; Str "START"; Str "2024-01-01 00:15:00"; Str "running"] ].

Definition event_time_batch : DataFrame :=
  csv_frame ["production_line_id"; "status"; "timestamp"; "event_time"]
    [ [Int 1; Str "START"; Str "2024-01-01 00:15:00"; Str "2024-01-01 00:16:00"] ].


(** * The transformation *)

Section TransformClaims.

Variable to_datetime : list Value → list (option Z).

Lemma labels_transformed (raw_df : DataFrame) :
  "production_line_id" ∈ columns raw_df → "status" ∈ columns raw_df →
  "timestamp" ∈ columns raw_df →
  (rows (transformed to_datetime raw_df)).*1 = (rows raw_df).*1.
Proof.
  intros H1 H2 H3. rewrite transformed_rows by done.
  apply list_eq. intros k. rewrite !list_lookup_fmap, list_lookup_imap.
  by destruct (rows raw_df !! k).
Qed.


Lemma accepted_rows (raw_df clean_fact_df quarantined_df : DataFrame) :
  transform_raw_data to_datetime raw_df = inr (clean_fact_df, quarantined_df) →
  rows clean_fact_df ≡ₚ rows (mask is_valid (transformed to_datetime raw_df))
  ∧ column "event_time" clean_fact_df
    = Timestamp <$> times "event_time" clean_fact_df
  ∧ StronglySorted Z.le (times "event_time" clean_fact_df).
Proof.
  intros (Hcols & _ & _ & -> & _)%transform_raw_data_inr.
  destruct Hcols as (H1 & H2 & H3).
  apply sort_values_spec. by apply valid_rows_timestamps.
Qed.

(** C1 (as amended): the accepted events are the valid rows, in ascending
    order of [event_time]; nothing is said about the order of events whose
    timestamps are equal. *)
Theorem accepted_sorted_by_event_time
    (raw_df clean_fact_df quarantined_df : DataFrame) :
  transform_raw_data to_datetime raw_df = inr (clean_fact_df, quarantined_df) →
  rows clean_fact_df ≡ₚ rows (mask is_valid (transformed to_datetime raw_df))
  ∧ column "event_time" clean_fact_df
    = Timestamp <$> times "event_time" clean_fact_df
  ∧ StronglySorted Z.le (times "event_time" clean_fact_df).
Proof. apply accepted_rows. Qed.

(** What the two frames returned are, of the rows of the input. *)
Lemma partition_of_transform
    (raw_df clean_fact_df quarantined_df : DataFrame) :
  transform_raw_data to_datetime raw_df = inr (clean_fact_df, quarantined_df) →
  rows clean_fact_df ++ rows quarantined_df ≡ₚ rows (transformed to_datetime raw_df)
  ∧ (rows (transformed to_datetime raw_df)).*1 = (rows raw_df).*1
  ∧ (∀ ir, ir ∈ rows clean_fact_df → ir ∉ rows quarantined_df)
  ∧ ∀ k i r, rows raw_df !! k = Some (i, r) →
      let r' := transformed_row r (parsed_cell to_datetime raw_df k) in
      let accepted :=
        notna (cell r "production_line_id")
        && notna (map_status (cell r "status"))
        && notna (parsed_cell to_datetime raw_df k) in
      rows (transformed to_datetime raw_df) !! k = Some (i, r')
      ∧ ((i, r') ∈ rows clean_fact_df ↔ accepted = true)
      ∧ ((i, r') ∈ rows quarantined_df ↔ accepted = false).
Proof.
  intros Htransform.
  destruct (accepted_rows _ _ _ Htransform) as (Hperm & _ & _).
  apply transform_raw_data_inr in Htransform as (Hcols & _ & _ & _ & ->).
  destruct Hcols as (H1 & H2 & H3).
  split_and!.
  - rewrite Hperm. apply mask_partition.
  - by apply labels_transformed.
  - intros ir Hclean Hq. rewrite Hperm in Hclean.
    apply mask_elem_of in Hclean as [Hvalid _].
    apply mask_elem_of in Hq as [Hinvalid _].
    rewrite Hvalid in Hinvalid. done.
  - intros k i r Hk r' accepted.
    assert (Hlookup : rows (transformed to_datetime raw_df) !! k = Some (i, r')).
    { rewrite transformed_lookup by done. by rewrite Hk. }
    assert (Hin : (i, r') ∈ rows (transformed to_datetime raw_df)).
    { by eapply list_elem_of_lookup_2. }
    assert (Hvalid : is_valid r' = accepted).
    { unfold is_valid, required_cols, accepted, r'. cbn.
      destruct (transformed_row_cells r (parsed_cell to_datetime raw_df k))
        as (-> & _ & -> & ->).
      by rewrite andb_true_r, andb_assoc. }
    split_and!; [done| |].
    + rewrite Hperm, mask_elem_of. change ((i, r').2) with r'. rewrite Hvalid. tauto.
    + rewrite mask_elem_of. change ((i, r').2) with r'.
      rewrite Hvalid, negb_true_iff. tauto.
Qed.

(** C4 (as amended): on a batch that has the three raw columns and no
    column named [status_name] or [event_time], the transformation returns;
    the accepted and the quarantined rows together are the rows of the
    input, each once; no row is in both; and the row at position [k] of the
    input is accepted iff its line id, its mapped status and its parsed
    timestamp are all there, and quarantined otherwise. *)
Theorem transform_partitions_input (raw_df : DataFrame) :
  "production_line_id" ∈ columns raw_df →
  "status" ∈ columns raw_df →
  "timestamp" ∈ columns raw_df →
  "status_name" ∉ columns raw_df →
  "event_time" ∉ columns raw_df →
  ∃ clean_fact_df quarantined_df,
    transform_raw_data to_datetime raw_df = inr (clean_fact_df, quarantined_df)
    ∧ rows clean_fact_df ++ rows quarantined_df
      ≡ₚ rows (transformed to_datetime raw_df)
    ∧ (rows (transformed to_datetime raw_df)).*1 = (rows raw_df).*1
    ∧ (∀ ir, ir ∈ rows clean_fact_df → ir ∉ rows quarantined_df)
    ∧ ∀ k i r, rows raw_df !! k = Some (i, r) →
        let r' := transformed_row r (parsed_cell to_datetime raw_df k) in
        let accepted :=
          notna (cell r "production_line_id")
          && notna (map_status (cell r "status"))
          && notna (parsed_cell to_datetime raw_df k) in
        rows (transformed to_datetime raw_df) !! k = Some (i, r')
        ∧ ((i, r') ∈ rows clean_fact_df ↔ accepted = true)
        ∧ ((i, r') ∈ rows quarantined_df ↔ accepted = false).
Proof.
  intros H1 H2 H3 H4 H5.
  assert (Htransform :
    transform_raw_data to_datetime raw_df
    = inr (sort_values "event_time" (mask is_valid (transformed to_datetime raw_df)),
           mask (λ r, negb (is_valid r)) (transformed to_datetime raw_df))).
  { apply transform_raw_data_inr. done. }
  eexists _, _. split; [exact Htransform|].
  exact (partition_of_transform _ _ _ Htransform).
Qed.


(** C8: the quarantined records come in the order of the input: they are
    the rows of the transformed input, some left out, and so are their
    labels among the labels of the input. *)
Theorem quarantined_keep_input_order
    (raw_df clean_fact_df quarantined_df : DataFrame) :
  transform_raw_data to_datetime raw_df = inr (clean_fact_df, quarantined_df) →
  rows quarantined_df `sublist_of` rows (transformed to_datetime raw_df)
  ∧ (rows quarantined_df).*1 `sublist_of` (rows raw_df).*1
  ∧ (rows (transformed to_datetime raw_df)).*1 = (rows raw_df).*1.
Proof.
  intros (Hcols & _ & _ & _ & ->)%transform_raw_data_inr.
  destruct Hcols as (H1 & H2 & H3).
  assert (Hsub : rows (mask (λ r, negb (is_valid r)) (transformed to_datetime raw_df))
                 `sublist_of` rows (transformed to_datetime raw_df))
    by apply mask_sublist.
  split_and!; [done| |by apply labels_transformed].
  rewrite <- (labels_transformed raw_df) by done. by apply fmap_sublist.
Qed.

End TransformClaims.


(** ** The claims on the example batches *)


Lemma accepted_sorted_by_event_time_witness :
  transform_raw_data Iso8601.to_datetime scenario_batch
  = inr (sort_values "event_time"
           (mask is_valid (transformed Iso8601.to_datetime scenario_batch)),
         mask (λ r, negb (is_valid r)) (transformed Iso8601.to_datetime scenario_batch))
  ∧ StronglySorted Z.le
      (times "event_time"
         (sort_values "event_time"
            (mask is_valid (transformed Iso8601.to_datetime scenario_batch)))).
Proof.
  assert (H : transform_raw_data Iso8601.to_datetime scenario_batch
              = inr (sort_values "event_time"
                       (mask is_valid (transformed Iso8601.to_datetime scenario_batch)),
                     mask (λ r, negb (is_valid r))
                       (transformed Iso8601.to_datetime scenario_batch)))
    by (vm_compute; reflexivity).
  split; [exact H|].
  exact (proj2 (proj2 (accepted_sorted_by_event_time Iso8601.to_datetime _ _ _ H))).
Defined.


(** C1, where it fails: eighteen accepted events with one timestamp; the
    events read second and third come back sixteenth and fifteenth. *)
Lemma accepted_order_not_stable :
  ∃ clean_fact_df quarantined_df,
    transform_raw_data Iso8601.to_datetime tie_batch
    = inr (clean_fact_df, quarantined_df)
    ∧ (rows tie_batch).*1 = seq 0 18
    ∧ column "event_time" clean_fact_df
      = replicate 18 (Timestamp 1704067200000000000)
    ∧ (rows clean_fact_df).*1 !! 14 = Some 2
    ∧ (rows clean_fact_df).*1 !! 15 = Some 1.
Proof.
  exists (sort_values "event_time"
            (mask is_valid (transformed Iso8601.to_datetime tie_batch))),
    (mask (λ r, negb (is_valid r)) (transformed Iso8601.to_datetime tie_batch)).
  split_and!; vm_compute; reflexivity.
Qed.


Lemma transform_partitions_input_witness :
  ("status_name" ∉ columns scenario_batch)
  ∧ ("event_time" ∉ columns scenario_batch)
  ∧ ∃ clean_fact_df quarantined_df,
      transform_raw_data Iso8601.to_datetime scenario_batch
      = inr (clean_fact_df, quarantined_df)
      ∧ rows clean_fact_df ++ rows quarantined_df
        ≡ₚ rows (transformed Iso8601.to_datetime scenario_batch).
Proof.
  assert (H1 : "production_line_id" ∈ columns scenario_batch).
  { refine (bool_decide_unpack _ _). vm_compute. exact I. }
  assert (H2 : "status" ∈ columns scenario_batch).
  { refine (bool_decide_unpack _ _). vm_compute. exact I. }
  assert (H3 : "timestamp" ∈ columns scenario_batch).
  { refine (bool_decide_unpack _ _). vm_compute. exact I. }
  assert (H4 : "status_name" ∉ columns scenario_batch).
  { refine (bool_decide_unpack _ _). vm_compute. exact I. }
  assert (H5 : "event_time" ∉ columns scenario_batch).
  { refine (bool_decide_unpack _ _). vm_compute. exact I. }
  split; [exact H4|]. split; [exact H5|].
  destruct (transform_partitions_input Iso8601.to_datetime scenario_batch
              H1 H2 H3 H4 H5)
    as (clean_fact_df & quarantined_df & Hrun & Hperm & _).
  exists clean_fact_df, quarantined_df. exact (conj Hrun Hperm).
Defined.

(** C4, where it fails: two batches that have the three raw columns, and
    beside them a column [status_name], or [event_time]; the transformation
    raises on both, and nothing is accepted or quarantined. *)
Lemma three_columns_not_enough :
  ("production_line_id" ∈ columns status_name_batch
   ∧ "status" ∈ columns status_name_batch
   ∧ "timestamp" ∈ columns status_name_batch)
  ∧ transform_raw_data Iso8601.to_datetime status_name_batch
    = inl (TypeError "status_name")
  ∧ ("production_line_id" ∈ columns event_time_batch
     ∧ "status" ∈ columns event_time_batch
     ∧ "timestamp" ∈ columns event_time_batch)
  ∧ transform_raw_data Iso8601.to_datetime event_time_batch
    = inl (ValueError "event_time").
Proof.
  split_and!;
    first [ vm_compute; reflexivity
          | refine (bool_decide_unpack _ _); vm_compute; exact I ].
Qed.




Lemma quarantined_keep_input_order_witness :
  transform_raw_data Iso8601.to_datetime scenario_batch
  = inr (sort_values "event_time"
           (mask is_valid (transformed Iso8601.to_datetime scenario_batch)),
         mask (λ r, negb (is_valid r)) (transformed Iso8601.to_datetime scenario_batch))
  ∧ (rows (mask (λ r, negb (is_valid r))
             (transformed Iso8601.to_datetime scenario_batch))).*1
    `sublist_of` (rows scenario_batch).*1.
Proof.
  assert (H : transform_raw_data Iso8601.to_datetime scenario_batch
              = inr (sort_values "event_time"
                       (mask is_valid (transformed Iso8601.to_datetime scenario_batch)),
                     mask (λ r, negb (is_valid r))
                       (transformed Iso8601.to_datetime scenario_batch)))
    by (vm_compute; reflexivity).
  split; [exact H|].
  exact (proj1 (proj2 (quarantined_keep_input_order Iso8601.to_datetime _ _ _ H))).
Defined.






(** * The dimension tables *)

(** The calls for a sequence of batches, one after the other. *)
Fixpoint check_and_insert_batches (batches : list DataFrame)
    (column_name table_name : string) : M unit :=
  match batches with
  | [] => ret tt
  | fact_df :: rest =>
      bind (check_and_insert_dimension fact_df column_name table_name)
        (λ _, check_and_insert_batches rest column_name table_name)
  end.

(** The rows that a trace of the engine appended. *)
Definition inserted_rows (ops : list DbOp) : nat :=
  sum_list_with (λ op, match op with ToSql _ n => n | ReadSql _ => 0 end) ops.

(** Every append of the trace is to [table_name] and of at least one row. *)
Definition appends_to (table_name : string) (ops : list DbOp) : Prop :=
  Forall (λ op, ∀ name n, op = ToSql name n → name = table_name ∧ 0 < n) ops.

Lemma dimension_keys_app (column_name : string) (rs : list Row) (new : list Value) :
  dimension_keys column_name (rs ++ (key_row column_name <$> new))
  = dimension_keys column_name rs ++ new.
Proof.
  unfold dimension_keys. rewrite fmap_app. f_equal.
  rewrite <- list_fmap_compose. rewrite <- (list_fmap_id new) at 2.
  apply list_fmap_ext. intros k x _. cbn. unfold cell, key_row.
  by rewrite lookup_singleton_eq.
Qed.

Lemma elem_of_new_keys (column_name : string) (fact_df : DataFrame)
    (existing_values : list Value) (x : Value) :
  x ∈ new_keys column_name fact_df existing_values
  ↔ (x ∉ existing_values) ∧ x ∈ column column_name fact_df.
Proof. unfold new_keys. by rewrite list_elem_of_filter, elem_of_unique. Qed.

Lemma new_keys_NoDup (column_name : string) (fact_df : DataFrame)
    (existing_values : list Value) :
  NoDup existing_values →
  NoDup (existing_values ++ new_keys column_name fact_df existing_values).
Proof.
  intros Hnd. apply NoDup_app. split_and!; [done| |].
  - intros x Hx Hnew. apply elem_of_new_keys in Hnew as [Hnew _]. done.
  - unfold new_keys. apply NoDup_filter, unique_NoDup.
Qed.

Lemma check_and_insert_dimension_step
    (fact_df : DataFrame) (column_name table_name : string) (w : World)
    (rs : list Row) :
  column_name ∈ columns fact_df →
  tables w !! table_name = Some rs →
  let new := new_keys column_name fact_df (dimension_keys column_name rs) in
  ∃ w' ops,
    check_and_insert_dimension fact_df column_name table_name w = (Ok tt, w')
    ∧ tables w' !! table_name = Some (rs ++ (key_row column_name <$> new))
    ∧ db_log w' = db_log w ++ ops
    ∧ inserted_rows ops = length new
    ∧ appends_to table_name ops.
Proof.
  intros Hcol Htable new.
  rewrite (check_and_insert_dimension_spec _ _ _ _ rs) by done.
  fold new.
  eexists _,
    (match column column_name fact_df with
     | [] => []
     | _ :: _ =>
         ReadSql (SelectColumn column_name table_name)
           :: match new with
              | [] => []
              | _ :: _ => [ToSql table_name (length new)]
              end
     end).
  split; [reflexivity|]. cbn [tables db_log].
  assert (Hnil : column column_name fact_df = [] → new = []).
  { intros Hc. unfold new, new_keys. by rewrite Hc. }
  destruct new as [|x new'] eqn:Hnew.
  - rewrite app_nil_r. split; [done|]. split; [reflexivity|].
    destruct (column column_name fact_df); (split; [done|]).
    + apply Forall_nil_2.
    + apply Forall_cons_2; [|apply Forall_nil_2]. intros name n Hop. discriminate Hop.
  - rewrite lookup_insert_eq. split; [done|]. split; [reflexivity|].
    destruct (column column_name fact_df) as [|y l]; [by specialize (Hnil eq_refl)|].
    split.
    + unfold inserted_rows. cbn. lia.
    + apply Forall_cons_2; [|apply Forall_cons_2; [|apply Forall_nil_2]].
      * intros name n Hop. discriminate Hop.
      * intros name n [= <- <-]. split; [done|]. cbn. lia.
Qed.

(** C6: over a sequence of batches run one after the other against a
    table, the keys added are those seen in some batch that the table did
    not hold, each added once, so that a table of distinct keys stays one;
    the rows appended are as many as the keys added; and when every key
    seen is in the table already, no append is sent at all. *)
Theorem dimension_keys_inserted_once (batches : list DataFrame)
    (column_name table_name : string) (w : World) (rs : list Row) :
  Forall (λ fact_df, column_name ∈ columns fact_df) batches →
  tables w !! table_name = Some rs →
  ∃ w' added ops,
    check_and_insert_batches batches column_name table_name w = (Ok tt, w')
    ∧ tables w' !! table_name = Some (rs ++ (key_row column_name <$> added))
    ∧ NoDup added
    ∧ (∀ x, x ∈ added ↔
            (x ∉ dimension_keys column_name rs)
            ∧ ∃ fact_df, fact_df ∈ batches ∧ x ∈ column column_name fact_df)
    ∧ (NoDup (dimension_keys column_name rs) →
       NoDup (dimension_keys column_name rs ++ added))
    ∧ db_log w' = db_log w ++ ops
    ∧ inserted_rows ops = length added
    ∧ appends_to table_name ops
    ∧ ((∀ fact_df x, fact_df ∈ batches → x ∈ column column_name fact_df →
                     x ∈ dimension_keys column_name rs) →
       ∀ name n, ToSql name n ∉ ops).
Proof.
  intros Hcols Htable.
  assert (Hmain : ∃ w' added ops,
    check_and_insert_batches batches column_name table_name w = (Ok tt, w')
    ∧ tables w' !! table_name = Some (rs ++ (key_row column_name <$> added))
    ∧ NoDup added
    ∧ (∀ x, x ∈ added ↔
            (x ∉ dimension_keys column_name rs)
            ∧ ∃ fact_df, fact_df ∈ batches ∧ x ∈ column column_name fact_df)
    ∧ db_log w' = db_log w ++ ops
    ∧ inserted_rows ops = length added
    ∧ appends_to table_name ops).
  { revert w rs Htable.
    induction Hcols as [|fact_df rest Hcol Hrest IH]; intros w rs Htable.
    - exists w, [], []. cbn. rewrite !app_nil_r. split_and!; try done.
      + apply NoDup_nil_2.
      + intros x. split; [by intros ?%elem_of_nil|].
        intros (_ & df & Hdf & _). by apply elem_of_nil in Hdf.
      + constructor.
    - destruct (check_and_insert_dimension_step fact_df column_name table_name w rs
                  Hcol Htable) as (w1 & ops1 & Hrun1 & Htable1 & Hlog1 & Hins1 & Happ1).
      set (new := new_keys column_name fact_df (dimension_keys column_name rs)) in *.
      destruct (IH w1 _ Htable1)
        as (w2 & added2 & ops2 & Hrun2 & Htable2 & Hnd2 & Hadded2 & Hlog2 & Hins2 & Happ2).
      exists w2, (new ++ added2), (ops1 ++ ops2).
      rewrite dimension_keys_app in Hadded2.
      split_and!.
      + cbn. unfold bind. by rewrite Hrun1.
      + by rewrite Htable2, fmap_app, app_assoc.
      + apply NoDup_app. split_and!; [|intros x Hx|done].
        * unfold new, new_keys. apply NoDup_filter, unique_NoDup.
        * rewrite Hadded2, elem_of_app. tauto.
      + intros x. rewrite elem_of_app, Hadded2, elem_of_app.
        unfold new at 1. rewrite elem_of_new_keys. split.
        * intros [[Hx Hin]|[Hx (df & Hdf & Hin)]].
          -- split; [done|]. exists fact_df. split; [left|done].
          -- split; [tauto|]. exists df. split; [by right|done].
        * intros (Hx & df & Hdf & Hin).
          destruct (decide (x ∈ new)) as [Hnew|Hnew].
          { left. by apply elem_of_new_keys in Hnew. }
          apply elem_of_cons in Hdf as [->|Hdf].
          -- left. done.
          -- right. split; [tauto|]. by exists df.
      + by rewrite Hlog2, Hlog1, app_assoc.
      + unfold inserted_rows in *. rewrite sum_list_with_app, length_app. lia.
      + by apply Forall_app. }
  destruct Hmain as (w' & added & ops & H1 & H2 & H3 & H4 & H5 & H6 & H7).
  exists w', added, ops. split_and!; try done.
  - intros Hnd. apply NoDup_app. split_and!; [done| |done].
    intros x Hx Hin. apply H4 in Hin as [Hnin _]. done.
  - intros Hall name n Hop.
    assert (Hadded : added = []).
    { destruct added as [|x added']; [done|]. exfalso.
      destruct (H4 x) as [Hx _]. destruct Hx as (Hx & df & Hdf & Hin); [left|].
      apply Hx. by eapply Hall. }
    subst added. cbn in H6.
    unfold appends_to in H7. rewrite Forall_forall in H7.
    destruct (H7 _ Hop name n eq_refl) as [_ Hn].
    assert (Hle : n ≤ inserted_rows ops).
    { clear -Hop. unfold inserted_rows. induction ops as [|op ops' IH]; cbn.
      - by apply elem_of_nil in Hop.
      - apply elem_of_cons in Hop as [<-|Hop]; [lia|]. specialize (IH Hop). lia. }
    lia.
Qed.

(** C9: with a batch that has no value in the key column, the call prints
    its line and returns; nothing is sent to the engine, neither a read nor
    an append, and the tables are as they were. *)
Theorem empty_batch_no_database_operation
    (fact_df : DataFrame) (column_name table_name : string) (w : World) :
  column_name ∈ columns fact_df →
  column column_name fact_df = [] →
  ∃ w',
    check_and_insert_dimension fact_df column_name table_name w = (Ok tt, w')
    ∧ db_log w' = db_log w
    ∧ tables w' = tables w
    ∧ stdout w' = stdout w ++ [NoDataToCheck table_name].
Proof.
  intros Hcol Hempty. unfold check_and_insert_dimension.
  rewrite bool_decide_eq_true_2 by done. rewrite Hempty. cbn.
  by eexists.
Qed.

(** * The incremental load *)

Lemma columns_assign (c c' : string) (vals : list Value) (df : DataFrame) :
  c ∈ columns df → c ∈ columns (assign c' vals df).
Proof.
  intros Hc. unfold assign. cbn. case_decide; [done|]. apply elem_of_app. by left.
Qed.

Lemma columns_rename_same (c : string) (df : DataFrame) :
  c ∈ columns df → c ∈ columns (rename c c df).
Proof.
  intros Hc. unfold rename. case_decide; [|done]. cbn.
  apply list_elem_of_fmap. exists c. by rewrite decide_True.
Qed.

Lemma accepted_columns (to_datetime : list Value → list (option Z))
    (raw_df clean_fact_df quarantined_df : DataFrame) :
  transform_raw_data to_datetime raw_df = inr (clean_fact_df, quarantined_df) →
  "production_line_id" ∈ columns clean_fact_df.
Proof.
  intros (Hcols & _ & _ & -> & _)%transform_raw_data_inr.
  destruct Hcols as (H1 & _ & _).
  unfold sort_values, mask, transformed, rename_columns. cbn [columns].
  do 2 apply columns_assign. do 2 (apply columns_rename_other; [|done]).
  by apply columns_rename_same.
Qed.

Lemma accepted_timestamps (to_datetime : list Value → list (option Z))
    (raw_df clean_fact_df quarantined_df : DataFrame) :
  transform_raw_data to_datetime raw_df = inr (clean_fact_df, quarantined_df) →
  Forall (λ ir : nat * Row, is_Some (as_time (cell ir.2 "event_time")))
    (rows clean_fact_df).
Proof.
  intros Htransform.
  destruct (accepted_rows _ _ _ _ Htransform) as (Hperm & _ & _).
  apply transform_raw_data_inr in Htransform as (Hcols & _).
  destruct Hcols as (H1 & H2 & H3).
  rewrite Hperm.
  pose proof (valid_rows_timestamps to_datetime raw_df H1 H2 H3) as Hall.
  unfold column in Hall. rewrite !Forall_fmap in Hall. exact Hall.
Qed.

Lemma columns_not_nil (c : string) (df : DataFrame) : c ∈ columns df → columns df ≠ [].
Proof. intros Hc Hnil. rewrite Hnil in Hc. by apply elem_of_nil in Hc. Qed.

(** C2: against a fact table that is there, the loader reads the largest
    [event_time] of the table.  When there is none (the table is empty, or
    holds no timestamp) it takes every accepted event; otherwise it takes
    the accepted events whose [event_time] is strictly later, in the order
    of the batch.  What it appends are the three columns
    [production_line_id], [status_id] and [event_time] of the events taken,
    in one write; with no event taken the table is left as it is and no
    write is sent. *)
Theorem incremental_load_appends_new_events
    (clean_fact_df : DataFrame) (w : World) (rs : list Row) :
  columns clean_fact_df ≠ [] →
  tables w !! TARGET_TABLE = Some rs →
  let latest := sql_max ((λ r, cell r "event_time") <$> rs) in
  ∃ w' new,
    load_fact_process_events clean_fact_df w = (Ok tt, w')
    ∧ (latest = NaN ∨ ∃ m, latest = Timestamp m)
    ∧ (latest = NaN → new = rows clean_fact_df)
    ∧ (∀ m, latest = Timestamp m →
         new = List.filter (λ ir : nat * Row, later_than (Timestamp m) ir.2)
                 (rows clean_fact_df))
    ∧ (∀ m r, later_than (Timestamp m) r = true ↔
              ∃ t, cell r "event_time" = Timestamp t ∧ (m < t)%Z)
    ∧ tables w'
      = match new with
        | [] => tables w
        | _ :: _ =>
            <[TARGET_TABLE := rs ++ (project_row required_cols <$> new.*2)]> (tables w)
        end
    ∧ db_log w'
      = db_log w ++ ReadSql (SelectMax "event_time" TARGET_TABLE)
          :: match new with
             | [] => []
             | _ :: _ => [ToSql TARGET_TABLE (length new)]
             end
    ∧ ∀ r,
        dom (project_row required_cols r)
        = list_to_set ["production_line_id"; "status_id"; "event_time"]
        ∧ ∀ c, c ∈ ["production_line_id"; "status_id"; "event_time"] →
               cell (project_row required_cols r) c = cell r c.
Proof.
  intros Hcols Htable latest.
  rewrite load_fact_process_events_spec by done.
  assert (Hmark : high_water_mark w = latest).
  { unfold high_water_mark. by rewrite Htable. }
  rewrite Hmark, Htable. cbn [default].
  eexists _, (eligible latest clean_fact_df).
  split; [reflexivity|]. cbn [tables db_log].
  split_and!; try done.
  - destruct (sql_max_cases ((λ r, cell r "event_time") <$> rs))
      as [H|(m & H & _)]; [by left|right; by exists m].
  - intros H. unfold eligible. by rewrite H.
  - intros m H. unfold eligible. by rewrite H.
  - intros m r. rewrite later_than_spec. split.
    + intros (t & m' & Hc & [= <-] & Hlt). by exists t.
    + intros (t & Hc & Hlt). by exists t, m.
  - intros r. split; [apply dom_project_row|].
    intros c Hc. rewrite cell_project_row. by rewrite decide_True.
Qed.

(** C7: when the fact table is missing, the read of the largest
    [event_time] fails; the loader prints the warning with the error,
    goes on as with an empty table, appends every accepted event and
    returns normally. *)
Theorem max_lookup_failure_falls_back (clean_fact_df : DataFrame) (w : World) :
  columns clean_fact_df ≠ [] →
  tables w !! TARGET_TABLE = None →
  ∃ w',
    load_fact_process_events clean_fact_df w = (Ok tt, w')
    ∧ read_sql (SelectMax "event_time" TARGET_TABLE) w
      = (Raised (ProgrammingError TARGET_TABLE),
         log_db (ReadSql (SelectMax "event_time" TARGET_TABLE)) w)
    ∧ stdout w'
      = stdout w
        ++ [WarningMaxEventTime (ProgrammingError TARGET_TABLE);
            TableEmptyLoadingAll TARGET_TABLE (len clean_fact_df);
            match rows clean_fact_df with
            | [] => NoNewData TARGET_TABLE
            | _ :: _ => LoadedRows (len clean_fact_df) TARGET_TABLE
            end]
    ∧ tables w'
      = match rows clean_fact_df with
        | [] => tables w
        | _ :: _ =>
            <[TARGET_TABLE := project_row required_cols <$> (rows clean_fact_df).*2]>
              (tables w)
        end
    ∧ db_log w'
      = db_log w ++ ReadSql (SelectMax "event_time" TARGET_TABLE)
          :: match rows clean_fact_df with
             | [] => []
             | _ :: _ => [ToSql TARGET_TABLE (len clean_fact_df)]
             end.
Proof.
  intros Hcols Htable.
  rewrite load_fact_process_events_spec by done.
  unfold load_messages, high_water_mark, read_sql. rewrite Htable.
  unfold eligible. cbn [isna notna negb default app].
  eexists. split; [reflexivity|]. cbn [tables db_log stdout]. done.
Qed.

(** C3: the accepted events of a batch loaded twice in a row: both loads
    return normally, and the second one leaves every table as the first
    left it and sends nothing but its read of the largest [event_time]. *)
Theorem second_load_adds_nothing (to_datetime : list Value → list (option Z))
    (raw_df clean_fact_df quarantined_df : DataFrame) (w : World) :
  transform_raw_data to_datetime raw_df = inr (clean_fact_df, quarantined_df) →
  ∃ w1 w2,
    load_fact_process_events clean_fact_df w = (Ok tt, w1)
    ∧ load_fact_process_events clean_fact_df w1 = (Ok tt, w2)
    ∧ tables w2 = tables w1
    ∧ db_log w2 = db_log w1 ++ [ReadSql (SelectMax "event_time" TARGET_TABLE)].
Proof.
  intros Htransform.
  assert (Hcols : columns clean_fact_df ≠ []).
  { eapply columns_not_nil, accepted_columns, Htransform. }
  pose proof (accepted_timestamps _ _ _ _ Htransform) as Hall.
  pose proof (load_twice_nothing clean_fact_df w Hcols Hall) as Hnone.
  destruct (load_fact_process_events clean_fact_df w) as [res1 w1] eqn:Hrun1.
  rewrite load_fact_process_events_spec in Hrun1 by done.
  injection Hrun1 as <- Hw1. cbn [snd] in Hnone.
  exists w1. eexists. split; [done|].
  rewrite (load_fact_process_events_spec clean_fact_df w1) by done.
  rewrite Hnone. split; [reflexivity|]. cbn [tables db_log stdout].
  done.
Qed.

(** * The quarantine file *)

(** C10: in a run whose batch has no quarantined record, the quarantine
    file is after the run what it was before, whether the run loads or
    not and however the load ends. *)
Theorem no_quarantine_write_without_rejects
    (to_datetime : list Value → list (option Z)) (input_file_path : string)
    (load_data : bool) (w : World) (raw_df clean_fact_df quarantined_df : DataFrame) :
  files w !! input_file_path = Some raw_df →
  transform_raw_data to_datetime raw_df = inr (clean_fact_df, quarantined_df) →
  rows quarantined_df = [] →
  quarantine_file (run_etl_pipeline to_datetime input_file_path load_data w).2
  = quarantine_file w.
Proof.
  intros Hfile Htransform Hrows.
  rewrite (run_etl_pipeline_steps _ _ _ _ _ _ _ Hfile Htransform).
  rewrite loading_quarantine_file. cbn [quarantine_file].
  unfold empty. rewrite Hrows. done.
Qed.

(** * The claims on example warehouses *)

(** The accepted events of [scenario_batch], at 00:05 and at 00:15. *)
Definition scenario_accepted : DataFrame :=
  sort_values "event_time"
    (mask is_valid (transformed Iso8601.to_datetime scenario_batch)).

(** A fact table loaded up to 2024-01-01 00:10:00. *)
Definition loaded_until_0010 : list Row :=
  [ <["production_line_id" := Int 1]>
      (<["status_id" := Int 1]> {["event_time" := Timestamp 1704067800000000000]}) ].

Definition scenario_warehouse : World :=
  {| files := {["events.csv" := scenario_batch]};
     quarantine_file := None;
     reread := plain_reread;
     tables := <[TARGET_TABLE := loaded_until_0010]> {["Dim_ProductionLine" := []]};
     db_log := [];
     stdout := [] |}.

(** A warehouse with an empty dimension table and no fact table yet. *)
Definition fresh_warehouse : World :=
  {| files := {["events.csv" := scenario_batch]};
     quarantine_file := None;
     reread := plain_reread;
     tables := {["Dim_ProductionLine" := []]};
     db_log := [];
     stdout := [] |}.

(** A batch with the key column and no record. *)
Definition no_events : DataFrame := mkDataFrame ["production_line_id"] [].

(** One event that is fine, and a quarantine file left by an earlier run. *)
Definition accepted_batch : DataFrame :=
  csv_frame raw_header [ [Int 1; Str "START"; Str "2024-01-01 00:15:00"] ].

Definition earlier_quarantine : list string * list Row :=
  (["production_line_id"; "status_name"; "event_time"; "status_id"],
   [ {["production_line_id" := Int 9]} ]).

Definition warehouse_after_quarantine : World :=
  {| files := {["events.csv" := accepted_batch]};
     quarantine_file := Some earlier_quarantine;
     reread := plain_reread;
     tables := {["Dim_ProductionLine" := []]};
     db_log := [];
     stdout := [] |}.

Lemma incremental_load_appends_new_events_witness :
  columns scenario_accepted ≠ []
  ∧ tables scenario_warehouse !! TARGET_TABLE = Some loaded_until_0010
  ∧ ∃ w',
      load_fact_process_events scenario_accepted scenario_warehouse = (Ok tt, w')
      ∧ db_log w'
        = [ReadSql (SelectMax "event_time" TARGET_TABLE); ToSql TARGET_TABLE 1].
Proof.
  assert (H1 : columns scenario_accepted ≠ []) by (vm_compute; discriminate).
  assert (H2 : tables scenario_warehouse !! TARGET_TABLE = Some loaded_until_0010)
    by (vm_compute; reflexivity).
  split; [exact H1|]. split; [exact H2|].
  pose proof (incremental_load_appends_new_events _ _ _ H1 H2) as H.
  cbv zeta in H.
  destruct H as (w' & new & Hrun & _ & _ & Hnew & _ & _ & Hlog & _).
  exists w'. split; [exact Hrun|].
  rewrite Hlog, (Hnew 1704067800000000000%Z); vm_compute; reflexivity.
Defined.

Lemma max_lookup_failure_falls_back_witness :
  columns scenario_accepted ≠ []
  ∧ tables fresh_warehouse !! TARGET_TABLE = None
  ∧ ∃ w',
      load_fact_process_events scenario_accepted fresh_warehouse = (Ok tt, w')
      ∧ db_log w'
        = [ReadSql (SelectMax "event_time" TARGET_TABLE); ToSql TARGET_TABLE 2].
Proof.
  assert (H1 : columns scenario_accepted ≠ []) by (vm_compute; discriminate).
  assert (H2 : tables fresh_warehouse !! TARGET_TABLE = None)
    by (vm_compute; reflexivity).
  split; [exact H1|]. split; [exact H2|].
  destruct (max_lookup_failure_falls_back _ _ H1 H2)
    as (w' & Hrun & _ & _ & _ & Hlog).
  exists w'. split; [exact Hrun|].
  rewrite Hlog. vm_compute. reflexivity.
Defined.

Lemma second_load_adds_nothing_witness :
  transform_raw_data Iso8601.to_datetime scenario_batch
  = inr (scenario_accepted,
         mask (λ r, negb (is_valid r)) (transformed Iso8601.to_datetime scenario_batch))
  ∧ ∃ w1 w2,
      load_fact_process_events scenario_accepted fresh_warehouse = (Ok tt, w1)
      ∧ load_fact_process_events scenario_accepted w1 = (Ok tt, w2)
      ∧ tables w2 = tables w1
      ∧ db_log w2 = db_log w1 ++ [ReadSql (SelectMax "event_time" TARGET_TABLE)].
Proof.
  assert (H : transform_raw_data Iso8601.to_datetime scenario_batch
              = inr (scenario_accepted,
                     mask (λ r, negb (is_valid r))
                       (transformed Iso8601.to_datetime scenario_batch)))
    by (vm_compute; reflexivity).
  split; [exact H|].
  exact (second_load_adds_nothing Iso8601.to_datetime _ _ _ fresh_warehouse H).
Defined.

Lemma dimension_keys_inserted_once_witness :
  db_log (check_and_insert_batches [scenario_accepted; scenario_accepted]
            "production_line_id" "Dim_ProductionLine" fresh_warehouse).2
  = [ReadSql (SelectColumn "production_line_id" "Dim_ProductionLine");
     ToSql "Dim_ProductionLine" 1;
     ReadSql (SelectColumn "production_line_id" "Dim_ProductionLine")]
  ∧ ∃ w' added ops,
      check_and_insert_batches [scenario_accepted; scenario_accepted]
        "production_line_id" "Dim_ProductionLine" fresh_warehouse = (Ok tt, w')
      ∧ tables w' !! "Dim_ProductionLine"
        = Some ([] ++ (key_row "production_line_id" <$> added))
      ∧ NoDup added
      ∧ db_log w' = db_log fresh_warehouse ++ ops
      ∧ inserted_rows ops = length added.
Proof.
  assert (H1 : Forall (λ fact_df, "production_line_id" ∈ columns fact_df)
                 [scenario_accepted; scenario_accepted]).
  { refine (bool_decide_unpack _ _). vm_compute. exact I. }
  assert (H2 : tables fresh_warehouse !! "Dim_ProductionLine" = Some [])
    by (vm_compute; reflexivity).
  split; [vm_compute; reflexivity|].
  destruct (dimension_keys_inserted_once _ _ _ _ _ H1 H2)
    as (w' & added & ops & Hrun & Htable & Hnd & _ & _ & Hlog & Hins & _).
  exists w', added, ops.
  exact (conj Hrun (conj Htable (conj Hnd (conj Hlog Hins)))).
Defined.

Lemma empty_batch_no_database_operation_witness :
  "production_line_id" ∈ columns no_events
  ∧ column "production_line_id" no_events = []
  ∧ ∃ w',
      check_and_insert_dimension no_events "production_line_id" "Dim_ProductionLine"
        fresh_warehouse = (Ok tt, w')
      ∧ db_log w' = db_log fresh_warehouse
      ∧ tables w' = tables fresh_warehouse
      ∧ stdout w' = stdout fresh_warehouse ++ [NoDataToCheck "Dim_ProductionLine"].
Proof.
  assert (H1 : "production_line_id" ∈ columns no_events).
  { refine (bool_decide_unpack _ _). vm_compute. exact I. }
  assert (H2 : column "production_line_id" no_events = []) by reflexivity.
  split; [exact H1|]. split; [exact H2|].
  exact (empty_batch_no_database_operation no_events "production_line_id"
           "Dim_ProductionLine" fresh_warehouse H1 H2).
Defined.

Lemma no_quarantine_write_without_rejects_witness :
  files warehouse_after_quarantine !! "events.csv" = Some accepted_batch
  ∧ rows (mask (λ r, negb (is_valid r))
            (transformed Iso8601.to_datetime accepted_batch)) = []
  ∧ quarantine_file
      (run_etl_pipeline Iso8601.to_datetime "events.csv" true
         warehouse_after_quarantine).2
    = Some earlier_quarantine.
Proof.
  assert (H1 : files warehouse_after_quarantine !! "events.csv" = Some accepted_batch)
    by (vm_compute; reflexivity).
  assert (H2 : transform_raw_data Iso8601.to_datetime accepted_batch
               = inr (sort_values "event_time"
                        (mask is_valid (transformed Iso8601.to_datetime accepted_batch)),
                      mask (λ r, negb (is_valid r))
                        (transformed Iso8601.to_datetime accepted_batch)))
    by (vm_compute; reflexivity).
  assert (H3 : rows (mask (λ r, negb (is_valid r))
                       (transformed Iso8601.to_datetime accepted_batch)) = [])
    by (vm_compute; reflexivity).
  split; [exact H1|]. split; [exact H3|].
  exact (no_quarantine_write_without_rejects Iso8601.to_datetime "events.csv" true
           warehouse_after_quarantine _ _ _ H1 H2 H3).
Defined.

(** * More on the run *)

(** X1: on a batch that lacks one of the three raw columns, the
    transformation raises [ValueError] for the first of them, in the order
    [production_line_id], [status], [timestamp], that is missing. *)
Theorem missing_column_rejected (to_datetime : list Value → list (option Z))
    (raw_df : DataFrame) (col : string) :
  col ∈ expected_raw_cols →
  col ∉ columns raw_df →
  ∃ before missing after,
    transform_raw_data to_datetime raw_df = inl (ValueError missing)
    ∧ expected_raw_cols = before ++ missing :: after
    ∧ missing ∉ columns raw_df
    ∧ Forall (λ c, c ∈ columns raw_df) before.
Proof.
  intros Hcol Hmissing. unfold transform_raw_data, expected_raw_cols in *. cbn.
  destruct (decide ("production_line_id" ∈ columns raw_df)) as [H1|H1].
  - rewrite (bool_decide_eq_false_2 ("production_line_id" ∉ columns raw_df)) by tauto.
    destruct (decide ("status" ∈ columns raw_df)) as [H2|H2].
    + rewrite (bool_decide_eq_false_2 ("status" ∉ columns raw_df)) by tauto.
      destruct (decide ("timestamp" ∈ columns raw_df)) as [H3|H3].
      * exfalso. apply Hmissing.
        apply elem_of_cons in Hcol as [->|Hcol]; [done|].
        apply elem_of_cons in Hcol as [->|Hcol]; [done|].
        apply elem_of_cons in Hcol as [->|Hcol]; [done|].
        by apply elem_of_nil in Hcol.
      * rewrite (bool_decide_eq_true_2 ("timestamp" ∉ columns raw_df)) by done.
        exists ["production_line_id"; "status"], "timestamp", [].
        split_and!; try done. by repeat apply Forall_cons_2.
    + rewrite (bool_decide_eq_true_2 ("status" ∉ columns raw_df)) by done.
      exists ["production_line_id"], "status", ["timestamp"].
      split_and!; try done. by repeat apply Forall_cons_2.
  - rewrite (bool_decide_eq_true_2 ("production_line_id" ∉ columns raw_df)) by done.
    exists [], "production_line_id", ["status"; "timestamp"].
    split_and!; done.
Qed.

(** X2: the three counts the transformation prints add up: every record
    read is counted once, as clean or as quarantined. *)
Theorem row_counts_add_up (to_datetime : list Value → list (option Z))
    (raw_df clean_fact_df quarantined_df : DataFrame) :
  transform_raw_data to_datetime raw_df = inr (clean_fact_df, quarantined_df) →
  len clean_fact_df + len quarantined_df = len raw_df.
Proof.
  intros Htransform.
  destruct (accepted_rows _ _ _ _ Htransform) as (Hperm & _ & _).
  apply transform_raw_data_inr in Htransform as (Hcols & _ & _ & _ & ->).
  destruct Hcols as (H1 & H2 & H3).
  unfold len. rewrite Hperm, <- length_app, mask_partition.
  rewrite transformed_length, rows_rename_columns by done.
  by rewrite length_fmap.
Qed.

(** X3: when the input file is not there, the run prints its two lines and
    raises [FileNotFoundError]; nothing is transformed, nothing is sent to
    the engine, and the quarantine file and the tables stay as they were. *)
Theorem missing_input_file_aborts (to_datetime : list Value → list (option Z))
    (input_file_path : string) (load_data : bool) (w : World) :
  files w !! input_file_path = None →
  run_etl_pipeline to_datetime input_file_path load_data w
  = (Raised (FileNotFoundError input_file_path),
     {| files := files w;
        quarantine_file := quarantine_file w;
        reread := reread w;
        tables := tables w;
        db_log := db_log w;
        stdout := stdout w ++ [StartingExtraction; InputFileNotFound input_file_path] |}).
Proof.
  intros Hfile.
  unfold run_etl_pipeline, bind, try_except, read_csv, print, raise. cbn [files].
  rewrite Hfile. cbn. by rewrite <- app_assoc.
Qed.

(** X4: a run with [load_data] false sends nothing to the engine and leaves
    every table as it was, whatever the file holds and however the run
    ends. *)
Theorem dry_run_leaves_warehouse (to_datetime : list Value → list (option Z))
    (input_file_path : string) (w : World) :
  db_log (run_etl_pipeline to_datetime input_file_path false w).2 = db_log w
  ∧ tables (run_etl_pipeline to_datetime input_file_path false w).2 = tables w.
Proof.
  split.
  - revert w. change (unchanged db_log (run_etl_pipeline to_datetime input_file_path false)).
    unfold run_etl_pipeline. frame_steps.
  - revert w. change (unchanged tables (run_etl_pipeline to_datetime input_file_path false)).
    unfold run_etl_pipeline. frame_steps.
Qed.

(** X5: a run writes to no file but the one at [QUARANTINE_FILE]: every
    other path holds after the run what it held before, with or without a
    load and however the run ends. *)
Theorem only_quarantine_file_written (to_datetime : list Value → list (option Z))
    (input_file_path : string) (load_data : bool) (w : World) (path : string) :
  path ≠ QUARANTINE_FILE →
  files (run_etl_pipeline to_datetime input_file_path load_data w).2 !! path
  = files w !! path.
Proof.
  intros Hpath. revert w.
  change (unchanged (λ w, files w !! path)
            (run_etl_pipeline to_datetime input_file_path load_data)).
  unfold run_etl_pipeline. frame_steps.
Qed.

Lemma quarantined_columns (to_datetime : list Value → list (option Z))
    (raw_df clean_fact_df quarantined_df : DataFrame) :
  transform_raw_data to_datetime raw_df = inr (clean_fact_df, quarantined_df) →
  columns quarantined_df = columns clean_fact_df.
Proof. by intros (_ & _ & _ & -> & ->)%transform_raw_data_inr. Qed.

(** X6: in a run whose batch has quarantined records, the quarantine file
    is rewritten: after the run it holds the columns of the transformed
    frame and the quarantined records, in their order, and nothing of what
    it held before; this is so whether the run loads or not and however
    the load ends. *)
Theorem rejects_rewrite_quarantine_file
    (to_datetime : list Value → list (option Z)) (input_file_path : string)
    (load_data : bool) (w : World) (raw_df clean_fact_df quarantined_df : DataFrame) :
  files w !! input_file_path = Some raw_df →
  transform_raw_data to_datetime raw_df = inr (clean_fact_df, quarantined_df) →
  rows quarantined_df ≠ [] →
  quarantine_file (run_etl_pipeline to_datetime input_file_path load_data w).2
  = Some (columns quarantined_df, (rows quarantined_df).*2).
Proof.
  intros Hfile Htransform Hrows.
  rewrite (run_etl_pipeline_steps _ _ _ _ _ _ _ Hfile Htransform).
  rewrite loading_quarantine_file. cbn [quarantine_file].
  assert (Hcols : columns quarantined_df ≠ []).
  { rewrite (quarantined_columns _ _ _ _ Htransform).
    eapply columns_not_nil, accepted_columns, Htransform. }
  rewrite empty_rows by done. by rewrite bool_decide_eq_false_2.
Qed.

(** X15: a run that reads the file at [QUARANTINE_FILE] itself and has
    quarantined records overwrites the file it read: the path then holds
    what [to_csv] wrote, read back. *)
Theorem input_at_quarantine_path_overwritten
    (to_datetime : list Value → list (option Z)) (load_data : bool) (w : World)
    (raw_df clean_fact_df quarantined_df : DataFrame) :
  files w !! QUARANTINE_FILE = Some raw_df →
  transform_raw_data to_datetime raw_df = inr (clean_fact_df, quarantined_df) →
  rows quarantined_df ≠ [] →
  files (run_etl_pipeline to_datetime QUARANTINE_FILE load_data w).2 !! QUARANTINE_FILE
  = Some (reread w (columns quarantined_df) (rows quarantined_df).*2).
Proof.
  intros Hfile Htransform Hrows.
  rewrite (run_etl_pipeline_steps _ _ _ _ _ _ _ Hfile Htransform).
  rewrite loading_files. cbn [files].
  assert (Hcols : columns quarantined_df ≠ []).
  { rewrite (quarantined_columns _ _ _ _ Htransform).
    eapply columns_not_nil, accepted_columns, Htransform. }
  rewrite empty_rows by done. rewrite bool_decide_eq_false_2 by done.
  by rewrite lookup_insert_eq.
Qed.

(** X7: when the dimension table is missing, the check of a batch that has
    keys fails at its read with the error of the engine; nothing is
    appended and no line is printed. *)
Theorem missing_dimension_table_aborts
    (fact_df : DataFrame) (column_name table_name : string) (w : World) :
  column_name ∈ columns fact_df →
  column column_name fact_df ≠ [] →
  tables w !! table_name = None →
  check_and_insert_dimension fact_df column_name table_name w
  = (Raised (ProgrammingError table_name),
     {| files := files w;
        quarantine_file := quarantine_file w;
        reread := reread w;
        tables := tables w;
        db_log := db_log w ++ [ReadSql (SelectColumn column_name table_name)];
        stdout := stdout w |}).
Proof.
  intros Hcol Hkeys Htable. unfold check_and_insert_dimension.
  rewrite bool_decide_eq_true_2 by done.
  rewrite bool_decide_eq_false_2.
  2:{ intros Hlen. apply nil_length_inv in Hlen.
      apply (proj1 (unique_nil _)) in Hlen. done. }
  unfold bind, read_sql. rewrite Htable. reflexivity.
Qed.

(** * The tables after a run *)

Lemma eligible_rows (latest : Value) (clean_fact_df : DataFrame) (ir : nat * Row) :
  ir ∈ eligible latest clean_fact_df → ir ∈ rows clean_fact_df.
Proof.
  unfold eligible. destruct (isna latest); [done|].
  rewrite List_filter_stdpp, list_elem_of_filter. tauto.
Qed.

Lemma key_in_dimension (column_name : string) (fact_df : DataFrame)
    (rs : list Row) (x : Value) :
  x ∈ column column_name fact_df →
  x ∈ dimension_keys column_name
        (rs ++ (key_row column_name
                  <$> new_keys column_name fact_df (dimension_keys column_name rs))).
Proof.
  intros Hx. rewrite dimension_keys_app, elem_of_app.
  destruct (decide (x ∈ dimension_keys column_name rs)) as [Hin|Hnin]; [by left|right].
  by apply elem_of_new_keys.
Qed.

(** X8: a run that loads, on a file that transforms and against a
    warehouse that has the table of the lines, returns normally; the fact
    table is what it was with rows appended at its end, and the line of
    every row appended is then a key of the table of the lines. *)
Theorem loaded_facts_have_dimension_keys
    (to_datetime : list Value → list (option Z)) (input_file_path : string)
    (w : World) (raw_df clean_fact_df quarantined_df : DataFrame) (dim : list Row) :
  files w !! input_file_path = Some raw_df →
  transform_raw_data to_datetime raw_df = inr (clean_fact_df, quarantined_df) →
  tables w !! "Dim_ProductionLine" = Some dim →
  ∃ w' dim' added,
    run_etl_pipeline to_datetime input_file_path true w = (Ok tt, w')
    ∧ default [] (tables w' !! TARGET_TABLE)
      = default [] (tables w !! TARGET_TABLE) ++ added
    ∧ tables w' !! "Dim_ProductionLine" = Some dim'
    ∧ Forall (λ r, cell r "production_line_id"
                   ∈ dimension_keys "production_line_id" dim') added.
Proof.
  intros Hfile Htransform Hdim.
  pose proof (accepted_columns _ _ _ _ Htransform) as Hcol.
  pose proof (columns_not_nil _ _ Hcol) as Hcols.
  rewrite (run_etl_pipeline_steps _ _ _ _ _ _ _ Hfile Htransform).
  match goal with |- context [loading _ true ?w] => set (w0 := w) end.
  unfold loading, bind. cbn [print fst snd].
  set (w0' := {| files := files w0 |}).
  assert (Htables0 : tables w0' = tables w) by done.
  rewrite (check_and_insert_dimension_spec _ _ _ _ dim) by (by rewrite ?Htables0).
  cbv zeta.
  set (new := new_keys "production_line_id" clean_fact_df
                (dimension_keys "production_line_id" dim)).
  set (w1 := {| files := files w0' |}).
  assert (Hdim1 : tables w1 !! "Dim_ProductionLine"
                  = Some (dim ++ (key_row "production_line_id" <$> new))).
  { unfold w1. cbn [tables]. rewrite Htables0. destruct new.
    - by rewrite app_nil_r.
    - by rewrite lookup_insert_eq. }
  assert (Hfact1 : tables w1 !! TARGET_TABLE = tables w !! TARGET_TABLE).
  { unfold w1. cbn [tables]. rewrite Htables0. destruct new; [done|].
    by rewrite lookup_insert_ne. }
  rewrite load_fact_process_events_spec by done. cbv zeta.
  set (new_rows := eligible (high_water_mark w1) clean_fact_df).
  eexists _, (dim ++ (key_row "production_line_id" <$> new)),
    (project_row required_cols <$> new_rows.*2).
  split; [reflexivity|]. cbn [tables].
  split_and!.
  - destruct new_rows; [by rewrite app_nil_r, Hfact1|].
    by rewrite lookup_insert_eq, Hfact1.
  - destruct new_rows; [done|]. by rewrite lookup_insert_ne.
  - apply Forall_forall. intros r Hr.
    apply list_elem_of_fmap in Hr as (r0 & -> & Hr0).
    apply list_elem_of_fmap in Hr0 as ([i r1] & -> & Hin).
    apply eligible_rows in Hin.
    rewrite cell_project_row, decide_True by (left).
    apply key_in_dimension. unfold column. apply list_elem_of_fmap.
    by exists (i, r1).
Qed.

(** X9: a load never lowers the mark: a timestamp that the largest
    [event_time] of the fact table covered before the load is covered by
    it after the load. *)
Theorem high_water_mark_never_decreases
    (clean_fact_df : DataFrame) (w : World) (t : Z) :
  columns clean_fact_df ≠ [] →
  covers (high_water_mark w) t →
  covers (high_water_mark (load_fact_process_events clean_fact_df w).2) t.
Proof.
  intros Hcols Hcover.
  rewrite load_fact_process_events_spec by done. cbn [snd].
  destruct (eligible (high_water_mark w) clean_fact_df) as [|ir new_rows].
  { unfold high_water_mark in *. cbn [tables]. done. }
  unfold high_water_mark in *. cbn [tables]. rewrite lookup_insert_eq.
  destruct (tables w !! TARGET_TABLE) as [rs|].
  - cbn [default]. rewrite fmap_app, sql_max_app.
    match goal with
    | |- covers (foldl _ ?acc ?l) _ => destruct (sql_fold_covers l acc) as [Hacc _]
    end.
    by apply Hacc.
  - by destruct Hcover as (m & Hm & _).
Qed.

(** X10: the first load of a batch, into a warehouse that has no fact table
    yet, leaves a fact table whose [event_time] column is that of the
    accepted events, in ascending order. *)
Theorem first_load_in_time_order (to_datetime : list Value → list (option Z))
    (raw_df clean_fact_df quarantined_df : DataFrame) (w : World) :
  transform_raw_data to_datetime raw_df = inr (clean_fact_df, quarantined_df) →
  tables w !! TARGET_TABLE = None →
  (λ r, cell r "event_time")
    <$> default [] (tables (load_fact_process_events clean_fact_df w).2 !! TARGET_TABLE)
  = Timestamp <$> times "event_time" clean_fact_df
  ∧ StronglySorted Z.le (times "event_time" clean_fact_df).
Proof.
  intros Htransform Htable.
  destruct (accepted_rows _ _ _ _ Htransform) as (_ & Hcolumn & Hsorted).
  split; [|done].
  assert (Hcols : columns clean_fact_df ≠ []).
  { eapply columns_not_nil, accepted_columns, Htransform. }
  rewrite load_fact_process_events_spec by done. cbn [snd tables].
  unfold high_water_mark, eligible. rewrite Htable. cbn [isna notna negb default app].
  rewrite <- Hcolumn. unfold column.
  destruct (rows clean_fact_df) as [|ir l] eqn:Hrows.
  - by rewrite Htable.
  - rewrite lookup_insert_eq. cbn [default]. unfold id. rewrite <- Hrows.
    rewrite <- !list_fmap_compose. apply list_fmap_ext. intros k [i r] _.
    unfold compose. cbn [snd].
    by rewrite cell_project_row, decide_True by (do 2 right; left).
Qed.

(** X11: the status of an accepted event is one of the three of the
    configuration, spelled exactly so, and its [status_id] is the id the
    configuration gives to it. *)
Theorem accepted_status_ids (to_datetime : list Value → list (option Z))
    (raw_df clean_fact_df quarantined_df : DataFrame) (i : nat) (r : Row) :
  transform_raw_data to_datetime raw_df = inr (clean_fact_df, quarantined_df) →
  (i, r) ∈ rows clean_fact_df →
  ∃ name z,
    cell r "status_name" = Str name
    ∧ cell r "status_id" = Int z
    ∧ STATUS_MAP !! name = Some z
    ∧ (name, z) ∈ [("START", 1%Z); ("ON", 2%Z); ("STOP", 3%Z)].
Proof.
  intros Htransform Hin.
  destruct (accepted_rows _ _ _ _ Htransform) as (Hperm & _ & _).
  apply transform_raw_data_inr in Htransform as (Hcols & _).
  destruct Hcols as (H1 & H2 & H3).
  rewrite Hperm in Hin. apply mask_elem_of in Hin as [Hvalid Hin].
  cbn in Hvalid. apply is_valid_cells in Hvalid as (_ & Hid & _).
  apply list_elem_of_lookup in Hin as [k Hk].
  rewrite transformed_lookup in Hk by done.
  destruct (rows raw_df !! k) as [[j r0]|]; [|done]. cbn in Hk.
  injection Hk as <- <-.
  destruct (transformed_row_cells r0 (parsed_cell to_datetime raw_df k))
    as (_ & Hname & Hstatus & _).
  rewrite Hstatus in Hid. rewrite Hname, Hstatus.
  unfold map_status in *.
  destruct (cell r0 "status") as [|name| |]; try done.
  destruct (STATUS_MAP !! name) as [z|] eqn:Hz; [|done].
  exists name, z. split_and!; try done.
  unfold STATUS_MAP in Hz.
  apply lookup_insert_Some in Hz as [[<- <-]|[_ Hz]]; [left|].
  apply lookup_insert_Some in Hz as [[<- <-]|[_ Hz]]; [right; left|].
  apply lookup_insert_Some in Hz as [[<- <-]|[_ Hz]]; [do 2 right; left|].
  by rewrite lookup_empty in Hz.
Qed.

(** * dwh_analytics.format_markdown_table *)

(** [len(s)]: the characters of a text.  A text is held as its UTF-8
    bytes, of which those of the form [10xxxxxx] continue a character. *)
Definition continues (c : Ascii.ascii) : bool :=
  match c with
  | Ascii.Ascii _ _ _ _ _ _ b6 b7 => b7 && negb b6
  end.

Fixpoint str_len (s : string) : nat :=
  match s with
  | EmptyString => 0
  | String c s' => (if continues c then 0 else 1) + str_len s'
  end.

(** [s * n] *)
Fixpoint string_mul (s : string) (n : nat) : string :=
  match n with
  | 0 => EmptyString
  | S n' => s +:+ string_mul s n'
  end.

(** [s.ljust(width)]: spaces are added at the right up to [width]; a longer
    text is left as it is. *)
Definition ljust (s : string) (width : nat) : string :=
  s +:+ string_mul " " (width - str_len s).

Definition newline : string := String (Ascii.ascii_of_nat 10) EmptyString.

Definition col_widths (df : DataFrame) : list nat :=
  (λ col, Nat.max (str_len col) 10) <$> columns df.

Definition header (df : DataFrame) : string :=
  "| " +:+ String.concat " | " (zip_with ljust (columns df) (col_widths df)) +:+ " |".

Definition separator (df : DataFrame) : string :=
  "|"
  +:+ String.concat "|" ((λ width, ":-" +:+ string_mul "-" (width - 1)) <$> col_widths df)
  +:+ "|".

Section Report.

(** [str(item)] for the cells of a frame. *)
Variable str : Value → string.

Definition row_str (df : DataFrame) (row : Row) : string :=
  "| "
  +:+ String.concat " | "
        (zip_with (λ item width, ljust (str item) width)
           (cell row <$> columns df) (col_widths df))
  +:+ " |".

Definition format_markdown_table (df : DataFrame) : string :=
  if empty df then "No results found."
  else
    String.concat newline
      (header df :: separator df :: (row_str df <$> (rows df).*2)).

End Report.

Lemma length_append (s1 s2 : string) :
  str_len (s1 +:+ s2) = str_len s1 + str_len s2.
Proof.
  induction s1 as [|c s1 IH]; [done|].
  change (String c s1 +:+ s2) with (String c (s1 +:+ s2)).
  cbn [str_len]. rewrite IH. lia.
Qed.

Lemma length_string_mul (s : string) (n : nat) :
  str_len (string_mul s n) = n * str_len s.
Proof.
  induction n as [|n IH]; [done|]. cbn [string_mul].
  rewrite length_append, IH. lia.
Qed.

Lemma length_ljust (s : string) (width : nat) :
  str_len (ljust s width) = Nat.max (str_len s) width.
Proof.
  unfold ljust. rewrite length_append, length_string_mul. cbn. lia.
Qed.

Lemma length_concat (sep : string) (l : list string) :
  str_len (String.concat sep l)
  = sum_list (str_len <$> l) + str_len sep * (length l - 1).
Proof.
  induction l as [|s l IH]; [cbn; lia|]. destruct l as [|s' l].
  - cbn. unfold id. lia.
  - change (String.concat sep (s :: s' :: l))
      with (s +:+ sep +:+ String.concat sep (s' :: l)).
    rewrite !length_append, IH. cbn [fmap list_fmap sum_list sum_list_with length].
    replace (S (S (length l)) - 1) with (S (length l)) by lia.
    replace (S (length l) - 1) with (length l) by lia.
    rewrite Nat.mul_succ_r. unfold id. lia.
Qed.

Lemma header_parts_length (cols : list string) :
  sum_list (str_len
              <$> zip_with ljust cols ((λ col, Nat.max (str_len col) 10) <$> cols))
  = sum_list ((λ col, Nat.max (str_len col) 10) <$> cols)
  ∧ length (zip_with ljust cols ((λ col, Nat.max (str_len col) 10) <$> cols))
    = length cols.
Proof.
  induction cols as [|c cols [IH1 IH2]]; [done|]. cbn. rewrite length_ljust, IH1, IH2.
  split; lia.
Qed.

Lemma separator_parts_length (widths : list nat) :
  Forall (λ width, 0 < width) widths →
  sum_list (str_len
              <$> ((λ width, ":-" +:+ string_mul "-" (width - 1)) <$> widths))
  = sum_list widths + length widths.
Proof.
  induction 1 as [|width widths Hwidth _ IH]; [done|]. cbn [fmap list_fmap sum_list sum_list_with length].
  rewrite IH, length_append, length_string_mul. cbn. lia.
Qed.

Lemma row_parts_length (str : Value → string) (row : Row) (cols : list string) :
  let parts :=
    zip_with (λ item width, ljust (str item) width)
      (cell row <$> cols) ((λ col, Nat.max (str_len col) 10) <$> cols) in
  length parts = length cols
  ∧ sum_list ((λ col, Nat.max (str_len col) 10) <$> cols)
    ≤ sum_list (str_len <$> parts)
  ∧ (Forall (λ col, str_len (str (cell row col)) ≤ Nat.max (str_len col) 10)
       cols →
     sum_list (str_len <$> parts)
     = sum_list ((λ col, Nat.max (str_len col) 10) <$> cols)).
Proof.
  induction cols as [|c cols (IH1 & IH2 & IH3)]; [done|]. cbn zeta in *. cbn.
  rewrite length_ljust, IH1. split_and!; [done|lia|].
  intros Hfit. apply Forall_cons in Hfit as [Hc Hfit]. rewrite (IH3 Hfit). lia.
Qed.

(** X12: the table of a frame that is not empty is its lines joined by
    newlines: the header, the separator and one line for each row.  With
    [n] columns whose widths sum to [total], the header has
    [total + 3 n + 1] characters and the separator [total + 2 n + 1]; a row
    line is never shorter than the header, and as long as the header when
    no cell is wider than its column. *)
Theorem markdown_table_lines (str : Value → string) (df : DataFrame) :
  empty df = false →
  format_markdown_table str df
  = String.concat newline
      (header df :: separator df :: (row_str str df <$> (rows df).*2))
  ∧ str_len (header df)
    = sum_list (col_widths df) + 3 * length (columns df) + 1
  ∧ str_len (separator df)
    = sum_list (col_widths df) + 2 * length (columns df) + 1
  ∧ ∀ row,
      str_len (header df) ≤ str_len (row_str str df row)
      ∧ (Forall (λ col, str_len (str (cell row col))
                        ≤ Nat.max (str_len col) 10) (columns df) →
         str_len (row_str str df row) = str_len (header df)).
Proof.
  intros Hempty.
  assert (Hcols : 0 < length (columns df)).
  { unfold empty in Hempty. destruct (rows df), (columns df); try done. cbn. lia. }
  assert (Hheader : str_len (header df)
                    = sum_list (col_widths df) + 3 * length (columns df) + 1).
  { unfold header, col_widths. rewrite !length_append, length_concat.
    destruct (header_parts_length (columns df)) as [-> ->]. cbn. lia. }
  split_and!.
  - unfold format_markdown_table. by rewrite Hempty.
  - done.
  - unfold separator. rewrite !length_append, length_concat.
    rewrite separator_parts_length.
    + unfold col_widths. rewrite !length_fmap. cbn. lia.
    + unfold col_widths. apply Forall_fmap, Forall_forall. intros col _. cbn. lia.
  - intros row. rewrite Hheader. unfold row_str, col_widths.
    rewrite !length_append, length_concat.
    destruct (row_parts_length str row (columns df)) as (-> & Hle & Heq).
    split.
    + cbn. lia.
    + intros Hfit. rewrite (Heq Hfit). cbn. lia.
Qed.

(** * dwh_db_setup.create_database_if_not_exists *)

(** The two statements the function sends over the master connection: the
    look-up of a name in the catalog of the server, and the creation. *)
Inductive Statement : Type :=
  | SelectDatabase (catalog db_name : string)
  | CreateDatabase (db_name : string).

(** What a statement can fail with: [sqlalchemy.exc.ProgrammingError], or
    any other exception. *)
Inductive ServerError : Type :=
  | ProgrammingFailure (details : string)
  | OtherFailure (details : string).

Inductive SetupExn : Type :=
  | UnsupportedDatabaseType (db_type : string)
  | Fatal (e : ServerError).

Inductive SetupMsg : Type :=
  | CheckingForDatabase (db_name : string)
  | DatabaseExists (db_name : string)
  | DatabaseNotFound (db_name : string)
  | DatabaseCreated (db_name : string)
  | CouldNotCheckOrCreate (e : ServerError)
  | FatalDuringCheck (e : ServerError).

(** The server behind the master engine: the databases it has, whether it
    takes a name that is written without quotes in lower case (PostgreSQL
    does, SQL Server keeps the name as written), the statements it refuses
    and with what, the statements it was sent, and the lines printed. *)
Record Server : Type := mkServer {
  databases : list string;
  folds_names : bool;
  refuses : Statement → option ServerError;
  executed : list Statement;
  printed : list SetupMsg
}.

Definition say (m : SetupMsg) (s : Server) : Server :=
  {| databases := databases s; folds_names := folds_names s; refuses := refuses s;
     executed := executed s; printed := printed s ++ [m] |}.

(** The letters A to Z in lower case; every other byte is kept. *)
Definition lower_char (c : Ascii.ascii) : Ascii.ascii :=
  let n := Ascii.nat_of_ascii c in
  if (65 <=? n) && (n <=? 90) then Ascii.ascii_of_nat (n + 32) else c.

Fixpoint lower (s : string) : string :=
  match s with
  | EmptyString => EmptyString
  | String c s' => String (lower_char c) (lower s')
  end.

(** The name a database gets from [CREATE DATABASE name]: the name stands
    in the statement without quotes. *)
Definition created_name (s : Server) (db_name : string) : string :=
  if folds_names s then lower db_name else db_name.

(** [conn.execute(text(statement))]: the rows of the answer, or the error.
    The look-up compares the names of the catalog with the text between
    the quotes, as written; a server that compares without regard to case
    answers the same when no name of the catalog differs from the text by
    case only.  A name that is taken cannot be created again. *)
Definition execute (st : Statement) (s : Server) : (ServerError + list string) * Server :=
  let sent dbs :=
    {| databases := dbs; folds_names := folds_names s; refuses := refuses s;
       executed := executed s ++ [st]; printed := printed s |} in
  match refuses s st with
  | Some e => (inl e, sent (databases s))
  | None =>
      match st with
      | SelectDatabase _ db_name =>
          (inr (List.filter (λ d, bool_decide (d = db_name)) (databases s)),
           sent (databases s))
      | CreateDatabase db_name =>
          if bool_decide (created_name s db_name ∈ databases s) then
            (inl (ProgrammingFailure (created_name s db_name)), sent (databases s))
          else (inr [], sent (databases s ++ [created_name s db_name]))
      end
  end.

(** The two handlers of the [try] around the statements. *)
Definition handled (e : ServerError) (s : Server) : (SetupExn + unit) * Server :=
  match e with
  | ProgrammingFailure _ => (inr tt, say (CouldNotCheckOrCreate e) s)
  | OtherFailure _ => (inl (Fatal e), say (FatalDuringCheck e) s)
  end.

Definition create_database_if_not_exists (db_name db_type : string) (s : Server)
  : (SetupExn + unit) * Server :=
  let s := say (CheckingForDatabase db_name) s in
  let check_query :=
    if bool_decide (db_type = "SQL_SERVER") then
      Some (SelectDatabase "sys.databases" db_name)
    else if bool_decide (db_type = "POSTGRESQL") then
      Some (SelectDatabase "pg_database" db_name)
    else None in
  match check_query with
  | None => (inl (UnsupportedDatabaseType db_type), s)
  | Some check_query =>
      match execute check_query s with
      | (inl e, s) => handled e s
      | (inr (_ :: _), s) => (inr tt, say (DatabaseExists db_name) s)
      | (inr [], s) =>
          let s := say (DatabaseNotFound db_name) s in
          match execute (CreateDatabase db_name) s with
          | (inl e, s) => handled e s
          | (inr _, s) => (inr tt, say (DatabaseCreated db_name) s)
          end
      end
  end.

(** The look-up the function sends for a kind of server. *)
Definition check_of (db_name db_type : string) : Statement :=
  SelectDatabase (if bool_decide (db_type = "SQL_SERVER") then "sys.databases"
                  else "pg_database") db_name.

Lemma filter_name_nil (db_name : string) (dbs : list string) :
  List.filter (λ d, bool_decide (d = db_name)) dbs = [] ↔ db_name ∉ dbs.
Proof.
  induction dbs as [|d dbs IH]; cbn.
  - split; [|done]. intros _ H. by apply elem_of_nil in H.
  - case_bool_decide as Hd.
    + split; [done|]. intros H. exfalso. apply H. subst. left.
    + rewrite IH, not_elem_of_cons. naive_solver.
Qed.

(** One call on a server that refuses nothing. *)
Lemma create_database_call (db_name db_type : string) (s : Server) :
  db_type = "SQL_SERVER" ∨ db_type = "POSTGRESQL" →
  (∀ st, refuses s st = None) →
  ∃ s1,
    create_database_if_not_exists db_name db_type s = (inr tt, s1)
    ∧ folds_names s1 = folds_names s
    ∧ refuses s1 = refuses s
    ∧ databases s1
      = databases s
        ++ (if bool_decide (db_name ∈ databases s) then []
            else if bool_decide (created_name s db_name ∈ databases s) then []
            else [created_name s db_name])
    ∧ executed s1
      = executed s ++ check_of db_name db_type
          :: (if bool_decide (db_name ∈ databases s) then []
              else [CreateDatabase db_name])
    ∧ printed s1
      = printed s
        ++ CheckingForDatabase db_name
           :: (if bool_decide (db_name ∈ databases s) then [DatabaseExists db_name]
               else [DatabaseNotFound db_name;
                     if bool_decide (created_name s db_name ∈ databases s)
                     then CouldNotCheckOrCreate
                            (ProgrammingFailure (created_name s db_name))
                     else DatabaseCreated db_name]).
Proof.
  intros Htype Hrefuses. unfold create_database_if_not_exists, check_of.
  assert (Hquery :
    (if bool_decide (db_type = "SQL_SERVER")
     then Some (SelectDatabase "sys.databases" db_name)
     else if bool_decide (db_type = "POSTGRESQL")
          then Some (SelectDatabase "pg_database" db_name) else None)
    = Some (SelectDatabase (if bool_decide (db_type = "SQL_SERVER")
                            then "sys.databases" else "pg_database") db_name)).
  { destruct Htype as [->| ->]; done. }
  cbv zeta. rewrite Hquery. unfold execute at 1, say.
  cbn [databases folds_names refuses executed printed]. rewrite Hrefuses.
  destruct (List.filter _ (databases s)) as [|d ds] eqn:Hfilter.
  - apply filter_name_nil in Hfilter.
    unfold execute, created_name.
    cbn [databases folds_names refuses executed printed]. rewrite Hrefuses.
    rewrite !(bool_decide_eq_false_2 (db_name ∈ databases s)) by done.
    fold (created_name s db_name).
    destruct (bool_decide (created_name s db_name ∈ databases s)).
    + unfold handled, say. eexists. split; [reflexivity|]. cbn.
      rewrite app_nil_r, <- !app_assoc. done.
    + eexists. split; [reflexivity|]. cbn. rewrite <- !app_assoc. done.
  - assert (Hin : db_name ∈ databases s).
    { destruct (decide (db_name ∈ databases s)) as [|Hnin]; [done|].
      apply filter_name_nil in Hnin. by rewrite Hnin in Hfilter. }
    rewrite !(bool_decide_eq_true_2 (db_name ∈ databases s)) by done.
    eexists. split; [reflexivity|]. cbn. rewrite app_nil_r, <- !app_assoc. done.
Qed.

(** X13: on a server that refuses nothing, for a name that the server
    keeps as it is written (SQL Server, with no database that differs from
    the name by case only; PostgreSQL for a name in lower case), the call
    returns normally and the database is there afterwards; the databases
    that were there stay, in their order; the creation is sent only when
    the name was missing, after the look-up, and then once; and a second
    call sends its look-up and nothing else. *)
Theorem database_created_once (db_name db_type : string) (s : Server) :
  (db_type = "SQL_SERVER" ∧ folds_names s = false
   ∧ Forall (λ d, lower d = lower db_name → d = db_name) (databases s))
  ∨ (db_type = "POSTGRESQL" ∧ folds_names s = true ∧ lower db_name = db_name) →
  (∀ st, refuses s st = None) →
  ∃ s1 s2,
    create_database_if_not_exists db_name db_type s = (inr tt, s1)
    ∧ db_name ∈ databases s1
    ∧ databases s1
      = databases s ++ (if bool_decide (db_name ∈ databases s) then [] else [db_name])
    ∧ executed s1
      = executed s ++ check_of db_name db_type
          :: (if bool_decide (db_name ∈ databases s) then []
              else [CreateDatabase db_name])
    ∧ create_database_if_not_exists db_name db_type s1 = (inr tt, s2)
    ∧ databases s2 = databases s1
    ∧ executed s2 = executed s1 ++ [check_of db_name db_type].
Proof.
  intros Hkind Hrefuses.
  assert (Htype : db_type = "SQL_SERVER" ∨ db_type = "POSTGRESQL").
  { destruct Hkind as [[-> _]|[-> _]]; [by left|by right]. }
  assert (Hname : created_name s db_name = db_name).
  { unfold created_name.
    destruct Hkind as [(_ & -> & _)|(_ & -> & Hlower)]; done. }
  destruct (create_database_call db_name db_type s Htype Hrefuses)
    as (s1 & Hrun1 & Hfolds1 & Hrefuses1 & Hdbs1 & Hexec1 & _).
  rewrite Hname in Hdbs1.
  assert (Hdbs1' : databases s1
                   = databases s
                     ++ (if bool_decide (db_name ∈ databases s) then [] else [db_name])).
  { rewrite Hdbs1. by destruct (bool_decide (db_name ∈ databases s)). }
  assert (Hin1 : db_name ∈ databases s1).
  { rewrite Hdbs1'. case_bool_decide; [by rewrite app_nil_r|].
    apply elem_of_app. right. left. }
  destruct (create_database_call db_name db_type s1 Htype)
    as (s2 & Hrun2 & _ & _ & Hdbs2 & Hexec2 & _).
  { intros st. by rewrite Hrefuses1. }
  rewrite (bool_decide_eq_true_2 (db_name ∈ databases s1)) in Hdbs2, Hexec2 by done.
  rewrite app_nil_r in Hdbs2.
  exists s1, s2. done.
Qed.

(** X16: on a PostgreSQL server that refuses nothing, for a name that has
    a capital letter and is no database as it is written: the creation
    makes the database under the name in lower case, which the look-up,
    that compares the name as written, does not find; so a second call
    sends the creation again, the server answers that the name is taken,
    and the call prints its warning and returns normally. *)
Theorem folded_name_created_again (db_name : string) (s : Server) :
  folds_names s = true →
  (∀ st, refuses s st = None) →
  lower db_name ≠ db_name →
  db_name ∉ databases s →
  ∃ s1 s2,
    create_database_if_not_exists db_name "POSTGRESQL" s = (inr tt, s1)
    ∧ lower db_name ∈ databases s1
    ∧ db_name ∉ databases s1
    ∧ create_database_if_not_exists db_name "POSTGRESQL" s1 = (inr tt, s2)
    ∧ databases s2 = databases s1
    ∧ executed s2
      = executed s1 ++ [check_of db_name "POSTGRESQL"; CreateDatabase db_name]
    ∧ printed s2
      = printed s1
        ++ [CheckingForDatabase db_name; DatabaseNotFound db_name;
            CouldNotCheckOrCreate (ProgrammingFailure (lower db_name))].
Proof.
  intros Hfolds Hrefuses Hcapital Hmissing.
  destruct (create_database_call db_name "POSTGRESQL" s (or_intror eq_refl) Hrefuses)
    as (s1 & Hrun1 & Hfolds1 & Hrefuses1 & Hdbs1 & _).
  unfold created_name in Hdbs1. rewrite Hfolds in Hdbs1.
  rewrite (bool_decide_eq_false_2 (db_name ∈ databases s)) in Hdbs1 by done.
  assert (Hin1 : lower db_name ∈ databases s1).
  { rewrite Hdbs1. case_bool_decide as Hin; [by rewrite app_nil_r|].
    apply elem_of_app. right. left. }
  assert (Hnin1 : db_name ∉ databases s1).
  { rewrite Hdbs1. intros [Hin|Hin]%elem_of_app; [done|].
    case_bool_decide; [by apply elem_of_nil in Hin|].
    apply list_elem_of_singleton in Hin. by symmetry in Hin. }
  destruct (create_database_call db_name "POSTGRESQL" s1 (or_intror eq_refl))
    as (s2 & Hrun2 & _ & _ & Hdbs2 & Hexec2 & Hprinted2).
  { intros st. by rewrite Hrefuses1. }
  unfold created_name in Hdbs2, Hprinted2. rewrite Hfolds1, Hfolds in Hdbs2, Hprinted2.
  rewrite (bool_decide_eq_false_2 (db_name ∈ databases s1)) in Hdbs2, Hexec2, Hprinted2
    by done.
  rewrite (bool_decide_eq_true_2 (lower db_name ∈ databases s1)) in Hdbs2, Hprinted2
    by done.
  rewrite app_nil_r in Hdbs2.
  exists s1, s2. done.
Qed.

(** X14: a server that refuses the look-up with a [ProgrammingError] makes
    the call print its warning and return normally, with no creation sent
    and the databases as they were; refused with any other error, the call
    raises it. *)
Theorem refused_check_is_not_fatal (db_name db_type : string) (s : Server)
    (e : ServerError) :
  db_type = "SQL_SERVER" ∨ db_type = "POSTGRESQL" →
  refuses s (check_of db_name db_type) = Some e →
  ∃ s1,
    create_database_if_not_exists db_name db_type s
    = (match e with
       | ProgrammingFailure _ => inr tt
       | OtherFailure _ => inl (Fatal e)
       end, s1)
    ∧ databases s1 = databases s
    ∧ executed s1 = executed s ++ [check_of db_name db_type]
    ∧ printed s1
      = printed s
        ++ [CheckingForDatabase db_name;
            match e with
            | ProgrammingFailure _ => CouldNotCheckOrCreate e
            | OtherFailure _ => FatalDuringCheck e
            end].
Proof.
  intros Htype Hrefused. unfold create_database_if_not_exists, check_of in *.
  assert (Hquery :
    (if bool_decide (db_type = "SQL_SERVER")
     then Some (SelectDatabase "sys.databases" db_name)
     else if bool_decide (db_type = "POSTGRESQL")
          then Some (SelectDatabase "pg_database" db_name) else None)
    = Some (SelectDatabase (if bool_decide (db_type = "SQL_SERVER")
                            then "sys.databases" else "pg_database") db_name)).
  { destruct Htype as [->| ->]; done. }
  cbv zeta. rewrite Hquery. unfold execute, say.
  cbn [databases folds_names refuses executed printed]. rewrite Hrefused.
  unfold handled, say.
  destruct e; eexists; (split; [reflexivity|]); cbn; by rewrite <- app_assoc.
Qed.

(** A SQL Server with one database, that refuses nothing. *)
Definition willing_server : Server :=
  {| databases := ["master"]; folds_names := false; refuses := λ _, None;
     executed := []; printed := [] |}.

(** A PostgreSQL server with one database, that refuses nothing. *)
Definition folding_server : Server :=
  {| databases := ["postgres"]; folds_names := true; refuses := λ _, None;
     executed := []; printed := [] |}.

(** A PostgreSQL server for a login that may not read the catalog. *)
Definition reluctant_server : Server :=
  {| databases := ["postgres"];
     folds_names := true;
     refuses := λ st, match st with
                      | SelectDatabase _ _ => Some (ProgrammingFailure "permission denied")
                      | CreateDatabase _ => None
                      end;
     executed := [];
     printed := [] |}.

Lemma database_created_once_witness :
  ∃ s1 s2,
    create_database_if_not_exists "Witside_Production_Floor_DWH" "SQL_SERVER"
      willing_server = (inr tt, s1)
    ∧ databases s1 = ["master"; "Witside_Production_Floor_DWH"]
    ∧ create_database_if_not_exists "Witside_Production_Floor_DWH" "SQL_SERVER" s1
      = (inr tt, s2)
    ∧ databases s2 = databases s1.
Proof.
  assert (H : Forall (λ d, lower d = lower "Witside_Production_Floor_DWH"
                           → d = "Witside_Production_Floor_DWH")
                (databases willing_server)).
  { apply Forall_cons_2; [|apply Forall_nil_2].
    intros Heq. vm_compute in Heq. discriminate Heq. }
  destruct (database_created_once "Witside_Production_Floor_DWH" "SQL_SERVER"
              willing_server (or_introl (conj eq_refl (conj eq_refl H)))
              (λ st, eq_refl))
    as (s1 & s2 & Hrun1 & _ & Hdbs1 & _ & Hrun2 & Hdbs2 & _).
  exists s1, s2.
  exact (conj Hrun1 (conj Hdbs1 (conj Hrun2 Hdbs2))).
Defined.

Lemma folded_name_created_again_witness :
  lower "Witside_Production_Floor_DWH" ≠ "Witside_Production_Floor_DWH"
  ∧ ("Witside_Production_Floor_DWH" ∉ databases folding_server)
  ∧ ∃ s1 s2,
      create_database_if_not_exists "Witside_Production_Floor_DWH" "POSTGRESQL"
        folding_server = (inr tt, s1)
      ∧ lower "Witside_Production_Floor_DWH" ∈ databases s1
      ∧ create_database_if_not_exists "Witside_Production_Floor_DWH" "POSTGRESQL" s1
        = (inr tt, s2)
      ∧ executed s2
        = executed s1
          ++ [check_of "Witside_Production_Floor_DWH" "POSTGRESQL";
              CreateDatabase "Witside_Production_Floor_DWH"].
Proof.
  assert (H1 : lower "Witside_Production_Floor_DWH" ≠ "Witside_Production_Floor_DWH")
    by (vm_compute; discriminate).
  assert (H2 : "Witside_Production_Floor_DWH" ∉ databases folding_server).
  { refine (bool_decide_unpack _ _). vm_compute. exact I. }
  split; [exact H1|]. split; [exact H2|].
  destruct (folded_name_created_again "Witside_Production_Floor_DWH" folding_server
              eq_refl (λ st, eq_refl) H1 H2)
    as (s1 & s2 & Hrun1 & Hin1 & _ & Hrun2 & _ & Hexec2 & _).
  exists s1, s2.
  exact (conj Hrun1 (conj Hin1 (conj Hrun2 Hexec2))).
Defined.

Lemma refused_check_is_not_fatal_witness :
  refuses reluctant_server (check_of "Witside_Production_Floor_DWH" "POSTGRESQL")
  = Some (ProgrammingFailure "permission denied")
  ∧ ∃ s1,
      create_database_if_not_exists "Witside_Production_Floor_DWH" "POSTGRESQL"
        reluctant_server = (inr tt, s1)
      ∧ databases s1 = databases reluctant_server.
Proof.
  assert (H : refuses reluctant_server
                (check_of "Witside_Production_Floor_DWH" "POSTGRESQL")
              = Some (ProgrammingFailure "permission denied")) by reflexivity.
  split; [exact H|].
  destruct (refused_check_is_not_fatal "Witside_Production_Floor_DWH" "POSTGRESQL"
              reluctant_server _ (or_intror eq_refl) H)
    as (s1 & Hrun & Hdbs & _).
  exists s1. exact (conj Hrun Hdbs).
Defined.

(** ** On the example warehouses *)

(** A file with no [status] column. *)
Definition no_status_batch : DataFrame :=
  csv_frame ["production_line_id"; "timestamp"]
    [ [Int 1; Str "2024-01-01 00:15:00"] ].

(** A server with no table at all. *)
Definition empty_warehouse : World :=
  {| files := ∅; quarantine_file := None; reread := plain_reread;
     tables := ∅; db_log := []; stdout := [] |}.

(** The first accepted event of [scenario_batch]. *)
Definition scenario_accepted_row : nat * Row :=
  Eval vm_compute in default (0, ∅) (rows scenario_accepted !! 0).

(** A rendering of cells that is enough for the examples. *)
Definition text_of (x : Value) : string :=
  match x with
  | Str s => s
  | _ => "nan"
  end.

Lemma missing_column_rejected_witness :
  "status" ∈ expected_raw_cols
  ∧ ("status" ∉ columns no_status_batch)
  ∧ ∃ before missing after,
      transform_raw_data Iso8601.to_datetime no_status_batch
      = inl (ValueError missing)
      ∧ expected_raw_cols = before ++ missing :: after
      ∧ (missing ∉ columns no_status_batch)
      ∧ Forall (λ c, c ∈ columns no_status_batch) before.
Proof.
  assert (H1 : "status" ∈ expected_raw_cols).
  { refine (bool_decide_unpack _ _). vm_compute. exact I. }
  assert (H2 : "status" ∉ columns no_status_batch).
  { refine (bool_decide_unpack _ _). vm_compute. exact I. }
  split; [exact H1|]. split; [exact H2|].
  exact (missing_column_rejected Iso8601.to_datetime no_status_batch "status" H1 H2).
Defined.

Lemma row_counts_add_up_witness :
  transform_raw_data Iso8601.to_datetime scenario_batch
  = inr (scenario_accepted,
         mask (λ r, negb (is_valid r)) (transformed Iso8601.to_datetime scenario_batch))
  ∧ len scenario_accepted
    + len (mask (λ r, negb (is_valid r))
             (transformed Iso8601.to_datetime scenario_batch))
    = len scenario_batch.
Proof.
  assert (H : transform_raw_data Iso8601.to_datetime scenario_batch
              = inr (scenario_accepted,
                     mask (λ r, negb (is_valid r))
                       (transformed Iso8601.to_datetime scenario_batch)))
    by (vm_compute; reflexivity).
  split; [exact H|].
  exact (row_counts_add_up Iso8601.to_datetime _ _ _ H).
Defined.

Lemma missing_input_file_aborts_witness :
  files fresh_warehouse !! "missing.csv" = None
  ∧ (run_etl_pipeline Iso8601.to_datetime "missing.csv" true fresh_warehouse).1
    = Raised (FileNotFoundError "missing.csv").
Proof.
  assert (H : files fresh_warehouse !! "missing.csv" = None)
    by (vm_compute; reflexivity).
  split; [exact H|].
  exact (f_equal fst
           (missing_input_file_aborts Iso8601.to_datetime "missing.csv" true
              fresh_warehouse H)).
Defined.

Lemma rejects_rewrite_quarantine_file_witness :
  files scenario_warehouse !! "events.csv" = Some scenario_batch
  ∧ rows (mask (λ r, negb (is_valid r))
            (transformed Iso8601.to_datetime scenario_batch)) ≠ []
  ∧ quarantine_file
      (run_etl_pipeline Iso8601.to_datetime "events.csv" false scenario_warehouse).2
    = Some (columns (mask (λ r, negb (is_valid r))
                       (transformed Iso8601.to_datetime scenario_batch)),
            (rows (mask (λ r, negb (is_valid r))
                     (transformed Iso8601.to_datetime scenario_batch))).*2).
Proof.
  assert (H1 : files scenario_warehouse !! "events.csv" = Some scenario_batch)
    by (vm_compute; reflexivity).
  assert (H2 : transform_raw_data Iso8601.to_datetime scenario_batch
               = inr (scenario_accepted,
                      mask (λ r, negb (is_valid r))
                        (transformed Iso8601.to_datetime scenario_batch)))
    by (vm_compute; reflexivity).
  assert (H3 : rows (mask (λ r, negb (is_valid r))
                       (transformed Iso8601.to_datetime scenario_batch)) ≠ [])
    by (vm_compute; discriminate).
  split; [exact H1|]. split; [exact H3|].
  exact (rejects_rewrite_quarantine_file Iso8601.to_datetime "events.csv" false
           scenario_warehouse _ _ _ H1 H2 H3).
Defined.

Lemma only_quarantine_file_written_witness :
  "events.csv" ≠ QUARANTINE_FILE
  ∧ files (run_etl_pipeline Iso8601.to_datetime "events.csv" true
             scenario_warehouse).2 !! "events.csv"
    = files scenario_warehouse !! "events.csv".
Proof.
  assert (H : "events.csv" ≠ QUARANTINE_FILE) by (vm_compute; discriminate).
  split; [exact H|].
  exact (only_quarantine_file_written Iso8601.to_datetime "events.csv" true
           scenario_warehouse "events.csv" H).
Defined.

(** A run on the quarantine file of an earlier run, put there as input. *)
Definition quarantine_as_input : World :=
  {| files := {[QUARANTINE_FILE := scenario_batch]};
     quarantine_file := None;
     reread := plain_reread;
     tables := {["Dim_ProductionLine" := []]};
     db_log := [];
     stdout := [] |}.

Lemma input_at_quarantine_path_overwritten_witness :
  files quarantine_as_input !! QUARANTINE_FILE = Some scenario_batch
  ∧ rows (mask (λ r, negb (is_valid r))
            (transformed Iso8601.to_datetime scenario_batch)) ≠ []
  ∧ files (run_etl_pipeline Iso8601.to_datetime QUARANTINE_FILE false
             quarantine_as_input).2 !! QUARANTINE_FILE
    = Some (plain_reread
              (columns (mask (λ r, negb (is_valid r))
                          (transformed Iso8601.to_datetime scenario_batch)))
              (rows (mask (λ r, negb (is_valid r))
                       (transformed Iso8601.to_datetime scenario_batch))).*2).
Proof.
  assert (H1 : files quarantine_as_input !! QUARANTINE_FILE = Some scenario_batch)
    by (vm_compute; reflexivity).
  assert (H2 : transform_raw_data Iso8601.to_datetime scenario_batch
               = inr (scenario_accepted,
                      mask (λ r, negb (is_valid r))
                        (transformed Iso8601.to_datetime scenario_batch)))
    by (vm_compute; reflexivity).
  assert (H3 : rows (mask (λ r, negb (is_valid r))
                       (transformed Iso8601.to_datetime scenario_batch)) ≠ [])
    by (vm_compute; discriminate).
  split; [exact H1|]. split; [exact H3|].
  exact (input_at_quarantine_path_overwritten Iso8601.to_datetime false
           quarantine_as_input _ _ _ H1 H2 H3).
Defined.

Lemma missing_dimension_table_aborts_witness :
  "production_line_id" ∈ columns scenario_accepted
  ∧ column "production_line_id" scenario_accepted ≠ []
  ∧ tables empty_warehouse !! "Dim_ProductionLine" = None
  ∧ (check_and_insert_dimension scenario_accepted "production_line_id"
       "Dim_ProductionLine" empty_warehouse).1
    = Raised (ProgrammingError "Dim_ProductionLine").
Proof.
  assert (H1 : "production_line_id" ∈ columns scenario_accepted).
  { refine (bool_decide_unpack _ _). vm_compute. exact I. }
  assert (H2 : column "production_line_id" scenario_accepted ≠ [])
    by (vm_compute; discriminate).
  assert (H3 : tables empty_warehouse !! "Dim_ProductionLine" = None)
    by (vm_compute; reflexivity).
  split; [exact H1|]. split; [exact H2|]. split; [exact H3|].
  exact (f_equal fst
           (missing_dimension_table_aborts scenario_accepted "production_line_id"
              "Dim_ProductionLine" empty_warehouse H1 H2 H3)).
Defined.

Lemma loaded_facts_have_dimension_keys_witness :
  files scenario_warehouse !! "events.csv" = Some scenario_batch
  ∧ tables scenario_warehouse !! "Dim_ProductionLine" = Some []
  ∧ ∃ w' dim' added,
      run_etl_pipeline Iso8601.to_datetime "events.csv" true scenario_warehouse
      = (Ok tt, w')
      ∧ default [] (tables w' !! TARGET_TABLE)
        = default [] (tables scenario_warehouse !! TARGET_TABLE) ++ added
      ∧ tables w' !! "Dim_ProductionLine" = Some dim'
      ∧ Forall (λ r, cell r "production_line_id"
                     ∈ dimension_keys "production_line_id" dim') added.
Proof.
  assert (H1 : files scenario_warehouse !! "events.csv" = Some scenario_batch)
    by (vm_compute; reflexivity).
  assert (H2 : transform_raw_data Iso8601.to_datetime scenario_batch
               = inr (scenario_accepted,
                      mask (λ r, negb (is_valid r))
                        (transformed Iso8601.to_datetime scenario_batch)))
    by (vm_compute; reflexivity).
  assert (H3 : tables scenario_warehouse !! "Dim_ProductionLine" = Some [])
    by (vm_compute; reflexivity).
  split; [exact H1|]. split; [exact H3|].
  exact (loaded_facts_have_dimension_keys Iso8601.to_datetime "events.csv"
           scenario_warehouse _ _ _ [] H1 H2 H3).
Defined.

Lemma high_water_mark_never_decreases_witness :
  columns scenario_accepted ≠ []
  ∧ covers (high_water_mark scenario_warehouse) 1704067800000000000
  ∧ covers
      (high_water_mark
         (load_fact_process_events scenario_accepted scenario_warehouse).2)
      1704067800000000000.
Proof.
  assert (H1 : columns scenario_accepted ≠ []) by (vm_compute; discriminate).
  assert (H2 : covers (high_water_mark scenario_warehouse) 1704067800000000000).
  { exists 1704067800000000000%Z. split; [vm_compute; reflexivity|lia]. }
  split; [exact H1|]. split; [exact H2|].
  exact (high_water_mark_never_decreases scenario_accepted scenario_warehouse _ H1 H2).
Defined.

Lemma first_load_in_time_order_witness :
  tables fresh_warehouse !! TARGET_TABLE = None
  ∧ (λ r, cell r "event_time")
      <$> default []
            (tables (load_fact_process_events scenario_accepted fresh_warehouse).2
               !! TARGET_TABLE)
    = Timestamp <$> times "event_time" scenario_accepted
  ∧ StronglySorted Z.le (times "event_time" scenario_accepted).
Proof.
  assert (H1 : transform_raw_data Iso8601.to_datetime scenario_batch
               = inr (scenario_accepted,
                      mask (λ r, negb (is_valid r))
                        (transformed Iso8601.to_datetime scenario_batch)))
    by (vm_compute; reflexivity).
  assert (H2 : tables fresh_warehouse !! TARGET_TABLE = None)
    by (vm_compute; reflexivity).
  split; [exact H2|].
  exact (first_load_in_time_order Iso8601.to_datetime _ _ _ fresh_warehouse H1 H2).
Defined.

Lemma accepted_status_ids_witness :
  scenario_accepted_row ∈ rows scenario_accepted
  ∧ ∃ name z,
      cell scenario_accepted_row.2 "status_name" = Str name
      ∧ cell scenario_accepted_row.2 "status_id" = Int z
      ∧ STATUS_MAP !! name = Some z
      ∧ (name, z) ∈ [("START", 1%Z); ("ON", 2%Z); ("STOP", 3%Z)].
Proof.
  assert (H1 : transform_raw_data Iso8601.to_datetime scenario_batch
               = inr (scenario_accepted,
                      mask (λ r, negb (is_valid r))
                        (transformed Iso8601.to_datetime scenario_batch)))
    by (vm_compute; reflexivity).
  assert (H2 : (scenario_accepted_row.1, scenario_accepted_row.2)
               ∈ rows scenario_accepted).
  { apply (list_elem_of_lookup_2 _ 0). vm_compute. reflexivity. }
  split; [exact H2|].
  exact (accepted_status_ids Iso8601.to_datetime _ _ _ _ _ H1 H2).
Defined.

Lemma markdown_table_lines_witness :
  empty scenario_batch = false
  ∧ str_len (header scenario_batch) = 48
  ∧ str_len (separator scenario_batch) = 45.
Proof.
  assert (H : empty scenario_batch = false) by (vm_compute; reflexivity).
  split; [exact H|].
  destruct (markdown_table_lines text_of scenario_batch H) as (_ & -> & -> & _).
  split; vm_compute; reflexivity.
Defined.
